(** * The knowledge-graph core: storage, retry executor, cache coordinator
      and the entity / relation / observation / search operations.

    A shallow embedding of
      - [knowledge_graph_core_facade/kg_utils.py]
      - [knowledge_graph_core_facade/kg_models_all.py]
      - [knowledge_graph_core_facade/db_handler.py] (the schema)
      - [core/utils/json_utils.py]
      - [features/knowledge_graph_entities/ops_entity_crud.py]
      - [features/knowledge_graph_relations/ops_relation_crud.py]
      - [features/knowledge_graph_observations/ops_observation_crud.py]
      - [features/knowledge_graph_search/search_ops.py]

    Python values are modelled as follows.  [str] is [string] (a byte
    string: [encode()] is the identity, and the character classes of
    [strip] and [lower] are the ASCII ones); [int] is [Z]; [float] is the
    kernel's binary64 [float]; a JSON-compatible value ([None], [bool],
    [int], [float], [str], [list], [dict]) is a [json]; a [dict] keeps its
    insertion order in an association list.  Code that raises returns
    [Raise e]; code that mutates the connection, the cache or reads the
    clock runs in the state monad [M] over [World].  The module logger and
    the optional context logger only write log lines and are left out:
    every operation is taken with [context_logger=None]. *)

From Stdlib Require Import ZArith List String Ascii Floats Lia Bool Permutation.
From Stdlib Require Import DecimalString Sorted.
From stdpp Require Import base gmap strings sorting.

Set Warnings "-inexact-float,-register-all".
Local Open Scope string_scope.
Local Open Scope list_scope.

(** ** Python values *)

Inductive json : Type :=
| JNull
| JBool (b : bool)
| JInt (z : Z)
| JFloat (f : float)
| JStr (s : string)
| JArr (items : list json)
| JObj (fields : list (string * json)).

Definition datetime : Type := Z.

(** A field that should hold a [datetime] but, Python being untyped, holds
    whatever [from_dict] found when the value was not a string. *)
Inductive timeval : Type :=
| Time (t : datetime)
| NotTime (v : json).

(** Truth value of a Python object, as [if x:] computes it. *)
Definition truthy (v : json) : bool :=
  match v with
  | JNull => false
  | JBool b => b
  | JInt z => negb (z =? 0)%Z
  | JFloat f => negb (PrimFloat.eqb f 0%float)
  | JStr s => negb (String.eqb s "")
  | JArr items => match items with [] => false | _ => true end
  | JObj fields => match fields with [] => false | _ => true end
  end.

Definition str_truthy (s : string) : bool := truthy (JStr s).

(** ** Strings *)

Module Str.

(** [sep.join(parts)] *)
Fixpoint join (sep : string) (parts : list string) : string :=
  match parts with
  | [] => ""
  | [p] => p
  | p :: rest => p +:+ sep +:+ join sep rest
  end.

(** [s.startswith(p)] *)
Fixpoint startswith (s p : string) : bool :=
  match p, s with
  | EmptyString, _ => true
  | String _ _, EmptyString => false
  | String b p', String a s' => Ascii.eqb a b && startswith s' p'
  end.

(** [sub in s] *)
Fixpoint contains (sub s : string) : bool :=
  startswith s sub ||
  match s with
  | EmptyString => false
  | String _ s' => contains sub s'
  end.

Definition is_upper (a : ascii) : bool :=
  ((65 <=? nat_of_ascii a) && (nat_of_ascii a <=? 90))%nat.

Definition lower_ascii (a : ascii) : ascii :=
  if is_upper a then ascii_of_nat (nat_of_ascii a + 32) else a.

(** [s.lower()] *)
Fixpoint lower (s : string) : string :=
  match s with
  | EmptyString => EmptyString
  | String a s' => String (lower_ascii a) (lower s')
  end.

(** The characters [str.strip()] removes: TAB, LF, VT, FF, CR, the
    separators 0x1c to 0x1f, and the space. *)
Definition is_space (a : ascii) : bool :=
  let n := nat_of_ascii a in
  (((9 <=? n) && (n <=? 13)) || ((28 <=? n) && (n <=? 31)) || (n =? 32))%nat.

Fixpoint lstrip (s : string) : string :=
  match s with
  | EmptyString => EmptyString
  | String a s' => if is_space a then lstrip s' else s
  end.

Fixpoint rstrip (s : string) : string :=
  match s with
  | EmptyString => EmptyString
  | String a s' =>
      match rstrip s' with
      | EmptyString => if is_space a then EmptyString else String a EmptyString
      | r => String a r
      end
  end.

(** [s.strip()] *)
Definition strip (s : string) : string := rstrip (lstrip s).

(** [str(z)] for an [int] *)
Definition of_Z (z : Z) : string := NilZero.string_of_int (Z.to_int z).

End Str.

(** ** Exceptions *)

Inductive exn : Type :=
| ValueError (msg : string)
| TypeError (msg : string)
| KeyError (msg : string)
| EntityNotFoundError (msg : string)
| KnowledgeGraphError (msg : string)
| OperationalError (msg : string)      (* sqlite3.OperationalError *)
| IntegrityError (msg : string)        (* sqlite3.IntegrityError *)
| OtherError (msg : string).           (* any other [Exception] *)

(** [str(e)]: the message; for a [KeyError], the [repr] of the key. *)
Definition exn_str (e : exn) : string :=
  match e with
  | KeyError k => "'" +:+ k +:+ "'"
  | ValueError m | TypeError m | EntityNotFoundError m
  | KnowledgeGraphError m | OperationalError m | IntegrityError m
  | OtherError m => m
  end.

Inductive outcome (A : Type) : Type :=
| Return (a : A)
| Raise (e : exn).
Arguments Return {A} a.
Arguments Raise {A} e.

(** ** The library functions the code calls

    [hashlib], [json] and [datetime] are not part of the repository.  The
    operations are parametric in them; a [None] result stands for the
    exception the Python function raises. *)

Record Runtime : Type := {
  md5_hexdigest : string -> string;         (* hashlib.md5(b).hexdigest() *)
  json_dumps : json -> string;              (* json.dumps *)
  json_loads : string -> option json;       (* json.loads *)
  isoformat : datetime -> string;           (* datetime.isoformat *)
  fromisoformat : string -> option datetime;(* datetime.fromisoformat *)
  repr : json -> string                     (* str() of floats, lists, dicts *)
}.

(** ** The storage schema ([db_handler.py]) *)

Record EntityRow : Type := {
  e_id : string;                 (* id TEXT PRIMARY KEY *)
  e_name : string;               (* name TEXT NOT NULL *)
  e_entity_type : string;        (* entity_type TEXT NOT NULL *)
  e_embedding : option string;   (* embedding TEXT *)
  e_created_at : string;         (* created_at TIMESTAMP NOT NULL *)
  e_updated_at : string;         (* updated_at TIMESTAMP NOT NULL *)
  e_properties : option string   (* properties TEXT *)
}.

Record ObservationRow : Type := {
  o_id : string;
  o_entity_id : string;          (* REFERENCES entities (id) ON DELETE CASCADE *)
  o_observation : string;
  o_embedding : option string;
  o_created_at : string;
  o_properties : option string
}.

Record RelationRow : Type := {
  r_id : string;
  r_from_entity_id : string;     (* REFERENCES entities (id) ON DELETE CASCADE *)
  r_to_entity_id : string;       (* REFERENCES entities (id) ON DELETE CASCADE *)
  r_relation_type : string;
  r_confidence : option float;   (* confidence REAL DEFAULT 1.0 *)
  r_created_at : string;
  r_properties : option string
}.

(** The three tables, each in rowid order. *)
Record Database : Type := {
  entities : list EntityRow;
  observations : list ObservationRow;
  relations : list RelationRow
}.

Definition empty_database : Database :=
  {| entities := []; observations := []; relations := [] |}.

(** ** The cache backend ([CacheProvider]) *)

Record Cache : Type := {
  store : gmap string (string * Z);   (* key -> (value, ttl in seconds) *)
  has_keys : bool;                    (* hasattr(cache_provider, 'keys') *)
  cache_faults : list bool            (* true: the next call raises *)
}.

(** ** The world an operation runs in *)

Record World : Type := {
  db : Database;                      (* what the connection sees *)
  committed : Database;               (* the last committed state *)
  faults : list (option exn);         (* what the next cursor.execute calls raise *)
  executes : nat;                     (* cursor.execute calls so far *)
  retry_invocations : nat;            (* execute_with_retry calls so far *)
  sleeps : list float;                (* arguments of time.sleep so far *)
  redis : option Cache;               (* redis_client *)
  uuid_source : nat -> string;        (* the values uuid.uuid4() returns *)
  uuid_drawn : nat;
  clock_source : nat -> datetime;     (* the values datetime.now() returns *)
  clock_read : nat
}.

Definition with_db (d : Database) (w : World) : World :=
  {| db := d; committed := committed w; faults := faults w;
     executes := executes w; retry_invocations := retry_invocations w;
     sleeps := sleeps w; redis := redis w;
     uuid_source := uuid_source w; uuid_drawn := uuid_drawn w;
     clock_source := clock_source w; clock_read := clock_read w |}.

Definition with_committed (d : Database) (w : World) : World :=
  {| db := db w; committed := d; faults := faults w;
     executes := executes w; retry_invocations := retry_invocations w;
     sleeps := sleeps w; redis := redis w;
     uuid_source := uuid_source w; uuid_drawn := uuid_drawn w;
     clock_source := clock_source w; clock_read := clock_read w |}.

Definition with_faults (fs : list (option exn)) (w : World) : World :=
  {| db := db w; committed := committed w; faults := fs;
     executes := executes w; retry_invocations := retry_invocations w;
     sleeps := sleeps w; redis := redis w;
     uuid_source := uuid_source w; uuid_drawn := uuid_drawn w;
     clock_source := clock_source w; clock_read := clock_read w |}.

Definition with_executes (n : nat) (w : World) : World :=
  {| db := db w; committed := committed w; faults := faults w;
     executes := n; retry_invocations := retry_invocations w;
     sleeps := sleeps w; redis := redis w;
     uuid_source := uuid_source w; uuid_drawn := uuid_drawn w;
     clock_source := clock_source w; clock_read := clock_read w |}.

Definition with_retry_invocations (n : nat) (w : World) : World :=
  {| db := db w; committed := committed w; faults := faults w;
     executes := executes w; retry_invocations := n;
     sleeps := sleeps w; redis := redis w;
     uuid_source := uuid_source w; uuid_drawn := uuid_drawn w;
     clock_source := clock_source w; clock_read := clock_read w |}.

Definition with_sleeps (l : list float) (w : World) : World :=
  {| db := db w; committed := committed w; faults := faults w;
     executes := executes w; retry_invocations := retry_invocations w;
     sleeps := l; redis := redis w;
     uuid_source := uuid_source w; uuid_drawn := uuid_drawn w;
     clock_source := clock_source w; clock_read := clock_read w |}.

Definition with_redis (c : option Cache) (w : World) : World :=
  {| db := db w; committed := committed w; faults := faults w;
     executes := executes w; retry_invocations := retry_invocations w;
     sleeps := sleeps w; redis := c;
     uuid_source := uuid_source w; uuid_drawn := uuid_drawn w;
     clock_source := clock_source w; clock_read := clock_read w |}.

Definition with_uuid_drawn (n : nat) (w : World) : World :=
  {| db := db w; committed := committed w; faults := faults w;
     executes := executes w; retry_invocations := retry_invocations w;
     sleeps := sleeps w; redis := redis w;
     uuid_source := uuid_source w; uuid_drawn := n;
     clock_source := clock_source w; clock_read := clock_read w |}.

Definition with_clock_read (n : nat) (w : World) : World :=
  {| db := db w; committed := committed w; faults := faults w;
     executes := executes w; retry_invocations := retry_invocations w;
     sleeps := sleeps w; redis := redis w;
     uuid_source := uuid_source w; uuid_drawn := uuid_drawn w;
     clock_source := clock_source w; clock_read := n |}.

(** ** The monad of operations: state and exceptions *)

Definition M (A : Type) : Type := World -> outcome A * World.

Definition ret {A} (a : A) : M A := fun w => (Return a, w).

Definition raise {A} (e : exn) : M A := fun w => (Raise e, w).

Definition bind {A B} (m : M A) (k : A -> M B) : M B :=
  fun w =>
    match m w with
    | (Return a, w') => k a w'
    | (Raise e, w') => (Raise e, w')
    end.

(** [try: m  except Exception as e: h e] *)
Definition try_except {A} (m : M A) (h : exn -> M A) : M A :=
  fun w =>
    match m w with
    | (Return a, w') => (Return a, w')
    | (Raise e, w') => h e w'
    end.

(** Code that raises but has no other effect. *)
Definition obind {A B} (o : outcome A) (k : A -> outcome B) : outcome B :=
  match o with
  | Return a => k a
  | Raise e => Raise e
  end.

Definition of_option {A} (e : exn) (o : option A) : outcome A :=
  match o with
  | Some a => Return a
  | None => Raise e
  end.

Definition pure {A} (o : outcome A) : M A := fun w => (o, w).

Definition when (b : bool) (m : M unit) : M unit :=
  if b then m else ret tt.

Declare Scope kg_scope.
Delimit Scope kg_scope with kg.
Notation "'let*' x ':=' m 'in' k" := (bind m (fun x => k))
  (at level 10, x name, m at level 100, k at level 200,
   format "'[v' 'let*'  x  ':='  m  'in' '/' k ']'") : kg_scope.
Notation "'run' m 'in' k" := (bind m (fun _ => k))
  (at level 10, m at level 100, k at level 200,
   format "'[v' 'run'  m  'in' '/' k ']'") : kg_scope.
Notation "'let?' x ':=' m 'in' k" := (obind m (fun x => k))
  (at level 10, x name, m at level 100, k at level 200,
   format "'[v' 'let?'  x  ':='  m  'in' '/' k ']'") : kg_scope.
Local Open Scope kg_scope.

(** ** Primitive effects *)

(** A statement is what the storage engine does with it: a result (the
    rows the cursor then holds) or an error, and the new table contents. *)
Definition Statement (A : Type) : Type := Database -> outcome A * Database.

(** [cursor.execute(query, params)]: the engine either raises what the
    fault schedule says (a busy or locked file, an I/O error) and leaves
    the tables alone, or runs the statement. *)
Definition cursor_execute {A} (stmt : Statement A) : M A :=
  fun w =>
    let w1 := with_faults (tl (faults w)) (with_executes (S (executes w)) w) in
    match hd None (faults w) with
    | Some e => (Raise e, w1)
    | None => (fst (stmt (db w1)), with_db (snd (stmt (db w1))) w1)
    end.

(** [conn.commit()] and [conn.rollback()] *)
Definition commit : M unit :=
  fun w => (Return tt, with_committed (db w) w).

Definition rollback : M unit :=
  fun w => (Return tt, with_db (committed w) w).

(** [time.sleep(seconds)] *)
Definition time_sleep (seconds : float) : M unit :=
  fun w => (Return tt, with_sleeps (sleeps w ++ [seconds]) w).

(** [str(uuid.uuid4())] *)
Definition uuid4 : M string :=
  fun w => (Return (uuid_source w (uuid_drawn w)),
            with_uuid_drawn (S (uuid_drawn w)) w).

(** [datetime.now()] *)
Definition datetime_now : M datetime :=
  fun w => (Return (clock_source w (clock_read w)),
            with_clock_read (S (clock_read w)) w).

(** [if redis_client:] *)
Definition redis_client : M bool :=
  fun w => (Return (match redis w with Some _ => true | None => false end), w).

(** A call of a method of the cache client. *)
Definition cache_call {A} (f : Cache -> A * Cache) : M A :=
  fun w =>
    match redis w with
    | None => (Raise (OtherError "'NoneType' object has no attribute"), w)
    | Some c =>
        let c1 := {| store := store c; has_keys := has_keys c;
                     cache_faults := tl (cache_faults c) |} in
        if hd false (cache_faults c)
        then (Raise (OtherError "cache backend error"), with_redis (Some c1) w)
        else (Return (fst (f c1)), with_redis (Some (snd (f c1))) w)
    end.

Definition with_store (m : gmap string (string * Z)) (c : Cache) : Cache :=
  {| store := m; has_keys := has_keys c; cache_faults := cache_faults c |}.

(** Glob matching of a key against a pattern, for the wildcards [*] and
    [?] (the patterns of this code base end in one [*]). *)
Fixpoint glob_match (pat s : string) : bool :=
  match pat with
  | EmptyString => match s with EmptyString => true | _ => false end
  | String c pat' =>
      if Ascii.eqb c "*" then
        (fix star (s : string) : bool :=
           glob_match pat' s ||
           match s with
           | EmptyString => false
           | String _ s' => star s'
           end) s
      else
        match s with
        | EmptyString => false
        | String a s' =>
            (Ascii.eqb c "?" || Ascii.eqb a c) && glob_match pat' s'
        end
  end.

(** [redis_client.get(key)] *)
Definition redis_get (key : string) : M (option string) :=
  cache_call (fun c => (fst <$> store c !! key, c)).

(** [redis_client.set(key, value, ex=ttl)] *)
Definition redis_set (key value : string) (ttl : Z) : M unit :=
  cache_call (fun c => (tt, with_store (<[key := (value, ttl)]> (store c)) c)).

(** [redis_client.keys(pattern)] *)
Definition redis_keys (pattern : string) : M (list string) :=
  cache_call (fun c =>
    (List.filter (glob_match pattern) (fst <$> map_to_list (store c)), c)).

(** [redis_client.delete] applied to the keys *)
Definition redis_delete (keys : list string) : M unit :=
  cache_call (fun c => (tt, with_store (foldr delete (store c) keys) c)).

(** ** [kg_utils.py] *)

Definition default_max_retries : Z := 3.

(** The delay before the retry that follows the [retry_count]-th failure:
    [0.1 * (2 ** retry_count)], the power of two as the float
    [Z.ldexp 1 retry_count]. *)
Definition backoff_delay (retry_count : Z) : float :=
  PrimFloat.mul 0.1%float (Z.ldexp 1%float retry_count).

(** The transient error class: an [OperationalError] whose message says
    that the database is locked. *)
Definition is_locked (e : exn) : bool :=
  match e with
  | OperationalError msg => Str.contains "database is locked" msg
  | _ => false
  end.

(** The loop of [execute_with_retry].  [fuel] bounds the iterations; the
    loop is entered with [fuel = max_retries], which it never exhausts
    before [retry_count < max_retries] fails.  The result is [Some] of what
    the cursor holds, or [None] when the loop ends without a [return]. *)
Fixpoint retry_loop {A} (fuel : nat) (stmt : Statement A)
    (max_retries retry_count : Z) : M (option A) :=
  match fuel with
  | O => ret None
  | S fuel' =>
      if (retry_count <? max_retries)%Z then
        try_except
          (let* r := cursor_execute stmt in ret (Some r))
          (fun e =>
             match e with
             | OperationalError msg =>
                 if Str.contains "database is locked" (exn_str e)
                    && (retry_count <? max_retries - 1)%Z
                 then
                   let retry_count := (retry_count + 1)%Z in
                   run time_sleep (backoff_delay retry_count) in
                   retry_loop fuel' stmt max_retries retry_count
                 else raise e
             | _ => raise e
             end)
      else ret None
  end.

Definition count_invocation : M unit :=
  fun w => (Return tt, with_retry_invocations (S (retry_invocations w)) w).

Definition execute_with_retry {A} (stmt : Statement A) (max_retries : Z)
  : M (option A) :=
  run count_invocation in
  retry_loop (Z.to_nat max_retries) stmt max_retries 0.

(** What [cursor.fetchall()] and [cursor.fetchone()] return after
    [execute_with_retry]. *)
Definition fetchall {R} (cursor : option (list R)) : list R :=
  match cursor with
  | Some rows => rows
  | None => []
  end.

Definition fetchone {R} (cursor : option (list R)) : option R :=
  head (fetchall cursor).

(** [hasattr(cache_provider, 'keys')] *)
Definition redis_has_keys : M bool :=
  fun w => (Return (match redis w with Some c => has_keys c | None => false end), w).

(** [invalidate_cache(cache_provider, pattern)] *)
Definition invalidate_cache (pattern : string) : M unit :=
  let* configured := redis_client in
  if negb configured then ret tt
  else
    try_except
      (let* listing := redis_has_keys in
       if listing then
         let* keys := redis_keys pattern in
         match keys with
         | [] => ret tt
         | _ => redis_delete keys
         end
       else redis_delete [pattern])
      (fun _ => ret tt).

(** ** The model classes ([kg_models_all.py]) *)

Module Entity.
Record t : Type := {
  name : string;
  entity_type : string;
  embedding : json;          (* Optional[List[float]] *)
  id : string;
  created_at : timeval;
  updated_at : timeval;
  properties : json          (* Dict[str, Any] *)
}.
End Entity.

Module Observation.
Record t : Type := {
  entity_id : string;
  observation : string;
  embedding : json;
  id : string;
  created_at : timeval;
  properties : json
}.
End Observation.


(** A candidate and a result of [search_entities]: the [dict]s the
    function builds from a row. *)
Module Candidate.
Record t : Type := {
  id : string;
  name : string;
  entity_type : string;
  embedding : json;
  created_at : string;
  updated_at : string;
  properties : json
}.
End Candidate.

Module SearchResult.
Record t : Type := {
  id : string;
  name : string;
  entity_type : string;
  created_at : string;
  updated_at : string;
  properties : json;
  similarity : float;
  observation_count : Z
}.
End SearchResult.

(** [d[key]] and [d.get(key)] for a [dict]; [d[key] = v]. *)
Fixpoint dict_get (key : string) (fields : list (string * json)) : option json :=
  match fields with
  | [] => None
  | (k, v) :: rest => if String.eqb k key then Some v else dict_get key rest
  end.

Fixpoint dict_set (key : string) (v : json) (fields : list (string * json))
  : list (string * json) :=
  match fields with
  | [] => [(key, v)]
  | (k, v') :: rest =>
      if String.eqb k key then (k, v) :: rest else (k, v') :: dict_set key v rest
  end.

(** [data[key]] on a value read from JSON: a [KeyError] when the key is
    missing, a [TypeError] when [data] is not a [dict]. *)
Definition subscript (data : json) (key : string) : outcome json :=
  match data with
  | JObj fields => of_option (KeyError key) (dict_get key fields)
  | _ => Raise (TypeError "indices must be integers")
  end.

(** [data.get(key, default)] *)
Definition get_default (data : json) (key : string) (default : json)
  : outcome json :=
  match data with
  | JObj fields =>
      Return (match dict_get key fields with Some v => v | None => default end)
  | _ => Raise (OtherError "AttributeError: no attribute 'get'")
  end.

(** The records are typed: a document whose [id], [name], ... is not a
    string is refused here, where Python would build the object with it. *)
Definition as_str (v : json) : outcome string :=
  match v with
  | JStr s => Return s
  | _ => Raise (TypeError "expected str")
  end.

(** ** The statements the operations send to the storage engine

    Text is compared bytewise ([=]); [LIKE] folds the case of ASCII
    letters and reads [%] and [_] in its pattern.  Rows that [ORDER BY]
    leaves tied, and rows of a query without [ORDER BY], come in rowid
    order. *)

Module Sql.

Definition ok {A} (a : A) (d : Database) : outcome A * Database := (Return a, d).

Definition has_entity (id : string) (d : Database) : bool :=
  existsb (fun r => String.eqb (e_id r) id) (entities d).

(** [x LIKE pat] *)
Fixpoint like (pat s : string) : bool :=
  match pat with
  | EmptyString => match s with EmptyString => true | _ => false end
  | String c pat' =>
      if Ascii.eqb c "%" then
        (fix star (s : string) : bool :=
           like pat' s ||
           match s with
           | EmptyString => false
           | String _ s' => star s'
           end) s
      else
        match s with
        | EmptyString => false
        | String a s' =>
            (Ascii.eqb c "_"
             || Ascii.eqb (Str.lower_ascii a) (Str.lower_ascii c))
            && like pat' s'
        end
  end.

(** [LIMIT n]: a negative [n] is no limit. *)
Definition limit {R} (n : Z) (rows : list R) : list R :=
  if (n <? 0)%Z then rows else firstn (Z.to_nat n) rows.

(** A stable sort by a key that [before] orders strictly. *)
Fixpoint insert_by {R K} (before : K -> K -> bool) (key : R -> K)
    (x : R) (l : list R) : list R :=
  match l with
  | [] => [x]
  | y :: l' =>
      if before (key y) (key x) then y :: insert_by before key x l'
      else x :: l
  end.

Definition sort_by {R K} (before : K -> K -> bool) (key : R -> K)
    (l : list R) : list R :=
  List.fold_right (insert_by before key) [] l.

(** [ORDER BY created_at DESC] on the text of the column. *)
Definition newest_first {R} (created_at : R -> string) (rows : list R) : list R :=
  sort_by (fun a b => String.ltb b a) created_at rows.

(** [SELECT id FROM entities WHERE name = ? AND entity_type = ?] *)
Definition select_entity_id_by_name_type (name entity_type : string)
  : Statement (list string) :=
  fun d =>
    ok (List.map e_id
          (List.filter
             (fun r => String.eqb (e_name r) name
                       && String.eqb (e_entity_type r) entity_type)
             (entities d))) d.

(** [INSERT INTO entities (id, name, entity_type, embedding, created_at,
    updated_at, properties) VALUES (?, ?, ?, ?, ?, ?, ?)] *)
Definition insert_entity (row : EntityRow) : Statement unit :=
  fun d =>
    if has_entity (e_id row) d
    then (Raise (IntegrityError "UNIQUE constraint failed: entities.id"), d)
    else ok tt {| entities := entities d ++ [row];
                  observations := observations d;
                  relations := relations d |}.

(** [SELECT id, name, entity_type, embedding, created_at, updated_at,
    properties FROM entities WHERE id = ?] *)
Definition select_entity_by_id (id : string) : Statement (list EntityRow) :=
  fun d => ok (List.filter (fun r => String.eqb (e_id r) id) (entities d)) d.

(** The same columns [WHERE name = ?] *)
Definition select_entity_by_name (name : string) : Statement (list EntityRow) :=
  fun d => ok (List.filter (fun r => String.eqb (e_name r) name) (entities d)) d.

(** [SELECT id FROM entities WHERE id = ?] *)
Definition select_entity_id (id : string) : Statement (list string) :=
  fun d =>
    ok (List.map e_id
          (List.filter (fun r => String.eqb (e_id r) id) (entities d))) d.

(** [SELECT name FROM entities WHERE id = ?] *)
Definition select_entity_name (id : string) : Statement (list string) :=
  fun d =>
    ok (List.map e_name
          (List.filter (fun r => String.eqb (e_id r) id) (entities d))) d.

(** [SELECT observation FROM observations WHERE entity_id = ?
    ORDER BY created_at DESC] *)
Definition select_observation_texts (entity_id : string)
  : Statement (list string) :=
  fun d =>
    ok (List.map o_observation
          (newest_first o_created_at
             (List.filter (fun r => String.eqb (o_entity_id r) entity_id)
                (observations d)))) d.

(** The columns [update_entity] assigns. *)
Inductive column : Type :=
| Name | EntityType | Embedding | Properties | UpdatedAt.

Definition assign (r : EntityRow) (a : column * string) : EntityRow :=
  match fst a with
  | Name =>
      {| e_id := e_id r; e_name := snd a; e_entity_type := e_entity_type r;
         e_embedding := e_embedding r; e_created_at := e_created_at r;
         e_updated_at := e_updated_at r; e_properties := e_properties r |}
  | EntityType =>
      {| e_id := e_id r; e_name := e_name r; e_entity_type := snd a;
         e_embedding := e_embedding r; e_created_at := e_created_at r;
         e_updated_at := e_updated_at r; e_properties := e_properties r |}
  | Embedding =>
      {| e_id := e_id r; e_name := e_name r; e_entity_type := e_entity_type r;
         e_embedding := Some (snd a); e_created_at := e_created_at r;
         e_updated_at := e_updated_at r; e_properties := e_properties r |}
  | Properties =>
      {| e_id := e_id r; e_name := e_name r; e_entity_type := e_entity_type r;
         e_embedding := e_embedding r; e_created_at := e_created_at r;
         e_updated_at := e_updated_at r; e_properties := Some (snd a) |}
  | UpdatedAt =>
      {| e_id := e_id r; e_name := e_name r; e_entity_type := e_entity_type r;
         e_embedding := e_embedding r; e_created_at := e_created_at r;
         e_updated_at := snd a; e_properties := e_properties r |}
  end.

(** [UPDATE entities SET c1 = ?, ..., cn = ? WHERE id = ?] *)
Definition update_entity (assignments : list (column * string)) (id : string)
  : Statement unit :=
  fun d =>
    ok tt {| entities :=
               List.map (fun r => if String.eqb (e_id r) id
                                  then List.fold_left assign assignments r
                                  else r) (entities d);
             observations := observations d;
             relations := relations d |}.

(** [UPDATE entities SET updated_at = ? WHERE id = ?] *)
Definition touch_entity (now id : string) : Statement unit :=
  update_entity [(UpdatedAt, now)] id.

(** [DELETE FROM entities WHERE id = ?], with the foreign keys of
    [observations] and [relations] declared [ON DELETE CASCADE] and
    [PRAGMA foreign_keys = ON]. *)
Definition delete_entity (id : string) : Statement unit :=
  fun d =>
    if has_entity id d then
      ok tt {| entities :=
                 List.filter (fun r => negb (String.eqb (e_id r) id)) (entities d);
               observations :=
                 List.filter (fun r => negb (String.eqb (o_entity_id r) id))
                   (observations d);
               relations :=
                 List.filter
                   (fun r => negb (String.eqb (r_from_entity_id r) id)
                             && negb (String.eqb (r_to_entity_id r) id))
                   (relations d) |}
    else ok tt d.

(** [SELECT id FROM relations WHERE from_entity_id = ? AND
    to_entity_id = ? AND relation_type = ?] *)
Definition select_relation_id (from_id to_id relation_type : string)
  : Statement (list string) :=
  fun d =>
    ok (List.map r_id
          (List.filter
             (fun r => String.eqb (r_from_entity_id r) from_id
                       && String.eqb (r_to_entity_id r) to_id
                       && String.eqb (r_relation_type r) relation_type)
             (relations d))) d.

(** [INSERT INTO relations (...) VALUES (?, ?, ?, ?, ?, ?, ?)] *)
Definition insert_relation (row : RelationRow) : Statement unit :=
  fun d =>
    if existsb (fun r => String.eqb (r_id r) (r_id row)) (relations d)
    then (Raise (IntegrityError "UNIQUE constraint failed: relations.id"), d)
    else if negb (has_entity (r_from_entity_id row) d
                  && has_entity (r_to_entity_id row) d)
    then (Raise (IntegrityError "FOREIGN KEY constraint failed"), d)
    else ok tt {| entities := entities d;
                  observations := observations d;
                  relations := relations d ++ [row] |}.

(** [SELECT r.id, ..., r.properties, e.name FROM relations r JOIN
    entities e ON r.to_entity_id = e.id WHERE r.from_entity_id = ?],
    with [AND r.relation_type = ?] when a type is given. *)
Definition select_relations_outgoing (id : string) (relation_type : option string)
  : Statement (list (RelationRow * string)) :=
  fun d =>
    ok (List.flat_map
          (fun r =>
             List.map (fun e => (r, e_name e))
               (List.filter (fun e => String.eqb (r_to_entity_id r) (e_id e))
                  (entities d)))
          (List.filter
             (fun r => String.eqb (r_from_entity_id r) id
                       && match relation_type with
                          | Some t => String.eqb (r_relation_type r) t
                          | None => true
                          end)
             (relations d))) d.

(** The same with [JOIN entities e ON r.from_entity_id = e.id WHERE
    r.to_entity_id = ?]. *)
Definition select_relations_incoming (id : string) (relation_type : option string)
  : Statement (list (RelationRow * string)) :=
  fun d =>
    ok (List.flat_map
          (fun r =>
             List.map (fun e => (r, e_name e))
               (List.filter (fun e => String.eqb (r_from_entity_id r) (e_id e))
                  (entities d)))
          (List.filter
             (fun r => String.eqb (r_to_entity_id r) id
                       && match relation_type with
                          | Some t => String.eqb (r_relation_type r) t
                          | None => true
                          end)
             (relations d))) d.

(** [SELECT from_entity_id, to_entity_id FROM relations WHERE id = ?] *)
Definition select_relation_endpoints (id : string)
  : Statement (list (string * string)) :=
  fun d =>
    ok (List.map (fun r => (r_from_entity_id r, r_to_entity_id r))
          (List.filter (fun r => String.eqb (r_id r) id) (relations d))) d.

(** [DELETE FROM relations WHERE id = ?] *)
Definition delete_relation (id : string) : Statement unit :=
  fun d =>
    ok tt {| entities := entities d;
             observations := observations d;
             relations :=
               List.filter (fun r => negb (String.eqb (r_id r) id)) (relations d) |}.

(** [INSERT INTO observations (...) VALUES (?, ?, ?, ?, ?, ?)] *)
Definition insert_observation (row : ObservationRow) : Statement unit :=
  fun d =>
    if existsb (fun r => String.eqb (o_id r) (o_id row)) (observations d)
    then (Raise (IntegrityError "UNIQUE constraint failed: observations.id"), d)
    else if negb (has_entity (o_entity_id row) d)
    then (Raise (IntegrityError "FOREIGN KEY constraint failed"), d)
    else ok tt {| entities := entities d;
                  observations := observations d ++ [row];
                  relations := relations d |}.

(** [SELECT id, entity_id, observation, embedding, created_at, properties
    FROM observations WHERE entity_id = ? ORDER BY created_at DESC
    LIMIT ?] *)
Definition select_observations (entity_id : string) (n : Z)
  : Statement (list ObservationRow) :=
  fun d =>
    ok (limit n
          (newest_first o_created_at
             (List.filter (fun r => String.eqb (o_entity_id r) entity_id)
                (observations d)))) d.

(** [SELECT entity_id FROM observations WHERE id = ?] *)
Definition select_observation_entity_id (id : string) : Statement (list string) :=
  fun d =>
    ok (List.map o_entity_id
          (List.filter (fun r => String.eqb (o_id r) id) (observations d))) d.

(** [DELETE FROM observations WHERE id = ?] *)
Definition delete_observation (id : string) : Statement unit :=
  fun d =>
    ok tt {| entities := entities d;
             observations :=
               List.filter (fun r => negb (String.eqb (o_id r) id)) (observations d);
             relations := relations d |}.

(** [SELECT COUNT( * ) FROM observations WHERE entity_id = ?] *)
Definition count_observations (entity_id : string) : Statement (list Z) :=
  fun d =>
    ok [Z.of_nat
          (length (List.filter (fun r => String.eqb (o_entity_id r) entity_id)
                     (observations d)))] d.

(** The values bound to the placeholders of a statement, in order. *)
Inductive value : Type :=
| Text (s : string)
| Integer (z : Z)
| Null.

Definition as_text (v : value) : option string :=
  match v with
  | Text s => Some s
  | Integer z => Some (Str.of_Z z)
  | Null => None
  end.

Definition like_value (pat : value) (s : string) : bool :=
  match as_text pat with
  | Some p => like p s
  | None => false
  end.

Definition equals_value (s : string) (v : value) : bool :=
  match as_text v with
  | Some t => String.eqb s t
  | None => false
  end.

(** The text search of [search_entities]:
    [SELECT id, name, entity_type, embedding, created_at, updated_at,
     properties FROM entities
     WHERE (name LIKE ?1 OR name LIKE ?2 OR name LIKE ?3) {type_filter}
     ORDER BY CASE WHEN name LIKE ? THEN 1 WHEN name LIKE ? THEN 2
                   WHEN name LIKE ? THEN 3 ELSE 4 END
     LIMIT ?]
    where [type_filter] is empty or [AND entity_type = ?].  The
    placeholders take the values of [params] in the order in which they
    stand in the statement. *)
Definition search_by_name (type_filter : bool) (params : list value)
  : Statement (list EntityRow) :=
  fun d =>
    let k := if type_filter then 1%nat else 0%nat in
    if negb (length params =? 7 + k)%nat
    then (Raise (OtherError "Incorrect number of bindings supplied"), d)
    else
      let p i := nth i params Null in
      let matches r :=
        (like_value (p 0%nat) (e_name r) || like_value (p 1%nat) (e_name r)
         || like_value (p 2%nat) (e_name r))
        && (if type_filter then equals_value (e_entity_type r) (p 3%nat) else true) in
      let rank r :=
        if like_value (p (3 + k)%nat) (e_name r) then 1%nat
        else if like_value (p (4 + k)%nat) (e_name r) then 2%nat
        else if like_value (p (5 + k)%nat) (e_name r) then 3%nat
        else 4%nat in
      match p (6 + k)%nat with
      | Integer n =>
          ok (limit n (sort_by Nat.ltb rank (List.filter matches (entities d)))) d
      | _ => (Raise (OtherError "datatype mismatch"), d)
      end.

(** [SELECT id, ..., properties FROM entities WHERE embedding IS NOT NULL
    {type_filter} LIMIT ?] *)
Definition select_embedded (entity_type : option string) (n : Z)
  : Statement (list EntityRow) :=
  fun d =>
    ok (limit n
          (List.filter
             (fun r => match e_embedding r with Some _ => true | None => false end
                       && match entity_type with
                          | Some t => String.eqb (e_entity_type r) t
                          | None => true
                          end)
             (entities d))) d.

End Sql.

Section WithRuntime.

Variable rt : Runtime.

(** [str(arg)] *)
Definition py_str (v : json) : string :=
  match v with
  | JStr s => s
  | JNull => "None"
  | JBool true => "True"
  | JBool false => "False"
  | JInt z => Str.of_Z z
  | _ => repr rt v
  end.

(** [sorted(kwargs.items())]: the keys of a [dict] differ, so the items
    are ordered by key. *)
Fixpoint insert_item (kv : string * json) (l : list (string * json))
  : list (string * json) :=
  match l with
  | [] => [kv]
  | kv' :: l' =>
      if String.leb (fst kv) (fst kv') then kv :: l
      else kv' :: insert_item kv l'
  end.

Definition sorted_items (kwargs : list (string * json)) : list (string * json) :=
  List.fold_right insert_item [] kwargs.

(** [get_cache_key(operation, *args, **kwargs)] *)
Definition key_string (operation : string) (args : list json)
    (kwargs : list (string * json)) : string :=
  let key_parts :=
    [operation] ++ List.map py_str args
    ++ List.map (fun kv => fst kv +:+ "=" +:+ py_str (snd kv)) (sorted_items kwargs) in
  Str.join ":" key_parts.

Definition get_cache_key (operation : string) (args : list json)
    (kwargs : list (string * json)) : string :=
  let hashed := md5_hexdigest rt (key_string operation args kwargs) in
  "kg:" +:+ operation +:+ ":" +:+ hashed.

(** [serialize_embedding] and [deserialize_embedding] *)
Definition serialize_embedding (embedding : option (list float)) : option string :=
  match embedding with
  | None => None
  | Some l => Some (json_dumps rt (JArr (List.map JFloat l)))
  end.

Definition loads (s : string) : outcome json :=
  of_option (ValueError "JSONDecodeError") (json_loads rt s).

Definition deserialize_embedding (embedding_json : option string) : outcome json :=
  match embedding_json with
  | None => Return JNull
  | Some s => if String.eqb s "" then Return JNull else loads s
  end.

(** [serialize_properties] and [deserialize_properties] ([json_utils.py]) *)
Definition serialize_properties (properties : json) : string :=
  json_dumps rt properties.

Definition deserialize_properties (properties_str : option string) : outcome json :=
  match properties_str with
  | None => Return (JObj [])
  | Some s => if negb (str_truthy s) then Return (JObj []) else loads s
  end.


(** *** [kg_models_all.py]: [to_dict] and [from_dict] *)

(** [t.isoformat()] *)
Definition iso (tv : timeval) : outcome string :=
  match tv with
  | Time t => Return (isoformat rt t)
  | NotTime _ => Raise (OtherError "AttributeError: no attribute 'isoformat'")
  end.

(** [datetime.fromisoformat(v) if isinstance(v, str) else v] *)
Definition parse_time (v : json) : outcome timeval :=
  match v with
  | JStr s =>
      let? t := of_option (ValueError "Invalid isoformat string")
                  (fromisoformat rt s) in
      Return (Time t)
  | _ => Return (NotTime v)
  end.

Definition Entity_to_dict (e : Entity.t) : outcome json :=
  let? created := iso (Entity.created_at e) in
  let? updated := iso (Entity.updated_at e) in
  Return (JObj [("id", JStr (Entity.id e));
                ("name", JStr (Entity.name e));
                ("entity_type", JStr (Entity.entity_type e));
                ("embedding", Entity.embedding e);
                ("created_at", JStr created);
                ("updated_at", JStr updated);
                ("properties", Entity.properties e)]).

Definition Entity_from_dict (data : json) : outcome Entity.t :=
  let? created_at_val := subscript data "created_at" in
  let? updated_at_val := subscript data "updated_at" in
  let? created_at := parse_time created_at_val in
  let? updated_at := parse_time updated_at_val in
  let? id_val := subscript data "id" in
  let? id := as_str id_val in
  let? name_val := subscript data "name" in
  let? name := as_str name_val in
  let? type_val := subscript data "entity_type" in
  let? entity_type := as_str type_val in
  let? embedding := get_default data "embedding" JNull in
  let? properties := get_default data "properties" (JObj []) in
  Return {| Entity.name := name; Entity.entity_type := entity_type;
            Entity.embedding := embedding; Entity.id := id;
            Entity.created_at := created_at; Entity.updated_at := updated_at;
            Entity.properties := properties |}.

Definition Observation_to_dict (o : Observation.t) : outcome json :=
  let? created := iso (Observation.created_at o) in
  Return (JObj [("id", JStr (Observation.id o));
                ("entity_id", JStr (Observation.entity_id o));
                ("observation", JStr (Observation.observation o));
                ("embedding", Observation.embedding o);
                ("created_at", JStr created);
                ("properties", Observation.properties o)]).

Definition Observation_from_dict (data : json) : outcome Observation.t :=
  let? created_at_val := subscript data "created_at" in
  let? created_at := parse_time created_at_val in
  let? id_val := subscript data "id" in
  let? id := as_str id_val in
  let? entity_val := subscript data "entity_id" in
  let? entity_id := as_str entity_val in
  let? text_val := subscript data "observation" in
  let? observation := as_str text_val in
  let? embedding := get_default data "embedding" JNull in
  let? properties := get_default data "properties" (JObj []) in
  Return {| Observation.entity_id := entity_id;
            Observation.observation := observation;
            Observation.embedding := embedding; Observation.id := id;
            Observation.created_at := created_at;
            Observation.properties := properties |}.

(** [Entity(name=..., entity_type=..., embedding=..., properties=...)]:
    the default factories draw the id and read the clock twice. *)
Definition new_entity (name entity_type : string) (embedding properties : json)
  : M Entity.t :=
  let* id := uuid4 in
  let* created_at := datetime_now in
  let* updated_at := datetime_now in
  ret {| Entity.name := name; Entity.entity_type := entity_type;
         Entity.embedding := embedding; Entity.id := id;
         Entity.created_at := Time created_at;
         Entity.updated_at := Time updated_at;
         Entity.properties := properties |}.

(** An [Optional[List[float]]] as a Python value; [properties or {}]. *)
Definition embedding_value (embedding : option (list float)) : json :=
  match embedding with
  | None => JNull
  | Some l => JArr (List.map JFloat l)
  end.

Definition properties_or_empty (properties : option (list (string * json))) : json :=
  match properties with
  | Some (kv :: rest) => JObj (kv :: rest)
  | _ => JObj []
  end.

(** [embedding_function(text)], when the caller gave no embedding; an
    exception of the function leaves [None]. *)
Definition auto_embedding (embedding_function : option (string -> option (list float)))
    (embedding : option (list float)) (text : string) : option (list float) :=
  match embedding, embedding_function with
  | None, Some f => f text
  | _, _ => embedding
  end.

(** [serialize_embedding(embedding) if embedding else None] *)
Definition embedding_column (embedding : option (list float)) : option string :=
  match embedding with
  | Some (x :: l) => serialize_embedding (Some (x :: l))
  | _ => None
  end.

(** *** [ops_entity_crud.py] *)

(** The try block of [create_entity] that stores the new entity in the
    cache, and the two invalidations that follow it. *)
Definition cache_new_entity (entity : Entity.t) (cache_ttl : option Z) : M unit :=
  run try_except
        (let entity_cache_key := get_cache_key "get_entity" [JStr (Entity.id entity)] [] in
         let* doc := pure (Entity_to_dict entity) in
         let entity_data_for_cache := json_dumps rt doc in
         let effective_cache_ttl :=
           match cache_ttl with Some t => t | None => 3600%Z end in
         redis_set entity_cache_key entity_data_for_cache effective_cache_ttl)
        (fun _ => ret tt) in
  run invalidate_cache "kg:get_entity_by_name*" in
  invalidate_cache "kg:search_entities*".

Definition create_entity (name entity_type : string)
    (embedding_function : option (string -> option (list float)))
    (embedding : option (list float))
    (properties : option (list (string * json)))
    (cache_ttl : option Z) : M string :=
  if negb (str_truthy (Str.strip name)) || negb (str_truthy (Str.strip entity_type))
  then raise (ValueError "Entity name and type cannot be empty")
  else
    let embedding := auto_embedding embedding_function embedding name in
    let* entity :=
      new_entity name entity_type (embedding_value embedding)
        (properties_or_empty properties) in
    try_except
      (let* cursor :=
         execute_with_retry (Sql.select_entity_id_by_name_type name entity_type)
           default_max_retries in
       match fetchone cursor with
       | Some existing => ret existing
       | None =>
           let embedding_json := embedding_column embedding in
           let properties_json := serialize_properties (Entity.properties entity) in
           let* created := pure (iso (Entity.created_at entity)) in
           let* updated := pure (iso (Entity.updated_at entity)) in
           run execute_with_retry
                 (Sql.insert_entity
                    {| e_id := Entity.id entity;
                       e_name := Entity.name entity;
                       e_entity_type := Entity.entity_type entity;
                       e_embedding := embedding_json;
                       e_created_at := created;
                       e_updated_at := updated;
                       e_properties := Some properties_json |})
                 default_max_retries in
           run commit in
           let* configured := redis_client in
           run when configured (cache_new_entity entity cache_ttl) in
           ret (Entity.id entity)
       end)
      (fun e =>
         run rollback in
         raise (KnowledgeGraphError
                  ("Error creating entity '" +:+ name +:+ "': " +:+ exn_str e))).

(** The entity a row of [entities] describes. *)
Definition entity_of_row (row : EntityRow) : outcome Entity.t :=
  let? embedding_val := deserialize_embedding (e_embedding row) in
  let? properties_val := deserialize_properties (e_properties row) in
  let? created := of_option (ValueError "Invalid isoformat string")
                    (fromisoformat rt (e_created_at row)) in
  let? updated := of_option (ValueError "Invalid isoformat string")
                    (fromisoformat rt (e_updated_at row)) in
  Return {| Entity.name := e_name row;
            Entity.entity_type := e_entity_type row;
            Entity.embedding := embedding_val;
            Entity.id := e_id row;
            Entity.created_at := Time created;
            Entity.updated_at := Time updated;
            Entity.properties := properties_val |}.

Definition _add_observations_to_entity (entity : Entity.t) : M Entity.t :=
  try_except
    (let* cursor :=
       execute_with_retry (Sql.select_observation_texts (Entity.id entity))
         default_max_retries in
     let observations_data := JArr (List.map JStr (fetchall cursor)) in
     let properties :=
       match Entity.properties entity with
       | JNull => JObj []
       | p => p
       end in
     match properties with
     | JObj fields =>
         let* now := datetime_now in
         ret {| Entity.name := Entity.name entity;
                Entity.entity_type := Entity.entity_type entity;
                Entity.embedding := Entity.embedding entity;
                Entity.id := Entity.id entity;
                Entity.created_at := Entity.created_at entity;
                Entity.updated_at := Time now;
                Entity.properties :=
                  JObj (dict_set "observations" observations_data fields) |}
     | _ => raise (TypeError "object does not support item assignment")
     end)
    (fun _ => ret entity).

(** The cache lookup of [get_entity] and [get_entity_by_name]: the
    entity of a cached document that decodes, [None] on a miss, on an
    error of the cache and on a document that does not decode. *)
Definition decode_entity (cached_data : string) : outcome Entity.t :=
  let? entity_dict := loads cached_data in
  Entity_from_dict entity_dict.

Definition cached_entity (cache_key : string) : M (option Entity.t) :=
  let* cached_data := try_except (redis_get cache_key) (fun _ => ret None) in
  match cached_data with
  | Some data =>
      if str_truthy data
      then try_except
             (let* entity := pure (decode_entity data) in ret (Some entity))
             (fun _ => ret None)
      else ret None
  | None => ret None
  end.

(** The cache store at the end of [get_entity] and [get_entity_by_name]. *)
Definition cache_entity (configured : bool) (cache_key : string)
    (entity : Entity.t) (cache_ttl : Z) : M unit :=
  try_except
    (when configured
       (let* doc := pure (Entity_to_dict entity) in
        redis_set cache_key (json_dumps rt doc) cache_ttl))
    (fun _ => ret tt).

Definition get_entity (entity_id : string) (cache_ttl : Z) : M (option Entity.t) :=
  if negb (str_truthy entity_id)
  then raise (ValueError "Entity ID cannot be empty")
  else
    let* configured := redis_client in
    let cache_key := get_cache_key "get_entity" [JStr entity_id] [] in
    let* hit := if configured then cached_entity cache_key else ret None in
    match hit with
    | Some entity => ret (Some entity)
    | None =>
        try_except
          (let* cursor :=
             execute_with_retry (Sql.select_entity_by_id entity_id)
               default_max_retries in
           match fetchone cursor with
           | None => ret None
           | Some row =>
               let* entity := pure (entity_of_row row) in
               let* entity := _add_observations_to_entity entity in
               run cache_entity configured cache_key entity cache_ttl in
               ret (Some entity)
           end)
          (fun e =>
             raise (KnowledgeGraphError
                      ("Error retrieving entity with ID '" +:+ entity_id
                       +:+ "': " +:+ exn_str e)))
    end.

Definition get_entity_by_name (name : string) (cache_ttl : Z)
  : M (option Entity.t) :=
  if negb (str_truthy name)
  then raise (ValueError "Entity name cannot be empty")
  else
    let* configured := redis_client in
    let cache_key := get_cache_key "get_entity_by_name" [JStr name] [] in
    let* hit := if configured then cached_entity cache_key else ret None in
    match hit with
    | Some entity => ret (Some entity)
    | None =>
        try_except
          (let* cursor :=
             execute_with_retry (Sql.select_entity_by_name name)
               default_max_retries in
           match fetchone cursor with
           | None => ret None
           | Some row =>
               let* entity := pure (entity_of_row row) in
               let* entity := _add_observations_to_entity entity in
               run cache_entity configured cache_key entity cache_ttl in
               ret (Some entity)
           end)
          (fun e =>
             raise (KnowledgeGraphError
                      ("Error retrieving entity with name '" +:+ name
                       +:+ "': " +:+ exn_str e)))
    end.

Definition update_entity (entity_id : string) (name entity_type : option string)
    (embedding : option (list float))
    (properties : option (list (string * json))) : M bool :=
  if negb (str_truthy entity_id)
  then raise (ValueError "Entity ID cannot be empty")
  else
    try_except
      (let* cursor :=
         execute_with_retry (Sql.select_entity_id entity_id) default_max_retries in
       match fetchone cursor with
       | None => ret false
       | Some _ =>
           let updates :=
             match name with Some n => [(Sql.Name, n)] | None => [] end
             ++ match entity_type with Some t => [(Sql.EntityType, t)] | None => [] end
             ++ match embedding with
                | Some l => [(Sql.Embedding, json_dumps rt (JArr (List.map JFloat l)))]
                | None => []
                end
             ++ match properties with
                | Some p => [(Sql.Properties, serialize_properties (JObj p))]
                | None => []
                end in
           let* now := datetime_now in
           let updates := updates ++ [(Sql.UpdatedAt, isoformat rt now)] in
           run execute_with_retry (Sql.update_entity updates entity_id)
                 default_max_retries in
           run commit in
           let* configured := redis_client in
           run when configured
                 (run invalidate_cache "kg:get_entity*" in
                  run invalidate_cache "kg:get_entity_by_name*" in
                  invalidate_cache "kg:search_entities*") in
           ret true
       end)
      (fun e =>
         run rollback in
         raise (KnowledgeGraphError
                  ("Error updating entity '" +:+ entity_id +:+ "': " +:+ exn_str e))).

Definition delete_entity (entity_id : string) : M bool :=
  if negb (str_truthy entity_id)
  then raise (ValueError "Entity ID cannot be empty")
  else
    try_except
      (let* entity := get_entity entity_id 3600 in
       match entity with
       | None => ret false
       | Some _ =>
           run execute_with_retry (Sql.delete_entity entity_id)
                 default_max_retries in
           run commit in
           let* configured := redis_client in
           run when configured
                 (run invalidate_cache "kg:get_entity*" in
                  run invalidate_cache "kg:get_entity_by_name*" in
                  run invalidate_cache "kg:search_entities*" in
                  invalidate_cache "kg:get_relations*") in
           ret true
       end)
      (fun e =>
         run rollback in
         raise (KnowledgeGraphError
                  ("Error deleting entity '" +:+ entity_id +:+ "': " +:+ exn_str e))).


(** *** [ops_relation_crud.py] *)

(** A [float] as the engine stores it: NaN is stored as NULL. *)
Definition real_column (f : float) : option float :=
  if PrimFloat.is_nan f then None else Some f.

Definition create_relation (from_entity_id to_entity_id relation_type : string)
    (confidence : float) (properties : option (list (string * json))) : M string :=
  if negb (str_truthy from_entity_id) || negb (str_truthy to_entity_id)
     || negb (str_truthy relation_type)
  then raise (ValueError
                "Source entity ID, target entity ID, and relation type cannot be empty")
  else if PrimFloat.ltb confidence 0%float || PrimFloat.ltb 1%float confidence
  then raise (ValueError "Confidence score must be between 0.0 and 1.0")
  else
    try_except
      (let* cursor :=
         execute_with_retry (Sql.select_entity_name from_entity_id)
           default_max_retries in
       match fetchone cursor with
       | None =>
           raise (EntityNotFoundError
                    ("Source entity with ID '" +:+ from_entity_id +:+ "' not found"))
       | Some from_entity_name =>
           let* cursor :=
             execute_with_retry (Sql.select_entity_name to_entity_id)
               default_max_retries in
           match fetchone cursor with
           | None =>
               raise (EntityNotFoundError
                        ("Target entity with ID '" +:+ to_entity_id +:+ "' not found"))
           | Some to_entity_name =>
               let* cursor :=
                 execute_with_retry
                   (Sql.select_relation_id from_entity_id to_entity_id relation_type)
                   default_max_retries in
               match fetchone cursor with
               | Some existing => ret existing
               | None =>
                   let* relation_id := uuid4 in
                   let* created_at := datetime_now in
                   let properties_json :=
                     serialize_properties (properties_or_empty properties) in
                   run execute_with_retry
                         (Sql.insert_relation
                            {| r_id := relation_id;
                               r_from_entity_id := from_entity_id;
                               r_to_entity_id := to_entity_id;
                               r_relation_type := relation_type;
                               r_confidence := real_column confidence;
                               r_created_at := isoformat rt created_at;
                               r_properties := Some properties_json |})
                         default_max_retries in
                   let* t := datetime_now in
                   let now := isoformat rt t in
                   run execute_with_retry (Sql.touch_entity now from_entity_id)
                         default_max_retries in
                   run execute_with_retry (Sql.touch_entity now to_entity_id)
                         default_max_retries in
                   run commit in
                   let* configured := redis_client in
                   run when configured
                         (run invalidate_cache "kg:get_relations*" in
                          invalidate_cache "kg:get_entity*") in
                   ret relation_id
               end
           end
       end)
      (fun e =>
         match e with
         | EntityNotFoundError _ => raise e
         | _ =>
             run rollback in
             raise (KnowledgeGraphError ("Error creating relation: " +:+ exn_str e))
         end).

(** One entry of the list [get_relations] returns. *)
Definition relation_dict (direction from_entity_name to_entity_name : string)
    (row : RelationRow) : outcome json :=
  let? properties := deserialize_properties (r_properties row) in
  Return (JObj [("id", JStr (r_id row));
                ("from_entity_id", JStr (r_from_entity_id row));
                ("from_entity_name", JStr from_entity_name);
                ("to_entity_id", JStr (r_to_entity_id row));
                ("to_entity_name", JStr to_entity_name);
                ("relation_type", JStr (r_relation_type row));
                ("confidence",
                 match r_confidence row with Some c => JFloat c | None => JNull end);
                ("direction", JStr direction);
                ("created_at", JStr (r_created_at row));
                ("properties", properties)]).

Fixpoint collect {X Y} (f : X -> outcome Y) (l : list X) : outcome (list Y) :=
  match l with
  | [] => Return []
  | x :: l' =>
      let? y := f x in
      let? ys := collect f l' in
      Return (y :: ys)
  end.

Definition optional_str (s : option string) : json :=
  match s with
  | Some s => JStr s
  | None => JNull
  end.

(** [relation_type] when [if relation_type:] holds. *)
Definition given (s : option string) : option string :=
  match s with
  | Some t => if str_truthy t then Some t else None
  | None => None
  end.

(** The cache lookup of [get_relations] and [search_entities]: the
    call of [get] is not guarded; a document that does not decode is a
    miss. *)
Definition cached_json (cache_key : string) : M (option json) :=
  let* cached_data := redis_get cache_key in
  match cached_data with
  | Some data =>
      if str_truthy data
      then try_except
             (let* v := pure (loads data) in ret (Some v))
             (fun _ => ret None)
      else ret None
  | None => ret None
  end.

(** The cache store at the end of the list-valued reads. *)
Definition cache_json (configured : bool) (cache_key : string) (v : json)
    (cache_ttl : Z) : M unit :=
  when configured
    (try_except (redis_set cache_key (json_dumps rt v) cache_ttl)
                (fun _ => ret tt)).

Definition get_relations (entity_id direction : string)
    (relation_type : option string) (cache_ttl : Z) : M json :=
  if negb (str_truthy entity_id)
  then raise (ValueError "Entity ID cannot be empty")
  else if negb (String.eqb direction "outgoing" || String.eqb direction "incoming"
                || String.eqb direction "both")
  then raise (ValueError "Direction must be 'outgoing', 'incoming', or 'both'")
  else
    let* configured := redis_client in
    let cache_key :=
      get_cache_key "get_relations"
        [JStr entity_id; JStr direction; optional_str relation_type] [] in
    let* hit := if configured then cached_json cache_key else ret None in
    match hit with
    | Some cached => ret cached
    | None =>
        try_except
          (let* cursor :=
             execute_with_retry (Sql.select_entity_name entity_id)
               default_max_retries in
           match fetchone cursor with
           | None =>
               raise (EntityNotFoundError
                        ("Entity with ID '" +:+ entity_id +:+ "' not found"))
           | Some entity_name =>
               let* outgoing :=
                 if String.eqb direction "outgoing" || String.eqb direction "both"
                 then
                   let* cursor :=
                     execute_with_retry
                       (Sql.select_relations_outgoing entity_id (given relation_type))
                       default_max_retries in
                   pure (collect
                           (fun row => relation_dict "outgoing" entity_name
                                         (snd row) (fst row))
                           (fetchall cursor))
                 else ret [] in
               let* incoming :=
                 if String.eqb direction "incoming" || String.eqb direction "both"
                 then
                   let* cursor :=
                     execute_with_retry
                       (Sql.select_relations_incoming entity_id (given relation_type))
                       default_max_retries in
                   pure (collect
                           (fun row => relation_dict "incoming" (snd row)
                                         entity_name (fst row))
                           (fetchall cursor))
                 else ret [] in
               let relations_data := JArr (outgoing ++ incoming) in
               run cache_json configured cache_key relations_data cache_ttl in
               ret relations_data
           end)
          (fun e =>
             match e with
             | EntityNotFoundError _ => raise e
             | _ =>
                 raise (KnowledgeGraphError
                          ("Error retrieving relations for entity '" +:+ entity_id
                           +:+ "': " +:+ exn_str e))
             end)
    end.

Definition delete_relation (relation_id : string) : M bool :=
  if negb (str_truthy relation_id)
  then raise (ValueError "Relation ID cannot be empty")
  else
    try_except
      (let* cursor :=
         execute_with_retry (Sql.select_relation_endpoints relation_id)
           default_max_retries in
       match fetchone cursor with
       | None => ret false
       | Some (from_entity_id, to_entity_id) =>
           run execute_with_retry (Sql.delete_relation relation_id)
                 default_max_retries in
           let* t := datetime_now in
           let now := isoformat rt t in
           run execute_with_retry (Sql.touch_entity now from_entity_id)
                 default_max_retries in
           run execute_with_retry (Sql.touch_entity now to_entity_id)
                 default_max_retries in
           run commit in
           let* configured := redis_client in
           run when configured (invalidate_cache "kg:get_relations*") in
           ret true
       end)
      (fun e =>
         run rollback in
         raise (KnowledgeGraphError
                  ("Error deleting relation '" +:+ relation_id +:+ "': "
                   +:+ exn_str e))).

(** *** [ops_observation_crud.py] *)

Definition add_observation (entity_id observation : string)
    (embedding_function : option (string -> option (list float)))
    (embedding : option (list float))
    (properties : option (list (string * json))) : M string :=
  if negb (str_truthy entity_id) || negb (str_truthy observation)
  then raise (ValueError "Entity ID and observation cannot be empty")
  else
    let embedding := auto_embedding embedding_function embedding observation in
    let* cursor :=
      execute_with_retry (Sql.select_entity_name entity_id) default_max_retries in
    match fetchone cursor with
    | None =>
        raise (EntityNotFoundError
                 ("Entity with ID '" +:+ entity_id +:+ "' not found"))
    | Some entity_name =>
        let* obs_id := uuid4 in
        let* created_at := datetime_now in
        try_except
          (let embedding_json := embedding_column embedding in
           let properties_json :=
             serialize_properties (properties_or_empty properties) in
           run execute_with_retry
                 (Sql.insert_observation
                    {| o_id := obs_id;
                       o_entity_id := entity_id;
                       o_observation := observation;
                       o_embedding := embedding_json;
                       o_created_at := isoformat rt created_at;
                       o_properties := Some properties_json |})
                 default_max_retries in
           let* t := datetime_now in
           run execute_with_retry (Sql.touch_entity (isoformat rt t) entity_id)
                 default_max_retries in
           run commit in
           let* configured := redis_client in
           run when configured
                 (run invalidate_cache "kg:get_entity*" in
                  run invalidate_cache "kg:get_entity_by_name*" in
                  invalidate_cache "kg:get_observations*") in
           ret obs_id)
          (fun e =>
             match e with
             | EntityNotFoundError _ => raise e
             | _ =>
                 run rollback in
                 raise (KnowledgeGraphError
                          ("Error adding observation to entity '" +:+ entity_id
                           +:+ "': " +:+ exn_str e))
             end)
    end.

(** [for x in v] on a value read from JSON. *)
Definition iterate (v : json) : outcome (list json) :=
  match v with
  | JArr items => Return items
  | JObj fields => Return (List.map (fun kv => JStr (fst kv)) fields)
  | JStr s =>
      Return (List.map (fun c => JStr (String c EmptyString))
                (list_ascii_of_string s))
  | _ => Raise (TypeError "object is not iterable")
  end.

Definition decode_observations (cached_data : string)
  : outcome (list Observation.t) :=
  let? observations_dict := loads cached_data in
  let? items := iterate observations_dict in
  collect Observation_from_dict items.

Definition observation_of_row (row : ObservationRow) : outcome Observation.t :=
  let? embedding_val := deserialize_embedding (o_embedding row) in
  let? properties_val := deserialize_properties (o_properties row) in
  let? created := of_option (ValueError "Invalid isoformat string")
                    (fromisoformat rt (o_created_at row)) in
  Return {| Observation.entity_id := o_entity_id row;
            Observation.observation := o_observation row;
            Observation.embedding := embedding_val;
            Observation.id := o_id row;
            Observation.created_at := Time created;
            Observation.properties := properties_val |}.

Definition cached_observations (cache_key : string)
  : M (option (list Observation.t)) :=
  let* cached_data := redis_get cache_key in
  match cached_data with
  | Some data =>
      if str_truthy data
      then try_except
             (let* l := pure (decode_observations data) in ret (Some l))
             (fun _ => ret None)
      else ret None
  | None => ret None
  end.

Definition get_observations (entity_id : string) (limit cache_ttl : Z)
  : M (list Observation.t) :=
  if negb (str_truthy entity_id)
  then raise (ValueError "Entity ID cannot be empty")
  else
    let* configured := redis_client in
    let cache_key :=
      get_cache_key "get_observations" [JStr entity_id; JInt limit] [] in
    let* hit := if configured then cached_observations cache_key else ret None in
    match hit with
    | Some cached => ret cached
    | None =>
        try_except
          (let* cursor :=
             execute_with_retry (Sql.select_entity_id entity_id)
               default_max_retries in
           match fetchone cursor with
           | None =>
               raise (EntityNotFoundError
                        ("Entity with ID '" +:+ entity_id +:+ "' not found"))
           | Some _ =>
               let* cursor :=
                 execute_with_retry (Sql.select_observations entity_id limit)
                   default_max_retries in
               let* observations_list :=
                 pure (collect observation_of_row (fetchall cursor)) in
               run when configured
                     (try_except
                        (let* docs :=
                           pure (collect Observation_to_dict observations_list) in
                         redis_set cache_key (json_dumps rt (JArr docs)) cache_ttl)
                        (fun _ => ret tt)) in
               ret observations_list
           end)
          (fun e =>
             match e with
             | EntityNotFoundError _ => raise e
             | _ =>
                 raise (KnowledgeGraphError
                          ("Error retrieving observations for entity '"
                           +:+ entity_id +:+ "': " +:+ exn_str e))
             end)
    end.

Definition delete_observation (observation_id : string) : M bool :=
  if negb (str_truthy observation_id)
  then raise (ValueError "Observation ID cannot be empty")
  else
    try_except
      (let* cursor :=
         execute_with_retry (Sql.select_observation_entity_id observation_id)
           default_max_retries in
       match fetchone cursor with
       | None => ret false
       | Some entity_id =>
           run execute_with_retry (Sql.delete_observation observation_id)
                 default_max_retries in
           let* t := datetime_now in
           run execute_with_retry (Sql.touch_entity (isoformat rt t) entity_id)
                 default_max_retries in
           run commit in
           let* configured := redis_client in
           run when configured
                 (run invalidate_cache "kg:get_entity*" in
                  run invalidate_cache "kg:get_entity_by_name*" in
                  invalidate_cache "kg:get_observations*") in
           ret true
       end)
      (fun e =>
         run rollback in
         raise (KnowledgeGraphError
                  ("Error deleting observation '" +:+ observation_id +:+ "': "
                   +:+ exn_str e))).


(** *** [search_ops.py] *)

Definition candidate_of_row (row : EntityRow) : outcome Candidate.t :=
  let? embedding := deserialize_embedding (e_embedding row) in
  let? properties := deserialize_properties (e_properties row) in
  Return {| Candidate.id := e_id row;
            Candidate.name := e_name row;
            Candidate.entity_type := e_entity_type row;
            Candidate.embedding := embedding;
            Candidate.created_at := e_created_at row;
            Candidate.updated_at := e_updated_at row;
            Candidate.properties := properties |}.

(** [float(z)] for an [int] operand of a product with a [float]. *)
Definition float_of_Z (z : Z) : outcome float :=
  let f := SF2Prim (binary_normalize prec emax z 0 false) in
  if PrimFloat.eqb (PrimFloat.abs f) infinity
  then Raise (OtherError "OverflowError: int too large to convert to float")
  else Return f.

Definition as_number (v : json) : outcome float :=
  match v with
  | JFloat f => Return f
  | JInt z => float_of_Z z
  | JBool b => Return (if b then 1%float else 0%float)
  | _ => Raise (TypeError "can't multiply sequence by non-int of type 'float'")
  end.

(** [sum(q * e for q, e in zip(query_embedding, embedding))], the terms
    added from left to right. *)
Fixpoint dot (acc : float) (qs : list float) (es : list json) : outcome float :=
  match qs, es with
  | q :: qs', e :: es' =>
      let? x := as_number e in
      dot (PrimFloat.add acc (PrimFloat.mul q x)) qs' es'
  | _, _ => Return acc
  end.

Definition dot_product (query_embedding : list float) (embedding : json)
  : outcome float :=
  let? es := iterate embedding in
  dot 0%float query_embedding es.

(** [max(0.0, min(1.0, x))] *)
Definition clamp (x : float) : float :=
  let m := if PrimFloat.ltb x 1%float then x else 1%float in
  if PrimFloat.ltb 0%float m then m else 0%float.

(** The text tiers. *)
Definition text_similarity (query name : string) : float :=
  let name := Str.lower name in
  let q := Str.lower query in
  if String.eqb name q then 1.0%float
  else if Str.startswith name q then 0.8%float
  else if Str.contains q name then 0.6%float
  else 0.4%float.

Definition similarity_of (query : string) (query_embedding : option (list float))
    (entity : Candidate.t) : outcome float :=
  match query_embedding with
  | Some (q0 :: qs) =>
      if truthy (Candidate.embedding entity)
      then
        let? dot_product := dot_product (q0 :: qs) (Candidate.embedding entity) in
        Return (clamp dot_product)
      else Return (text_similarity query (Candidate.name entity))
  | _ => Return (text_similarity query (Candidate.name entity))
  end.

(** The loop that scores the candidates and skips those below
    [min_similarity]. *)
Fixpoint score (query : string) (query_embedding : option (list float))
    (min_similarity : float) (entities_to_check : list Candidate.t)
  : outcome (list (Candidate.t * float)) :=
  match entities_to_check with
  | [] => Return []
  | entity :: rest =>
      let? similarity := similarity_of query query_embedding entity in
      let? results := score query query_embedding min_similarity rest in
      if PrimFloat.ltb similarity min_similarity
      then Return results
      else Return ((entity, similarity) :: results)
  end.

(** [results.sort(key=lambda x: x["similarity"], reverse=True)] *)
Definition sort_by_similarity (results : list (Candidate.t * float))
  : list (Candidate.t * float) :=
  Sql.sort_by (fun a b => PrimFloat.ltb b a) snd results.

(** [results[:limit]] *)
Definition slice_to (limit : Z) {X} (l : list X) : list X :=
  if (limit <? 0)%Z
  then firstn (length l - Z.to_nat (- limit)) l
  else firstn (Z.to_nat limit) l.

(** The loop that adds the observation counts. *)
Fixpoint add_observation_counts (results : list (Candidate.t * float))
  : M (list SearchResult.t) :=
  match results with
  | [] => ret []
  | (entity, similarity) :: rest =>
      let* cursor :=
        execute_with_retry (Sql.count_observations (Candidate.id entity))
          default_max_retries in
      let* count :=
        pure (of_option (TypeError "'NoneType' object is not subscriptable")
                (fetchone cursor)) in
      let* rest := add_observation_counts rest in
      ret ({| SearchResult.id := Candidate.id entity;
              SearchResult.name := Candidate.name entity;
              SearchResult.entity_type := Candidate.entity_type entity;
              SearchResult.created_at := Candidate.created_at entity;
              SearchResult.updated_at := Candidate.updated_at entity;
              SearchResult.properties := Candidate.properties entity;
              SearchResult.similarity := similarity;
              SearchResult.observation_count := count |} :: rest)
  end.

(** A result as the [dict] the function returns. *)
Definition result_dict (r : SearchResult.t) : json :=
  JObj [("id", JStr (SearchResult.id r));
        ("name", JStr (SearchResult.name r));
        ("entity_type", JStr (SearchResult.entity_type r));
        ("created_at", JStr (SearchResult.created_at r));
        ("updated_at", JStr (SearchResult.updated_at r));
        ("properties", SearchResult.properties r);
        ("similarity", JFloat (SearchResult.similarity r));
        ("observation_count", JInt (SearchResult.observation_count r))].

(** The rows of the second query that are not among the candidates. *)
Fixpoint add_new_candidates (rows : list EntityRow)
    (entities_to_check : list Candidate.t) : outcome (list Candidate.t) :=
  match rows with
  | [] => Return entities_to_check
  | row :: rest =>
      if existsb (fun e => String.eqb (Candidate.id e) (e_id row)) entities_to_check
      then add_new_candidates rest entities_to_check
      else
        let? c := candidate_of_row row in
        add_new_candidates rest (entities_to_check ++ [c])
  end.

(** The body of the [try] of [search_entities], up to the results. *)
Definition search_storage (query : string) (entity_type : option string)
    (limit : Z) (min_similarity : float)
    (embedding_function : option (string -> option (list float)))
  : M (list SearchResult.t) :=
  let query_embedding :=
    match embedding_function with
    | Some f => f query
    | None => None
    end in
  let params := match given entity_type with Some t => [Sql.Text t] | None => [] end in
  let* cursor :=
    execute_with_retry
      (Sql.search_by_name
         (match given entity_type with Some _ => true | None => false end)
         ([Sql.Text query; Sql.Text (query +:+ "%");
           Sql.Text ("%" +:+ query +:+ "%");
           Sql.Text query; Sql.Text (query +:+ "%");
           Sql.Text ("%" +:+ query +:+ "%")]
          ++ params ++ [Sql.Integer limit]))
      default_max_retries in
  let* entities_to_check := pure (collect candidate_of_row (fetchall cursor)) in
  let* entities_to_check :=
    match query_embedding with
    | Some (_ :: _) =>
        if (Z.of_nat (length entities_to_check) <? limit)%Z
        then
          let* cursor :=
            execute_with_retry (Sql.select_embedded (given entity_type) (limit * 5))
              default_max_retries in
          pure (add_new_candidates (fetchall cursor) entities_to_check)
        else ret entities_to_check
    | _ => ret entities_to_check
    end in
  let* results := pure (score query query_embedding min_similarity entities_to_check) in
  let results := slice_to limit (sort_by_similarity results) in
  add_observation_counts results.

Definition search_entities (query : string) (entity_type : option string)
    (limit : Z) (min_similarity : float)
    (embedding_function : option (string -> option (list float)))
    (cache_ttl : Z) : M json :=
  if negb (str_truthy query)
  then raise (ValueError "Search query cannot be empty")
  else
    let* configured := redis_client in
    let cache_key :=
      get_cache_key "search_entities"
        [JStr query; optional_str entity_type; JInt limit; JFloat min_similarity] [] in
    let* hit := if configured then cached_json cache_key else ret None in
    match hit with
    | Some cached => ret cached
    | None =>
        try_except
          (let* results :=
             search_storage query entity_type limit min_similarity
               embedding_function in
           let results := JArr (List.map result_dict results) in
           run cache_json configured cache_key results cache_ttl in
           ret results)
          (fun e =>
             raise (KnowledgeGraphError ("Error searching entities: " +:+ exn_str e)))
    end.

End WithRuntime.

(** ** The managers and the API classes

    A manager ([base_manager.py]) holds the connection, the cache client,
    the embedding function and the time to live of cached results, and
    passes them to the operations; the connection and the client are the
    world's.  The lock a manager takes around a writing operation does not
    show in one thread.  An API class calls its manager and wraps what the
    call raises. *)

Module BaseManager.
Record t : Type := {
  embedding_function : option (string -> option (list float));
  cache_ttl : Z
}.
End BaseManager.

(** [len(v)] in a log message, for a value that may come from the cache:
    the number is not kept; a value without a length raises. *)
Definition log_len (v : json) : outcome unit :=
  match v with
  | JArr _ | JObj _ | JStr _ => Return tt
  | _ => Raise (TypeError "object has no len()")
  end.

(** [kg_entity_api.py] over [entity_manager.py] *)
Module KnowledgeGraphEntityAPI.
Section Methods.

Variable rt : Runtime.
Variable self : BaseManager.t.

Definition create_entity (name entity_type : string)
    (embedding : option (list float))
    (properties : option (list (string * json))) : M string :=
  try_except
    (create_entity rt name entity_type (BaseManager.embedding_function self)
       embedding properties (Some (BaseManager.cache_ttl self)))
    (fun e =>
       raise (KnowledgeGraphError
                ("Error creating entity '" +:+ name +:+ "': " +:+ exn_str e))).

Definition get_entity (entity_id : string) : M Entity.t :=
  try_except
    (let* entity := get_entity rt entity_id (BaseManager.cache_ttl self) in
     match entity with
     | None =>
         raise (EntityNotFoundError
                  ("Entity with ID '" +:+ entity_id +:+ "' not found"))
     | Some entity => ret entity
     end)
    (fun e =>
       match e with
       | EntityNotFoundError _ => raise e
       | _ =>
           raise (KnowledgeGraphError
                    ("Error retrieving entity with ID '" +:+ entity_id +:+ "': "
                     +:+ exn_str e))
       end).

Definition get_entity_by_name (name : string) : M Entity.t :=
  try_except
    (let* entity := get_entity_by_name rt name (BaseManager.cache_ttl self) in
     match entity with
     | None =>
         raise (EntityNotFoundError
                  ("Entity with name '" +:+ name +:+ "' not found"))
     | Some entity => ret entity
     end)
    (fun e =>
       match e with
       | EntityNotFoundError _ => raise e
       | _ =>
           raise (KnowledgeGraphError
                    ("Error retrieving entity with name '" +:+ name +:+ "': "
                     +:+ exn_str e))
       end).

Definition update_entity (entity_id : string) (name entity_type : option string)
    (embedding : option (list float))
    (properties : option (list (string * json))) : M bool :=
  try_except
    (update_entity rt entity_id name entity_type embedding properties)
    (fun e =>
       raise (KnowledgeGraphError
                ("Error updating entity with ID '" +:+ entity_id +:+ "': "
                 +:+ exn_str e))).

Definition delete_entity (entity_id : string) : M bool :=
  try_except
    (delete_entity rt entity_id)
    (fun e =>
       raise (KnowledgeGraphError
                ("Error deleting entity with ID '" +:+ entity_id +:+ "': "
                 +:+ exn_str e))).

End Methods.
End KnowledgeGraphEntityAPI.

(** [kg_relation_api.py] over [relation_manager.py] *)
Module KnowledgeGraphRelationAPI.
Section Methods.

Variable rt : Runtime.
Variable self : BaseManager.t.

Definition create_relation (from_entity_id to_entity_id relation_type : string)
    (confidence : float) (properties : option (list (string * json))) : M string :=
  try_except
    (create_relation rt from_entity_id to_entity_id relation_type confidence
       properties)
    (fun e =>
       match e with
       | EntityNotFoundError _ => raise e
       | _ =>
           raise (KnowledgeGraphError
                    ("Error creating relation from '" +:+ from_entity_id
                     +:+ "' to '" +:+ to_entity_id +:+ "': " +:+ exn_str e))
       end).

Definition get_relations (entity_id direction : string)
    (relation_type : option string) : M json :=
  try_except
    (let* relations :=
       get_relations rt entity_id direction relation_type
         (BaseManager.cache_ttl self) in
     run pure (log_len relations) in
     ret relations)
    (fun e =>
       match e with
       | EntityNotFoundError _ => raise e
       | _ =>
           raise (KnowledgeGraphError
                    ("Error retrieving relations for entity '" +:+ entity_id
                     +:+ "': " +:+ exn_str e))
       end).

Definition delete_relation (relation_id : string) : M bool :=
  try_except
    (delete_relation rt relation_id)
    (fun e =>
       raise (KnowledgeGraphError
                ("Error deleting relation with ID '" +:+ relation_id +:+ "': "
                 +:+ exn_str e))).

End Methods.
End KnowledgeGraphRelationAPI.

(** [kg_observation_api.py] over [observation_manager.py] *)
Module KnowledgeGraphObservationAPI.
Section Methods.

Variable rt : Runtime.
Variable self : BaseManager.t.

Definition add_observation (entity_id observation : string)
    (embedding : option (list float))
    (properties : option (list (string * json))) : M string :=
  try_except
    (add_observation rt entity_id observation
       (BaseManager.embedding_function self) embedding properties)
    (fun e =>
       match e with
       | EntityNotFoundError _ => raise e
       | _ =>
           raise (KnowledgeGraphError
                    ("Error adding observation to entity '" +:+ entity_id
                     +:+ "': " +:+ exn_str e))
       end).

Definition get_observations (entity_id : string) (limit : Z)
  : M (list Observation.t) :=
  try_except
    (get_observations rt entity_id limit (BaseManager.cache_ttl self))
    (fun e =>
       match e with
       | EntityNotFoundError _ => raise e
       | _ =>
           raise (KnowledgeGraphError
                    ("Error retrieving observations for entity '" +:+ entity_id
                     +:+ "': " +:+ exn_str e))
       end).

Definition delete_observation (observation_id : string) : M bool :=
  try_except
    (delete_observation rt observation_id)
    (fun e =>
       raise (KnowledgeGraphError
                ("Error deleting observation with ID '" +:+ observation_id
                 +:+ "': " +:+ exn_str e))).

End Methods.
End KnowledgeGraphObservationAPI.

(** [kg_search_api.py] over [search_manager.py] *)
Module KnowledgeGraphSearchAPI.
Section Methods.

Variable rt : Runtime.
Variable self : BaseManager.t.

Definition search_entities (query : string) (entity_type : option string)
    (limit : Z) (min_similarity : float) : M json :=
  try_except
    (let* results :=
       search_entities rt query entity_type limit min_similarity
         (BaseManager.embedding_function self) (BaseManager.cache_ttl self) in
     run pure (log_len results) in
     ret results)
    (fun e =>
       raise (KnowledgeGraphError
                ("Error searching entities with query '" +:+ query +:+ "': "
                 +:+ exn_str e))).

End Methods.
End KnowledgeGraphSearchAPI.


(** ** A runtime and worlds to run the operations on

    A runtime whose [dumps] prints a value and whose [loads] reads back the
    documents it is given: the property of the [json] module the
    operations rely on.  Times are numbers, printed in decimal; the digest
    marks its input. *)

Module Sample.

Definition quote : string := String (ascii_of_nat 34) EmptyString.

Definition print_float (f : float) : string :=
  match Prim2SF f with
  | S754_zero s => if s then "-0.0" else "0.0"
  | S754_infinity s => if s then "-Infinity" else "Infinity"
  | S754_nan => "NaN"
  | S754_finite s m e =>
      (if s then "-" else "") +:+ Str.of_Z (Zpos m) +:+ "p" +:+ Str.of_Z e
  end.

Fixpoint print (v : json) : string :=
  match v with
  | JNull => "null"
  | JBool true => "true"
  | JBool false => "false"
  | JInt z => Str.of_Z z
  | JFloat f => print_float f
  | JStr s => quote +:+ s +:+ quote
  | JArr items => "[" +:+ Str.join ", " (List.map print items) +:+ "]"
  | JObj fields =>
      "{" +:+ Str.join ", "
                (List.map (fun kv => let '(k, x) := kv in
                                     quote +:+ k +:+ quote +:+ ": " +:+ print x)
                   fields) +:+ "}"
  end.

Definition read (documents : list json) (s : string) : option json :=
  List.find (fun v => String.eqb (print v) s) documents.

Definition runtime (documents : list json) : Runtime :=
  {| md5_hexdigest := fun s => "#" +:+ s;
     json_dumps := print;
     json_loads := read documents;
     isoformat := Str.of_Z;
     fromisoformat := fun s => option_map Z.of_int (NilZero.int_of_string s);
     repr := print |}.

Definition uuids (n : nat) : string := "id-" +:+ Str.of_Z (Z.of_nat n).

Definition clock (n : nat) : datetime := (1000 + Z.of_nat n)%Z.

Definition empty_cache : Cache :=
  {| store := ∅; has_keys := true; cache_faults := [] |}.

(** A world with the tables [d], nothing pending, a storage that raises
    what [schedule] says, and the cache [cache]. *)
Definition world (d : Database) (schedule : list (option exn))
    (cache : option Cache) : World :=
  {| db := d; committed := d; faults := schedule;
     executes := 0; retry_invocations := 0; sleeps := [];
     redis := cache;
     uuid_source := uuids; uuid_drawn := 0;
     clock_source := clock; clock_read := 0 |}.

Definition entity_row (id name entity_type : string) : EntityRow :=
  {| e_id := id; e_name := name; e_entity_type := entity_type;
     e_embedding := None; e_created_at := "1"; e_updated_at := "1";
     e_properties := Some "{}" |}.

(** A graph of four entities, with an observation of the first and a
    relation from the first to the second. *)
Definition graph : Database :=
  {| entities :=
       [entity_row "e1" "Foo" "function"; entity_row "e2" "FooBar" "class";
        entity_row "e3" "my_foo" "function"; entity_row "e4" "Other" "class"];
     observations :=
       [{| o_id := "o1"; o_entity_id := "e1"; o_observation := "parses";
           o_embedding := None; o_created_at := "2";
           o_properties := Some "{}" |}];
     relations :=
       [{| r_id := "r1"; r_from_entity_id := "e1"; r_to_entity_id := "e2";
           r_relation_type := "uses"; r_confidence := Some 1.0%float;
           r_created_at := "3"; r_properties := Some "{}" |}] |}.

(** The document [get_entity] caches for the first entity, and a cache
    that holds it. *)
Definition foo_document : json :=
  JObj [("id", JStr "e1"); ("name", JStr "Foo"); ("entity_type", JStr "function");
        ("embedding", JNull); ("created_at", JStr "1"); ("updated_at", JStr "1");
        ("properties", JObj [])].

Definition warm_cache : Cache :=
  {| store := {[ "kg:get_entity:#get_entity:e1" := (print foo_document, 3600%Z) ]};
     has_keys := true; cache_faults := [] |}.

(** The document [get_observations] caches for an entity with one
    observation, made by the second draw of an id at the third reading of
    the clock. *)
Definition note_document : json :=
  JArr [JObj [("id", JStr "id-1"); ("entity_id", JStr "id-0");
              ("observation", JStr "note"); ("embedding", JNull);
              ("created_at", JStr "1002"); ("properties", JObj [])]].

End Sample.

(** * Theorems *)

(** ** The retry executor *)

Section Retry.

Context {A : Type} (stmt : Statement A) (max_retries : Z).

(** The world after [n] attempts that raised a transient error and were
    retried, the first of them made with [retry_count = rc]. *)
Fixpoint after_retries (n : nat) (rc : Z) (w : World) : World :=
  match n with
  | O => w
  | S n' =>
      after_retries n' (rc + 1)
        (with_sleeps (sleeps w ++ [backoff_delay (rc + 1)])
           (with_faults (tl (faults w)) (with_executes (S (executes w)) w)))
  end.

Lemma after_retries_executes n : forall rc w,
  executes (after_retries n rc w) = (executes w + n)%nat.
Proof.
  induction n as [|n IH]; intros rc w; simpl.
  - lia.
  - rewrite IH. simpl. lia.
Qed.

Lemma after_retries_faults n : forall rc w,
  faults (after_retries n rc w) = skipn n (faults w).
Proof.
  induction n as [|n IH]; intros rc w; simpl.
  - reflexivity.
  - rewrite IH. simpl. destruct (faults w); [now rewrite skipn_nil|reflexivity].
Qed.

Lemma after_retries_db n : forall rc w,
  db (after_retries n rc w) = db w /\
  committed (after_retries n rc w) = committed w /\
  redis (after_retries n rc w) = redis w.
Proof.
  induction n as [|n IH]; intros rc w; simpl.
  - auto.
  - destruct (IH (rc + 1)%Z
      (with_sleeps (sleeps w ++ [backoff_delay (rc + 1)])
         (with_faults (tl (faults w)) (with_executes (S (executes w)) w))))
      as (-> & -> & ->).
    auto.
Qed.

Lemma after_retries_sleeps n : forall rc w,
  sleeps (after_retries n rc w)
  = sleeps w ++ List.map (fun i => backoff_delay (rc + Z.of_nat i)) (seq 1 n).
Proof.
  induction n as [|n IH]; intros rc w.
  - simpl. now rewrite app_nil_r.
  - cbn [after_retries]. rewrite IH. cbn [sleeps with_sleeps].
    rewrite <- app_assoc. f_equal.
    cbn [seq List.map app]. f_equal.
    rewrite <- (seq_shift n 1), List.map_map.
    apply List.map_ext. intros i. f_equal. lia.
Qed.

(** One turn of the loop on a transient error that is retried. *)
Lemma retry_loop_locked_step fuel rc w e rest :
  faults w = Some e :: rest ->
  is_locked e = true ->
  (rc < max_retries - 1)%Z ->
  retry_loop (S fuel) stmt max_retries rc w
  = retry_loop fuel stmt max_retries (rc + 1) (after_retries 1 rc w).
Proof.
  intros Hf He Hrc.
  destruct e; try discriminate He.
  cbn [retry_loop].
  replace (rc <? max_retries)%Z with true by (symmetry; apply Z.ltb_lt; lia).
  unfold try_except at 1, bind at 1, cursor_execute.
  rewrite Hf. cbn [hd tl].
  cbn [exn_str]. simpl in He. rewrite He.
  replace (rc <? max_retries - 1)%Z with true by (symmetry; apply Z.ltb_lt; lia).
  cbn [andb]. unfold bind at 1, time_sleep.
  cbn [after_retries with_faults with_executes faults sleeps tl executes].
  rewrite Hf. reflexivity.
Qed.

Lemma retry_loop_locked locked : forall rest fuel rc w,
  faults w = List.map Some locked ++ rest ->
  Forall (fun e => is_locked e = true) locked ->
  (rc + Z.of_nat (length locked) < max_retries)%Z ->
  retry_loop (length locked + fuel) stmt max_retries rc w
  = retry_loop fuel stmt max_retries (rc + Z.of_nat (length locked))
      (after_retries (length locked) rc w).
Proof.
  induction locked as [|e locked IH]; intros rest fuel rc w Hf Hl Hrc.
  - simpl. now rewrite Z.add_0_r.
  - inversion Hl as [|? ? He Hl']; subst.
    cbn [length Nat.add].
    rewrite (retry_loop_locked_step _ rc w e (List.map Some locked ++ rest));
      [|exact Hf|exact He|cbn [length] in Hrc; lia].
    rewrite (IH rest fuel (rc + 1)%Z (after_retries 1 rc w)); [| |exact Hl'|].
    + cbn [after_retries].
      replace (rc + 1 + Z.of_nat (length locked))%Z
        with (rc + Z.of_nat (S (length locked)))%Z by lia.
      reflexivity.
    + cbn [after_retries faults with_sleeps with_faults]. now rewrite Hf.
    + cbn [length] in Hrc. lia.
Qed.

(** The loop never executes the statement more often than it has fuel. *)
Lemma retry_loop_executes fuel : forall rc w,
  (executes (snd (retry_loop fuel stmt max_retries rc w)) <= executes w + fuel)%nat.
Proof.
  induction fuel as [|fuel IH]; intros rc w.
  - simpl. lia.
  - cbn [retry_loop].
    destruct (rc <? max_retries)%Z; [|simpl; lia].
    unfold try_except, bind at 1.
    assert (Hex : executes (snd (cursor_execute stmt w)) = S (executes w)).
    { unfold cursor_execute.
      destruct (hd None (faults w)); reflexivity. }
    destruct (cursor_execute stmt w) as [[r|e] w1]; cbn [snd] in *.
    + simpl. lia.
    + destruct e; try (simpl; lia).
      destruct (_ && _); [|simpl; lia].
      unfold bind, time_sleep.
      specialize (IH (rc + 1)%Z
        (with_sleeps (sleeps w1 ++ [backoff_delay (rc + 1)]) w1)).
      cbn [executes with_sleeps] in IH. lia.
Qed.

(** The last turn of the loop, when the engine raises [e]: a transient
    error is raised again because no retry is left, any other at once. *)
Lemma retry_loop_raise fuel rc w e rest :
  faults w = Some e :: rest ->
  (rc < max_retries)%Z ->
  is_locked e = false \/ (rc = max_retries - 1)%Z ->
  retry_loop (S fuel) stmt max_retries rc w
  = (Raise e, with_faults rest (with_executes (S (executes w)) w)).
Proof.
  intros Hf Hrc Hlast.
  cbn [retry_loop].
  replace (rc <? max_retries)%Z with true by (symmetry; apply Z.ltb_lt; lia).
  unfold try_except, bind at 1, cursor_execute.
  rewrite Hf. cbn [hd tl].
  destruct e; try reflexivity.
  cbn [exn_str]. destruct Hlast as [He| ->].
  - simpl in He. rewrite He. reflexivity.
  - rewrite Z.ltb_irrefl, andb_false_r. reflexivity.
Qed.

(** A turn of the loop in which the engine runs the statement. *)
Lemma retry_loop_run fuel rc w :
  hd None (faults w) = None ->
  (rc < max_retries)%Z ->
  (forall e, fst (stmt (db w)) = Raise e -> is_locked e = false) ->
  retry_loop (S fuel) stmt max_retries rc w
  = (match fst (stmt (db w)) with
     | Return r => Return (Some r)
     | Raise e => Raise e
     end,
     with_db (snd (stmt (db w)))
       (with_faults (tl (faults w)) (with_executes (S (executes w)) w))).
Proof.
  intros Hf Hrc Hstmt.
  cbn [retry_loop].
  replace (rc <? max_retries)%Z with true by (symmetry; apply Z.ltb_lt; lia).
  unfold try_except, bind at 1, cursor_execute.
  rewrite Hf. cbn [db with_faults with_executes].
  destruct (stmt (db w)) as [[r|e] d] eqn:E; cbn [fst snd] in *.
  - reflexivity.
  - specialize (Hstmt e eq_refl).
    destruct e; try reflexivity. simpl in Hstmt.
    cbn [exn_str]. rewrite Hstmt. reflexivity.
Qed.

(** A statement that leaves the tables alone leaves them alone however
    often it is tried; when the call returns, it returns what the statement
    selects. *)
Lemma retry_loop_read_only fuel :
  (forall d, snd (stmt d) = d) ->
  forall rc w o w',
    retry_loop fuel stmt max_retries rc w = (o, w') ->
    db w' = db w /\ committed w' = committed w /\ redis w' = redis w
    /\ forall rows, o = Return (Some rows) -> fst (stmt (db w)) = Return rows.
Proof.
  intros Hro. induction fuel as [|fuel IH]; intros rc w o w' E.
  - cbn in E. inversion E; subst. repeat split; auto. discriminate.
  - cbn [retry_loop] in E.
    destruct (rc <? max_retries)%Z;
      [|cbn in E; inversion E; subst; repeat split; auto; discriminate].
    unfold try_except, bind at 1, cursor_execute in E.
    destruct (hd None (faults w)) as [e|].
    + destruct e;
        try (cbn in E; inversion E; subst; repeat split; auto; discriminate).
      destruct (_ && _);
        [|cbn in E; inversion E; subst; repeat split; auto; discriminate].
      unfold bind, time_sleep in E.
      apply IH in E. cbn in E. destruct E as (H1 & H2 & H3 & H4).
      repeat split; auto.
    + cbn [db with_faults with_executes] in E.
      pose proof (Hro (db w)) as Hd.
      destruct (stmt (db w)) as [[r|e] d] eqn:Es; cbn [fst snd] in *; subst d.
      * cbn in E. inversion E; subst. repeat split; auto.
        intros rows H. now inversion H.
      * destruct e;
          try (cbn in E; inversion E; subst; repeat split; auto; discriminate).
        destruct (_ && _);
          [|cbn in E; inversion E; subst; repeat split; auto; discriminate].
        unfold bind, time_sleep in E.
        apply IH in E. cbn in E. destruct E as (H1 & H2 & H3 & H4).
        repeat split; auto. intros rows Hr. specialize (H4 rows Hr).
        rewrite Es in H4. discriminate H4.
Qed.

(** With a retry left and the fuel it is entered with, the loop ends in a
    [return] or a [raise], never by leaving the [while]. *)
Lemma retry_loop_not_none fuel : forall rc w,
  (rc < max_retries)%Z ->
  (max_retries - rc <= Z.of_nat fuel)%Z ->
  fst (retry_loop fuel stmt max_retries rc w) <> Return None.
Proof.
  induction fuel as [|fuel IH]; intros rc w Hrc Hfuel.
  - cbn in Hfuel. lia.
  - cbn [retry_loop].
    replace (rc <? max_retries)%Z with true by (symmetry; apply Z.ltb_lt; lia).
    unfold try_except, bind at 1.
    destruct (cursor_execute stmt w) as [[r|e] w1]; [cbn; discriminate|].
    destruct e; try (cbn; discriminate).
    destruct (Str.contains _ _); [|cbn; discriminate].
    destruct (rc <? max_retries - 1)%Z eqn:E; [|cbn; discriminate].
    apply Z.ltb_lt in E. cbn [andb]. unfold bind, time_sleep.
    apply IH; lia.
Qed.

Lemma execute_with_retry_unfold w :
  execute_with_retry stmt max_retries w
  = retry_loop (Z.to_nat max_retries) stmt max_retries 0
      (with_retry_invocations (S (retry_invocations w)) w).
Proof. reflexivity. Qed.

End Retry.

(** C2.  [execute_with_retry] executes the statement at most [max_retries]
    times.  While fewer than [max_retries] attempts have failed, an attempt
    that raises the transient error (an [OperationalError] saying that the
    database is locked) is followed by a sleep of [0.1 * 2 ** k] seconds,
    [k] the number of failed attempts so far, and by another attempt: the
    sleeps of a call are 0.2, 0.4, 0.8, ... seconds, the float [0.1] times
    the float [2 ** k] for [k = 1, 2, ...], one for each attempt that was
    retried and no other.  An attempt that raises any other error ends the
    call with that error, with no further attempt and no further sleep; an
    attempt that the engine runs ends the call with the statement's result.
    When all of [max_retries] attempts raise the transient error, the error
    of the last attempt is raised. *)
Theorem execute_with_retry_spec {A} (stmt : Statement A) (max_retries : Z)
    (w : World) :
  let out := execute_with_retry stmt max_retries w in
  let delay (k : nat) := PrimFloat.mul 0.1%float (Z.ldexp 1%float (Z.of_nat k)) in
  (executes (snd out) - executes w <= Z.to_nat max_retries)%nat
  /\ (forall locked rest,
        faults w = List.map Some locked ++ rest ->
        Forall (fun e => is_locked e = true) locked ->
        (Z.of_nat (length locked) < max_retries)%Z ->
        match hd None rest with
        | Some e =>
            is_locked e = false ->
            fst out = Raise e
            /\ executes (snd out) = (executes w + length locked + 1)%nat
            /\ sleeps (snd out) = sleeps w ++ List.map delay (seq 1 (length locked))
            /\ faults (snd out) = tl rest
            /\ db (snd out) = db w
        | None =>
            (forall e, fst (stmt (db w)) = Raise e -> is_locked e = false) ->
            fst out = match fst (stmt (db w)) with
                      | Return r => Return (Some r)
                      | Raise e => Raise e
                      end
            /\ executes (snd out) = (executes w + length locked + 1)%nat
            /\ sleeps (snd out) = sleeps w ++ List.map delay (seq 1 (length locked))
            /\ faults (snd out) = tl rest
            /\ db (snd out) = snd (stmt (db w))
        end)
  /\ (forall locked last rest,
        faults w = List.map Some (locked ++ [last]) ++ rest ->
        Forall (fun e => is_locked e = true) (locked ++ [last]) ->
        (Z.of_nat (length locked) + 1 = max_retries)%Z ->
        fst out = Raise last
        /\ executes (snd out) = (executes w + Z.to_nat max_retries)%nat
        /\ sleeps (snd out) = sleeps w ++ List.map delay (seq 1 (length locked))
        /\ faults (snd out) = rest
        /\ db (snd out) = db w).
Proof.
  cbv zeta. rewrite execute_with_retry_unfold.
  set (w0 := with_retry_invocations (S (retry_invocations w)) w).
  split; [|split].
  - pose proof (retry_loop_executes stmt max_retries (Z.to_nat max_retries) 0 w0) as H.
    cbn [executes w0 with_retry_invocations] in H. lia.
  - intros locked rest Hf Hl Hk.
    assert (Hfuel : exists f, Z.to_nat max_retries = (length locked + S f)%nat).
    { exists (Z.to_nat max_retries - length locked - 1)%nat. lia. }
    destruct Hfuel as [f ->].
    rewrite (retry_loop_locked stmt max_retries locked rest (S f) 0 w0 Hf Hl)
      by lia.
    set (w1 := after_retries (length locked) 0 w0).
    assert (Hf1 : faults w1 = rest).
    { unfold w1. rewrite after_retries_faults. cbn [faults w0 with_retry_invocations].
      rewrite Hf, skipn_app, length_map, Nat.sub_diag.
      rewrite <- (length_map Some locked) at 1. now rewrite skipn_all. }
    assert (Hex1 : executes w1 = (executes w + length locked)%nat).
    { unfold w1. now rewrite after_retries_executes. }
    assert (Hsl1 : sleeps w1
                   = sleeps w
                     ++ List.map
                          (fun k : nat =>
                             PrimFloat.mul 0.1%float (Z.ldexp 1%float (Z.of_nat k)))
                          (seq 1 (length locked))).
    { unfold w1. rewrite after_retries_sleeps. reflexivity. }
    destruct (after_retries_db (length locked) 0 w0) as (Hdb1 & _ & _).
    fold w1 in Hdb1. cbn [db w0 with_retry_invocations] in Hdb1.
    destruct (hd None rest) as [e|] eqn:Hhd.
    + intros He.
      destruct rest as [|x rest']; [discriminate|]. cbn [hd] in Hhd. subst x.
      rewrite (retry_loop_raise stmt max_retries f _ w1 e rest' Hf1);
        [|lia|now left].
      cbn [fst snd executes sleeps faults db with_faults with_executes tl].
      rewrite Hex1, Hsl1, Hdb1. repeat split; lia.
    + intros Hstmt.
      rewrite (retry_loop_run stmt max_retries f _ w1);
        [|now rewrite Hf1|lia|now rewrite Hdb1].
      cbn [fst snd executes sleeps faults db with_faults with_executes with_db].
      rewrite Hex1, Hsl1, Hdb1, Hf1. repeat split; lia.
  - intros locked last rest Hf Hl Hk.
    apply Forall_app in Hl. destruct Hl as [Hl Hlast].
    inversion Hlast as [|? ? Hlast' _]; subst.
    rewrite List.map_app, <- app_assoc in Hf. cbn [List.map app] in Hf.
    replace (Z.to_nat (Z.of_nat (length locked) + 1)) with (length locked + 1)%nat
      by lia.
    rewrite (retry_loop_locked stmt _ locked (Some last :: rest) 1 0 w0 Hf Hl)
      by lia.
    set (w1 := after_retries (length locked) 0 w0).
    assert (Hf1 : faults w1 = Some last :: rest).
    { unfold w1. rewrite after_retries_faults. cbn [faults w0 with_retry_invocations].
      rewrite Hf, skipn_app, length_map, Nat.sub_diag.
      rewrite <- (length_map Some locked) at 1. now rewrite skipn_all. }
    rewrite (retry_loop_raise stmt _ 0 _ w1 last rest Hf1); [|lia|right; lia].
    cbn [fst snd executes sleeps faults db with_faults with_executes].
    unfold w1. rewrite after_retries_executes, after_retries_sleeps.
    destruct (after_retries_db (length locked) 0 w0) as (-> & _ & _).
    cbn [executes sleeps db w0 with_retry_invocations].
    repeat split; lia.
Qed.

(** ** Running a statement on a storage that raises nothing *)

Lemma execute_ok {A} (stmt : Statement A) (w : World) (r : A) (d : Database) :
  faults w = [] ->
  stmt (db w) = (Return r, d) ->
  execute_with_retry stmt default_max_retries w
  = (Return (Some r),
     with_db d
       (with_faults []
          (with_executes (S (executes w))
             (with_retry_invocations (S (retry_invocations w)) w)))).
Proof.
  intros Hf Hs. rewrite execute_with_retry_unfold.
  change (Z.to_nat default_max_retries) with 3%nat.
  rewrite retry_loop_run.
  - cbn [db faults executes with_retry_invocations]. rewrite Hs, Hf. reflexivity.
  - cbn [faults with_retry_invocations]. now rewrite Hf.
  - reflexivity.
  - cbn [db with_retry_invocations]. rewrite Hs. discriminate.
Qed.


(** ** Code that touches nothing but the cache *)

(** [m] changes at most the cache, and does not create one. *)
Definition cache_only {A} (m : M A) : Prop :=
  forall w, exists c,
    snd (m w) = with_redis c w /\ (redis w = None -> c = None).

(** [m] returns, whatever the cache does. *)
Definition total {A} (m : M A) : Prop :=
  forall w, exists a, fst (m w) = Return a.

Lemma with_redis_same w : with_redis (redis w) w = w.
Proof. destruct w; reflexivity. Qed.

Lemma cache_only_ret {A} (a : A) : cache_only (ret a).
Proof. intros w. exists (redis w). now rewrite with_redis_same. Qed.

Lemma cache_only_raise {A} (e : exn) : cache_only (@raise A e).
Proof. intros w. exists (redis w). now rewrite with_redis_same. Qed.

Lemma cache_only_pure {A} (o : outcome A) : cache_only (pure o).
Proof. intros w. exists (redis w). now rewrite with_redis_same. Qed.

Lemma cache_only_redis_client : cache_only redis_client.
Proof. intros w. exists (redis w). now rewrite with_redis_same. Qed.

Lemma cache_only_bind {A B} (m : M A) (k : A -> M B) :
  cache_only m -> (forall a, cache_only (k a)) -> cache_only (bind m k).
Proof.
  intros Hm Hk w. unfold bind.
  destruct (Hm w) as (c & Hc & Hn).
  destruct (m w) as [[a|e] w1]; cbn [snd] in *; subst w1.
  - destruct (Hk a (with_redis c w)) as (c' & Hc' & Hn').
    exists c'. rewrite Hc'. split; [reflexivity|].
    intros H. apply Hn'. cbn. auto.
  - exists c. auto.
Qed.

Lemma cache_only_try_except {A} (m : M A) (h : exn -> M A) :
  cache_only m -> (forall e, cache_only (h e)) -> cache_only (try_except m h).
Proof.
  intros Hm Hh w. unfold try_except.
  destruct (Hm w) as (c & Hc & Hn).
  destruct (m w) as [[a|e] w1]; cbn [snd] in *; subst w1.
  - exists c. auto.
  - destruct (Hh e (with_redis c w)) as (c' & Hc' & Hn').
    exists c'. rewrite Hc'. split; [reflexivity|].
    intros H. apply Hn'. cbn. auto.
Qed.

Lemma cache_only_when (b : bool) (m : M unit) :
  cache_only m -> cache_only (when b m).
Proof. destruct b; [auto|]. intros _. apply cache_only_ret. Qed.

Lemma cache_only_call {A} (f : Cache -> A * Cache) : cache_only (cache_call f).
Proof.
  intros w. unfold cache_call.
  destruct (redis w) as [c|] eqn:E.
  - destruct (hd false (cache_faults c)); eexists; split;
      try reflexivity; discriminate.
  - exists None. split; [|reflexivity].
    rewrite <- E. now rewrite with_redis_same.
Qed.

Lemma total_try_except {A} (m : M A) (h : exn -> M A) :
  (forall e, total (h e)) -> total (try_except m h).
Proof.
  intros Hh w. unfold try_except.
  destruct (m w) as [[a|e] w1].
  - now exists a.
  - apply Hh.
Qed.

Lemma total_ret {A} (a : A) : total (ret a).
Proof. intros w. now exists a. Qed.

Lemma total_bind {A B} (m : M A) (k : A -> M B) :
  total m -> (forall a, total (k a)) -> total (bind m k).
Proof.
  intros Hm Hk w. unfold bind.
  destruct (Hm w) as (a & Ha).
  destruct (m w) as [[a'|e] w1]; cbn [fst] in Ha; [|discriminate].
  apply Hk.
Qed.

Lemma total_when (b : bool) (m : M unit) : total m -> total (when b m).
Proof. destruct b; [auto|]. intros _. apply total_ret. Qed.

Lemma invalidate_cache_only pattern : cache_only (invalidate_cache pattern).
Proof.
  unfold invalidate_cache.
  apply cache_only_bind; [apply cache_only_redis_client|]. intros configured.
  destruct (negb configured); [apply cache_only_ret|].
  apply cache_only_try_except; [|intros; apply cache_only_ret].
  apply cache_only_bind.
  { intros w. exists (redis w). now rewrite with_redis_same. }
  intros [|].
  - apply cache_only_bind; [apply cache_only_call|].
    intros [|k l]; [apply cache_only_ret|apply cache_only_call].
  - apply cache_only_call.
Qed.

Lemma invalidate_cache_total pattern : total (invalidate_cache pattern).
Proof.
  unfold invalidate_cache.
  apply total_bind; [intros w; eexists; reflexivity|]. intros configured.
  destruct (negb configured); [apply total_ret|].
  apply total_try_except. intros; apply total_ret.
Qed.

(** What a [cache_only], [total] step leaves behind. *)
Lemma run_cache_step (m : M unit) (w : World) :
  cache_only m -> total m ->
  exists c, m w = (Return tt, with_redis c w) /\ (redis w = None -> c = None).
Proof.
  intros Hc Ht. destruct (Hc w) as (c & Hs & Hn). destruct (Ht w) as ([] & Hr).
  exists c. split; [|exact Hn].
  destruct (m w) as [o w1]. cbn [fst snd] in *. now subst.
Qed.

(** ** A cache that does not serve a key *)

(** The world after one call of the cache client that did not raise and
    changed nothing: the call is taken off the fault schedule. *)
Definition after_cache_call (w : World) : World :=
  match redis w with
  | Some c =>
      with_redis
        (Some {| store := store c; has_keys := has_keys c;
                 cache_faults := tl (cache_faults c) |}) w
  | None => w
  end.

(** No cache is configured, or the next call of the client does not raise
    and the cache holds nothing under [key]. *)
Definition cache_cold (key : string) (w : World) : Prop :=
  match redis w with
  | Some c => hd false (cache_faults c) = false /\ store c !! key = None
  | None => True
  end.

Lemma redis_get_cold key w c :
  redis w = Some c -> cache_cold key w ->
  redis_get key w = (Return None, after_cache_call w).
Proof.
  unfold cache_cold, redis_get, cache_call, after_cache_call.
  intros -> [-> Hs]. cbn. now rewrite Hs.
Qed.

Lemma after_cache_call_storage w :
  db (after_cache_call w) = db w
  /\ committed (after_cache_call w) = committed w
  /\ faults (after_cache_call w) = faults w
  /\ executes (after_cache_call w) = executes w
  /\ retry_invocations (after_cache_call w) = retry_invocations w.
Proof. unfold after_cache_call. destruct (redis w); cbn; auto. Qed.

Section Operations.

Variable rt : Runtime.

#[local] Arguments execute_with_retry : simpl never.
#[local] Arguments cache_new_entity : simpl never.
#[local] Arguments invalidate_cache : simpl never.
#[local] Arguments get_cache_key : simpl never.
#[local] Arguments when : simpl never.
#[local] Arguments cached_entity : simpl never.
#[local] Arguments cache_entity : simpl never.
#[local] Arguments cached_json : simpl never.
#[local] Arguments cache_json : simpl never.
#[local] Arguments cached_observations : simpl never.
#[local] Arguments String.append : simpl never.

(** C3.  [create_relation] with a confidence below 0.0 or above 1.0
    raises a [ValueError] and leaves the world as it was: the tables, the
    committed state, the cache, and the counts of statements executed. *)
Theorem create_relation_rejects_confidence
    (from_entity_id to_entity_id relation_type : string) (confidence : float)
    (properties : option (list (string * json))) (w : World) :
  PrimFloat.ltb confidence 0%float = true
  \/ PrimFloat.ltb 1%float confidence = true ->
  exists msg,
    create_relation rt from_entity_id to_entity_id relation_type confidence
      properties w
    = (Raise (ValueError msg), w).
Proof.
  intros Hc. unfold create_relation.
  destruct (negb (str_truthy from_entity_id) || negb (str_truthy to_entity_id)
            || negb (str_truthy relation_type)).
  - eexists. reflexivity.
  - assert (PrimFloat.ltb confidence 0%float || PrimFloat.ltb 1%float confidence
            = true) as ->.
    { destruct Hc as [-> | ->]; [reflexivity|apply orb_true_r]. }
    eexists. reflexivity.
Qed.

Lemma create_entity_existing (name entity_type : string)
    (embedding_function : option (string -> option (list float)))
    (embedding : option (list float))
    (properties : option (list (string * json))) (cache_ttl : option Z)
    (w : World) (r : EntityRow) :
  str_truthy (Str.strip name) = true ->
  str_truthy (Str.strip entity_type) = true ->
  faults w = [] ->
  In r (entities (db w)) ->
  e_name r = name ->
  e_entity_type r = entity_type ->
  exists r0 w',
    create_entity rt name entity_type embedding_function embedding properties
      cache_ttl w = (Return (e_id r0), w')
    /\ In r0 (entities (db w))
    /\ e_name r0 = name /\ e_entity_type r0 = entity_type
    /\ db w' = db w /\ committed w' = committed w /\ redis w' = redis w.
Proof.
  intros Hn Ht Hf Hin Hrn Hrt.
  unfold create_entity. rewrite Hn, Ht. cbn [negb orb].
  unfold new_entity, uuid4, datetime_now, try_except, bind, ret.
  erewrite execute_ok; [|exact Hf|reflexivity].
  cbn [db with_clock_read with_uuid_drawn fetchone fetchall].
  destruct (List.filter _ (entities (db w))) as [|r0 l] eqn:E.
  - exfalso.
    assert (Hr : In r (List.filter
                         (fun r => String.eqb (e_name r) name
                                   && String.eqb (e_entity_type r) entity_type)
                         (entities (db w)))).
    { apply filter_In. split; [exact Hin|].
      rewrite Hrn, Hrt, !String.eqb_refl. reflexivity. }
    rewrite E in Hr. destruct Hr.
  - assert (Hr0 : In r0 (r0 :: l)) by now left.
    rewrite <- E in Hr0. apply filter_In in Hr0. destruct Hr0 as [Hin0 Hc].
    apply andb_true_iff in Hc. destruct Hc as [Hc1 Hc2].
    apply String.eqb_eq in Hc1, Hc2.
    exists r0. eexists. cbn [List.map head].
    split; [reflexivity|]. cbn. repeat split; assumption.
Qed.

Lemma cache_new_entity_step (entity : Entity.t) (cache_ttl : option Z)
    (b : bool) (w : World) :
  exists c,
    when b (cache_new_entity rt entity cache_ttl) w = (Return tt, with_redis c w)
    /\ (redis w = None -> c = None).
Proof.
  apply run_cache_step.
  - apply cache_only_when. unfold cache_new_entity.
    apply cache_only_bind.
    { apply cache_only_try_except; [|intros; apply cache_only_ret].
      apply cache_only_bind; [apply cache_only_pure|].
      intros doc. apply cache_only_call. }
    intros _. apply cache_only_bind; intros; apply invalidate_cache_only.
  - apply total_when. unfold cache_new_entity.
    apply total_bind.
    { apply total_try_except. intros; apply total_ret. }
    intros _. apply total_bind; intros; apply invalidate_cache_total.
Qed.

(** The row [create_entity] inserts in [w]. *)
Definition created_row (name entity_type : string)
    (embedding_function : option (string -> option (list float)))
    (embedding : option (list float))
    (properties : option (list (string * json))) (w : World) : EntityRow :=
  {| e_id := uuid_source w (uuid_drawn w);
     e_name := name;
     e_entity_type := entity_type;
     e_embedding :=
       embedding_column rt (auto_embedding embedding_function embedding name);
     e_created_at := isoformat rt (clock_source w (clock_read w));
     e_updated_at := isoformat rt (clock_source w (S (clock_read w)));
     e_properties :=
       Some (serialize_properties rt (properties_or_empty properties)) |}.

Definition with_entity (row : EntityRow) (d : Database) : Database :=
  {| entities := entities d ++ [row];
     observations := observations d;
     relations := relations d |}.

Lemma has_entity_false id d :
  (forall r, In r (entities d) -> e_id r <> id) ->
  Sql.has_entity id d = false.
Proof.
  intros H. unfold Sql.has_entity.
  apply not_true_is_false. intros Hex.
  apply existsb_exists in Hex. destruct Hex as (r & Hin & Heq).
  apply String.eqb_eq in Heq. exact (H r Hin Heq).
Qed.

Lemma filter_nil {X} (f : X -> bool) (l : list X) :
  (forall x, In x l -> f x = false) -> List.filter f l = [].
Proof.
  induction l as [|x l IH]; intros H; [reflexivity|].
  cbn. rewrite (H x (or_introl eq_refl)). apply IH.
  intros y Hy. apply H. now right.
Qed.

Lemma create_entity_new (name entity_type : string)
    (embedding_function : option (string -> option (list float)))
    (embedding : option (list float))
    (properties : option (list (string * json))) (cache_ttl : option Z)
    (w : World) :
  str_truthy (Str.strip name) = true ->
  str_truthy (Str.strip entity_type) = true ->
  faults w = [] ->
  (forall r, In r (entities (db w)) ->
             ~ (e_name r = name /\ e_entity_type r = entity_type)) ->
  (forall r, In r (entities (db w)) -> e_id r <> uuid_source w (uuid_drawn w)) ->
  let row := created_row name entity_type embedding_function embedding properties w in
  exists c,
    create_entity rt name entity_type embedding_function embedding properties
      cache_ttl w
    = (Return (uuid_source w (uuid_drawn w)),
       with_redis c
         (with_committed (with_entity row (db w))
            (with_db (with_entity row (db w))
               (with_faults []
                  (with_executes (S (S (executes w)))
                     (with_retry_invocations (S (S (retry_invocations w)))
                        (with_clock_read (S (S (clock_read w)))
                           (with_uuid_drawn (S (uuid_drawn w)) w))))))))
    /\ (redis w = None -> c = None).
Proof.
  intros Hn Ht Hf Hnew Hfresh row.
  unfold create_entity. rewrite Hn, Ht. cbn [negb orb].
  unfold new_entity, uuid4, datetime_now, try_except, bind, ret.
  erewrite execute_ok; [|exact Hf|reflexivity].
  cbn [db with_clock_read with_uuid_drawn fetchone fetchall].
  rewrite filter_nil.
  2:{ intros r Hr. apply not_true_is_false. intros Hc.
      apply andb_true_iff in Hc. destruct Hc as [Hc1 Hc2].
      apply String.eqb_eq in Hc1, Hc2. exact (Hnew r Hr (conj Hc1 Hc2)). }
  cbn.
  erewrite execute_ok; [|reflexivity|].
  2:{ unfold Sql.insert_entity. cbn [e_id db with_db].
      rewrite has_entity_false by exact Hfresh. reflexivity. }
  cbn.
  match goal with
  | |- context [when ?b (cache_new_entity rt ?e ?t) ?W] =>
      destruct (cache_new_entity_step e t b W) as (c & -> & Hc)
  end.
  exists c. split; [reflexivity|]. intros H. apply Hc. exact H.
Qed.


(** *** Reading an entity from the storage *)

Lemma cached_entity_cold key w c :
  redis w = Some c -> cache_cold key w ->
  cached_entity rt key w = (Return None, after_cache_call w).
Proof.
  intros Hr Hc. unfold cached_entity, bind, try_except.
  now rewrite (redis_get_cold key w c Hr Hc).
Qed.

Lemma cached_json_cold key w c :
  redis w = Some c -> cache_cold key w ->
  cached_json rt key w = (Return None, after_cache_call w).
Proof.
  intros Hr Hc. unfold cached_json, bind.
  now rewrite (redis_get_cold key w c Hr Hc).
Qed.

Lemma cached_observations_cold key w c :
  redis w = Some c -> cache_cold key w ->
  cached_observations rt key w = (Return None, after_cache_call w).
Proof.
  intros Hr Hc. unfold cached_observations, bind.
  now rewrite (redis_get_cold key w c Hr Hc).
Qed.

(** The cache lookup that opens a read, when the cache does not serve:
    the read goes on to the storage. *)
Lemma lookup_cold {X B} (lookup : string -> M (option X))
    (k : bool -> option X -> M B) (key : string) (w : World) :
  (forall c, redis w = Some c -> cache_cold key w ->
             lookup key w = (Return None, after_cache_call w)) ->
  cache_cold key w ->
  (let* configured := redis_client in
   let* hit := (if configured then lookup key else ret None) in
   k configured hit) w
  = k (match redis w with Some _ => true | None => false end) None
      (after_cache_call w).
Proof.
  intros Hlookup Hk. unfold bind at 1, redis_client.
  destruct (redis w) as [c|] eqn:E; unfold bind.
  - now rewrite (Hlookup c eq_refl Hk).
  - cbn. unfold after_cache_call. now rewrite E.
Qed.

Lemma get_entity_missing (entity_id : string) (cache_ttl : Z) (w : World) :
  str_truthy entity_id = true ->
  faults w = [] ->
  cache_cold (get_cache_key rt "get_entity" [JStr entity_id] []) w ->
  (forall r, In r (entities (db w)) -> e_id r <> entity_id) ->
  exists w',
    get_entity rt entity_id cache_ttl w = (Return None, w')
    /\ db w' = db w /\ committed w' = committed w /\ faults w' = [].
Proof.
  intros Hid Hf Hc Hno.
  destruct (after_cache_call_storage w) as (Hdb & Hcm & Hfs & _).
  unfold get_entity. rewrite Hid. cbn [negb]. cbv zeta.
  rewrite (lookup_cold (cached_entity rt)
             (fun configured hit =>
                match hit with Some entity => ret (Some entity) | None => _ end)
             _ w (cached_entity_cold _ w) Hc).
  unfold try_except, bind.
  erewrite execute_ok; [|now rewrite Hfs|reflexivity].
  cbn. rewrite Hdb. rewrite filter_nil.
  2:{ intros r Hr. apply String.eqb_neq. exact (Hno r Hr). }
  cbn. eexists. split; [reflexivity|]. cbn. auto.
Qed.

Lemma get_entity_by_name_missing (name : string) (cache_ttl : Z) (w : World) :
  str_truthy name = true ->
  faults w = [] ->
  cache_cold (get_cache_key rt "get_entity_by_name" [JStr name] []) w ->
  (forall r, In r (entities (db w)) -> e_name r <> name) ->
  exists w',
    get_entity_by_name rt name cache_ttl w = (Return None, w')
    /\ db w' = db w /\ committed w' = committed w /\ faults w' = [].
Proof.
  intros Hid Hf Hc Hno.
  destruct (after_cache_call_storage w) as (Hdb & Hcm & Hfs & _).
  unfold get_entity_by_name. rewrite Hid. cbn [negb]. cbv zeta.
  rewrite (lookup_cold (cached_entity rt)
             (fun configured hit =>
                match hit with Some entity => ret (Some entity) | None => _ end)
             _ w (cached_entity_cold _ w) Hc).
  unfold try_except, bind.
  erewrite execute_ok; [|now rewrite Hfs|reflexivity].
  cbn. rewrite Hdb. rewrite filter_nil.
  2:{ intros r Hr. apply String.eqb_neq. exact (Hno r Hr). }
  cbn. eexists. split; [reflexivity|]. cbn. auto.
Qed.

Lemma update_entity_missing (entity_id : string) (name entity_type : option string)
    (embedding : option (list float))
    (properties : option (list (string * json))) (w : World) :
  str_truthy entity_id = true ->
  faults w = [] ->
  (forall r, In r (entities (db w)) -> e_id r <> entity_id) ->
  exists w',
    update_entity rt entity_id name entity_type embedding properties w
    = (Return false, w')
    /\ db w' = db w /\ committed w' = committed w /\ redis w' = redis w.
Proof.
  intros Hid Hf Hno.
  unfold update_entity. rewrite Hid. cbn [negb].
  unfold try_except, bind.
  erewrite execute_ok; [|exact Hf|reflexivity].
  cbn. rewrite filter_nil.
  2:{ intros r Hr. apply String.eqb_neq. exact (Hno r Hr). }
  cbn. eexists. split; [reflexivity|]. cbn. auto.
Qed.

Lemma delete_entity_missing (entity_id : string) (w : World) :
  str_truthy entity_id = true ->
  faults w = [] ->
  cache_cold (get_cache_key rt "get_entity" [JStr entity_id] []) w ->
  (forall r, In r (entities (db w)) -> e_id r <> entity_id) ->
  exists w',
    delete_entity rt entity_id w = (Return false, w')
    /\ db w' = db w /\ committed w' = committed w.
Proof.
  intros Hid Hf Hc Hno.
  destruct (get_entity_missing entity_id 3600 w Hid Hf Hc Hno)
    as (w' & Hg & Hdb & Hcm & _).
  unfold delete_entity. rewrite Hid. cbn [negb].
  unfold try_except, bind. rewrite Hg.
  exists w'. auto.
Qed.

Lemma delete_relation_missing (relation_id : string) (w : World) :
  str_truthy relation_id = true ->
  faults w = [] ->
  (forall r, In r (relations (db w)) -> r_id r <> relation_id) ->
  exists w',
    delete_relation rt relation_id w = (Return false, w')
    /\ db w' = db w /\ committed w' = committed w /\ redis w' = redis w.
Proof.
  intros Hid Hf Hno.
  unfold delete_relation. rewrite Hid. cbn [negb].
  unfold try_except, bind.
  erewrite execute_ok; [|exact Hf|reflexivity].
  cbn. rewrite filter_nil.
  2:{ intros r Hr. apply String.eqb_neq. exact (Hno r Hr). }
  cbn. eexists. split; [reflexivity|]. cbn. auto.
Qed.

Lemma delete_observation_missing (observation_id : string) (w : World) :
  str_truthy observation_id = true ->
  faults w = [] ->
  (forall r, In r (observations (db w)) -> o_id r <> observation_id) ->
  exists w',
    delete_observation rt observation_id w = (Return false, w')
    /\ db w' = db w /\ committed w' = committed w /\ redis w' = redis w.
Proof.
  intros Hid Hf Hno.
  unfold delete_observation. rewrite Hid. cbn [negb].
  unfold try_except, bind.
  erewrite execute_ok; [|exact Hf|reflexivity].
  cbn. rewrite filter_nil.
  2:{ intros r Hr. apply String.eqb_neq. exact (Hno r Hr). }
  cbn. eexists. split; [reflexivity|]. cbn. auto.
Qed.

Definition valid_direction (direction : string) : bool :=
  String.eqb direction "outgoing" || String.eqb direction "incoming"
  || String.eqb direction "both".

Lemma get_relations_missing (entity_id direction : string)
    (relation_type : option string) (cache_ttl : Z) (w : World) :
  str_truthy entity_id = true ->
  valid_direction direction = true ->
  faults w = [] ->
  cache_cold (get_cache_key rt "get_relations"
                [JStr entity_id; JStr direction; optional_str relation_type] []) w ->
  (forall r, In r (entities (db w)) -> e_id r <> entity_id) ->
  exists w',
    get_relations rt entity_id direction relation_type cache_ttl w
    = (Raise (EntityNotFoundError
                ("Entity with ID '" +:+ entity_id +:+ "' not found")), w')
    /\ db w' = db w /\ committed w' = committed w.
Proof.
  intros Hid Hdir Hf Hc Hno.
  destruct (after_cache_call_storage w) as (Hdb & Hcm & Hfs & _).
  unfold get_relations. rewrite Hid. cbn [negb].
  unfold valid_direction in Hdir. rewrite Hdir. cbn [negb]. cbv zeta.
  rewrite (lookup_cold (cached_json rt)
             (fun configured hit =>
                match hit with Some cached => ret cached | None => _ end)
             _ w (cached_json_cold _ w) Hc).
  unfold try_except, bind.
  erewrite execute_ok; [|now rewrite Hfs|reflexivity].
  cbn. rewrite Hdb. rewrite filter_nil.
  2:{ intros r Hr. apply String.eqb_neq. exact (Hno r Hr). }
  cbn. eexists. split; [reflexivity|]. cbn. auto.
Qed.

Lemma get_observations_missing (entity_id : string) (limit cache_ttl : Z)
    (w : World) :
  str_truthy entity_id = true ->
  faults w = [] ->
  cache_cold (get_cache_key rt "get_observations" [JStr entity_id; JInt limit] []) w ->
  (forall r, In r (entities (db w)) -> e_id r <> entity_id) ->
  exists w',
    get_observations rt entity_id limit cache_ttl w
    = (Raise (EntityNotFoundError
                ("Entity with ID '" +:+ entity_id +:+ "' not found")), w')
    /\ db w' = db w /\ committed w' = committed w.
Proof.
  intros Hid Hf Hc Hno.
  destruct (after_cache_call_storage w) as (Hdb & Hcm & Hfs & _).
  unfold get_observations. rewrite Hid. cbn [negb]. cbv zeta.
  rewrite (lookup_cold (cached_observations rt)
             (fun configured hit =>
                match hit with Some cached => ret cached | None => _ end)
             _ w (cached_observations_cold _ w) Hc).
  unfold try_except, bind.
  erewrite execute_ok; [|now rewrite Hfs|reflexivity].
  cbn. rewrite Hdb. rewrite filter_nil.
  2:{ intros r Hr. apply String.eqb_neq. exact (Hno r Hr). }
  cbn. eexists. split; [reflexivity|]. cbn. auto.
Qed.


(** *** Creating an entity that is already stored *)

(** Whatever the storage raises, a [create_entity] for a stored (name,
    type) does not reach the [INSERT]: when no transaction is open, the
    tables, the committed state and the cache are as before. *)
Lemma create_entity_existing_frame (name entity_type : string)
    (embedding_function : option (string -> option (list float)))
    (embedding : option (list float))
    (properties : option (list (string * json))) (cache_ttl : option Z)
    (w : World) (r : EntityRow) :
  In r (entities (db w)) ->
  e_name r = name ->
  e_entity_type r = entity_type ->
  committed w = db w ->
  forall o w',
    create_entity rt name entity_type embedding_function embedding properties
      cache_ttl w = (o, w') ->
    db w' = db w /\ committed w' = committed w /\ redis w' = redis w.
Proof.
  intros Hin Hrn Hrt Hcm o w' E.
  unfold create_entity in E.
  destruct (negb (str_truthy (Str.strip name)) || _).
  { inversion E; subst. auto. }
  unfold new_entity, uuid4, datetime_now, try_except, bind, ret in E.
  match type of E with
  | context [execute_with_retry ?s ?n ?W] =>
      destruct (execute_with_retry s n W) as [o1 w1] eqn:E1
  end.
  rewrite execute_with_retry_unfold in E1.
  pose proof E1 as E2.
  apply retry_loop_read_only in E2; [|reflexivity].
  cbn in E2. destruct E2 as (H1 & H2 & H3 & H4).
  destruct o1 as [[rows|]|e].
  - specialize (H4 rows eq_refl). cbn in H4. inversion H4; subst rows.
    cbn in E.
    destruct (List.filter _ (entities (db w))) as [|r0 l] eqn:Ef.
    + exfalso.
      assert (Hr : In r (List.filter
                           (fun r => String.eqb (e_name r) name
                                     && String.eqb (e_entity_type r) entity_type)
                           (entities (db w)))).
      { apply filter_In. split; [exact Hin|].
        rewrite Hrn, Hrt, !String.eqb_refl. reflexivity. }
      rewrite Ef in Hr. destruct Hr.
    + cbn in E. inversion E; subst. auto.
  - exfalso.
    pose proof (retry_loop_not_none
                  (Sql.select_entity_id_by_name_type name entity_type)
                  default_max_retries (Z.to_nat default_max_retries) 0) as Hnn.
    match type of E1 with
    | retry_loop _ _ _ _ ?W = _ => specialize (Hnn W)
    end.
    rewrite E1 in Hnn. apply Hnn; [reflexivity| |reflexivity].
    unfold default_max_retries. lia.
  - unfold rollback, raise in E. cbn in E. inversion E; subst. cbn.
    rewrite H2, H3. auto.
Qed.

(** *** Creating an entity whose id is taken *)

Lemma has_entity_true id d r :
  In r (entities d) -> e_id r = id -> Sql.has_entity id d = true.
Proof.
  intros Hin Hid. unfold Sql.has_entity. apply existsb_exists.
  exists r. split; [exact Hin|]. now apply String.eqb_eq.
Qed.

Lemma create_entity_collision (name entity_type : string)
    (embedding_function : option (string -> option (list float)))
    (embedding : option (list float))
    (properties : option (list (string * json))) (cache_ttl : option Z)
    (w : World) (r : EntityRow) :
  str_truthy (Str.strip name) = true ->
  str_truthy (Str.strip entity_type) = true ->
  faults w = [] ->
  (forall r, In r (entities (db w)) ->
             ~ (e_name r = name /\ e_entity_type r = entity_type)) ->
  In r (entities (db w)) ->
  e_id r = uuid_source w (uuid_drawn w) ->
  exists msg w',
    create_entity rt name entity_type embedding_function embedding properties
      cache_ttl w = (Raise (KnowledgeGraphError msg), w').
Proof.
  intros Hn Ht Hf Hnew Hin Hid.
  unfold create_entity. rewrite Hn, Ht. cbn [negb orb].
  unfold new_entity, uuid4, datetime_now, try_except, bind, ret.
  erewrite execute_ok; [|exact Hf|reflexivity].
  cbn [db with_clock_read with_uuid_drawn fetchone fetchall].
  rewrite filter_nil.
  2:{ intros r' Hr. apply not_true_is_false. intros Hc.
      apply andb_true_iff in Hc. destruct Hc as [Hc1 Hc2].
      apply String.eqb_eq in Hc1, Hc2. exact (Hnew r' Hr (conj Hc1 Hc2)). }
  cbn.
  rewrite execute_with_retry_unfold.
  change (Z.to_nat default_max_retries) with 3%nat.
  rewrite retry_loop_run; [|reflexivity|reflexivity|].
  2:{ cbn. unfold Sql.insert_entity. cbn [e_id].
      rewrite (has_entity_true _ _ r Hin Hid). cbn. intros e He.
      inversion He; subst. reflexivity. }
  cbn. unfold Sql.insert_entity. cbn [e_id].
  rewrite (has_entity_true _ _ r Hin Hid). cbn.
  eexists. eexists. reflexivity.
Qed.

(** C1.  In a world whose storage raises nothing and that holds an entity
    [r] with the pair (name, type), [create_entity] with that name and
    type returns, without an error, the id of a stored entity with this
    pair.  With the same name and another type that no stored entity has
    with this name, it returns the id it drew, inserts one row with this
    id, name and type, and this id differs from every id stored before, the
    id of [r] among them: when the id it drew is taken, it raises instead
    of returning. *)
Theorem create_entity_dedup (name entity_type other_type : string)
    (embedding_function : option (string -> option (list float)))
    (embedding : option (list float))
    (properties : option (list (string * json))) (cache_ttl : option Z)
    (w : World) (r : EntityRow) :
  str_truthy (Str.strip name) = true ->
  str_truthy (Str.strip entity_type) = true ->
  str_truthy (Str.strip other_type) = true ->
  faults w = [] ->
  In r (entities (db w)) ->
  e_name r = name ->
  e_entity_type r = entity_type ->
  (exists r0 w',
      create_entity rt name entity_type embedding_function embedding properties
        cache_ttl w = (Return (e_id r0), w')
      /\ In r0 (entities (db w))
      /\ e_name r0 = name /\ e_entity_type r0 = entity_type)
  /\ ((forall r', In r' (entities (db w)) ->
                  ~ (e_name r' = name /\ e_entity_type r' = other_type)) ->
      (* the id drawn is new: the entity is created *)
      ((forall r', In r' (entities (db w)) -> e_id r' <> uuid_source w (uuid_drawn w)) ->
       exists w' row,
         create_entity rt name other_type embedding_function embedding properties
           cache_ttl w = (Return (e_id row), w')
         /\ entities (db w') = entities (db w) ++ [row]
         /\ e_name row = name /\ e_entity_type row = other_type
         /\ e_id row <> e_id r)
      (* and no id is ever returned twice *)
      /\ (forall id w',
            create_entity rt name other_type embedding_function embedding
              properties cache_ttl w = (Return id, w') ->
            forall r', In r' (entities (db w)) -> e_id r' <> id)).
Proof.
  intros Hn Ht Ho Hf Hin Hrn Hrt. split.
  - destruct (create_entity_existing name entity_type embedding_function
                embedding properties cache_ttl w r Hn Ht Hf Hin Hrn Hrt)
      as (r0 & w' & H & H1 & H2 & H3 & _).
    exists r0, w'. auto.
  - intros Hnew. split.
    + intros Hfresh.
      destruct (create_entity_new name other_type embedding_function embedding
                  properties cache_ttl w Hn Ho Hf Hnew Hfresh) as (c & H & _).
      eexists.
      exists (created_row name other_type embedding_function embedding properties w).
      split; [exact H|].
      cbn. repeat split. intros Heq. exact (Hfresh r Hin (eq_sym Heq)).
    + intros id w' H r' Hr' Heq.
      destruct (string_dec (e_id r') (uuid_source w (uuid_drawn w))) as [Hd|Hd].
      * destruct (create_entity_collision name other_type embedding_function
                    embedding properties cache_ttl w r' Hn Ho Hf Hnew Hr' Hd)
          as (msg & w'' & Hc).
        rewrite Hc in H. discriminate H.
      * assert (Hex : exists r1, In r1 (entities (db w))
                                 /\ e_id r1 = uuid_source w (uuid_drawn w)).
        { destruct (Sql.has_entity (uuid_source w (uuid_drawn w)) (db w)) eqn:Eh.
          - apply existsb_exists in Eh. destruct Eh as (r1 & Hr1 & He1).
            apply String.eqb_eq in He1. eauto.
          - exfalso.
            assert (Hfresh : forall r1, In r1 (entities (db w)) ->
                                        e_id r1 <> uuid_source w (uuid_drawn w)).
            { intros r1 Hr1 He1.
              rewrite (has_entity_true _ _ r1 Hr1 He1) in Eh. discriminate. }
            destruct (create_entity_new name other_type embedding_function
                        embedding properties cache_ttl w Hn Ho Hf Hnew Hfresh)
              as (c & Hc & _).
            rewrite Hc in H. inversion H. congruence. }
        destruct Hex as (r1 & Hr1 & He1).
        destruct (create_entity_collision name other_type embedding_function
                    embedding properties cache_ttl w r1 Hn Ho Hf Hnew Hr1 He1)
          as (msg & w'' & Hc).
        rewrite Hc in H. discriminate H.
Qed.

(** C10.  [create_entity] with the (name, type) of a stored entity does
    not write: whatever embedding, embedding function and properties the
    call gives, it returns with the tables (every row and every column of
    it), the committed state and the cache as they were.  This holds for a
    storage that raises nothing, where the call returns an id, and, when no
    transaction is open, for every outcome of a storage that raises. *)
Theorem create_entity_duplicate_writes_nothing (name entity_type : string)
    (embedding_function : option (string -> option (list float)))
    (embedding : option (list float))
    (properties : option (list (string * json))) (cache_ttl : option Z)
    (w : World) (r : EntityRow) :
  str_truthy (Str.strip name) = true ->
  str_truthy (Str.strip entity_type) = true ->
  In r (entities (db w)) ->
  e_name r = name ->
  e_entity_type r = entity_type ->
  (faults w = [] ->
   exists id w',
     create_entity rt name entity_type embedding_function embedding properties
       cache_ttl w = (Return id, w')
     /\ db w' = db w /\ committed w' = committed w /\ redis w' = redis w)
  /\ (committed w = db w ->
      forall o w',
        create_entity rt name entity_type embedding_function embedding properties
          cache_ttl w = (o, w') ->
        db w' = db w /\ committed w' = committed w /\ redis w' = redis w).
Proof.
  intros Hn Ht Hin Hrn Hrt. split.
  - intros Hf.
    destruct (create_entity_existing name entity_type embedding_function
                embedding properties cache_ttl w r Hn Ht Hf Hin Hrn Hrt)
      as (r0 & w' & H & _ & _ & _ & H1 & H2 & H3).
    exists (e_id r0), w'. auto.
  - intros Hcm o w' H.
    exact (create_entity_existing_frame name entity_type embedding_function
             embedding properties cache_ttl w r Hin Hrn Hrt Hcm o w' H).
Qed.

(** C4 (as amended).  For an id that is not empty and identifies no stored
    record, on a storage that raises nothing and with a cache that does not
    serve the read: [update_entity], [delete_entity], [delete_relation] and
    [delete_observation] return [False]; [get_entity] returns [None], and so
    does [get_entity_by_name] for a name no entity has; [get_relations] and
    [get_observations] raise [EntityNotFoundError].  None of them changes
    the tables. *)
Theorem missing_id_behaviour (w : World) :
  faults w = [] ->
  (forall entity_id name entity_type embedding properties,
      str_truthy entity_id = true ->
      (forall r, In r (entities (db w)) -> e_id r <> entity_id) ->
      exists w',
        update_entity rt entity_id name entity_type embedding properties w
        = (Return false, w') /\ db w' = db w)
  /\ (forall entity_id,
        str_truthy entity_id = true ->
        cache_cold (get_cache_key rt "get_entity" [JStr entity_id] []) w ->
        (forall r, In r (entities (db w)) -> e_id r <> entity_id) ->
        exists w', delete_entity rt entity_id w = (Return false, w') /\ db w' = db w)
  /\ (forall relation_id,
        str_truthy relation_id = true ->
        (forall r, In r (relations (db w)) -> r_id r <> relation_id) ->
        exists w', delete_relation rt relation_id w = (Return false, w') /\ db w' = db w)
  /\ (forall observation_id,
        str_truthy observation_id = true ->
        (forall r, In r (observations (db w)) -> o_id r <> observation_id) ->
        exists w',
          delete_observation rt observation_id w = (Return false, w') /\ db w' = db w)
  /\ (forall entity_id cache_ttl,
        str_truthy entity_id = true ->
        cache_cold (get_cache_key rt "get_entity" [JStr entity_id] []) w ->
        (forall r, In r (entities (db w)) -> e_id r <> entity_id) ->
        exists w',
          get_entity rt entity_id cache_ttl w = (Return None, w') /\ db w' = db w)
  /\ (forall name cache_ttl,
        str_truthy name = true ->
        cache_cold (get_cache_key rt "get_entity_by_name" [JStr name] []) w ->
        (forall r, In r (entities (db w)) -> e_name r <> name) ->
        exists w',
          get_entity_by_name rt name cache_ttl w = (Return None, w') /\ db w' = db w)
  /\ (forall entity_id direction relation_type cache_ttl,
        str_truthy entity_id = true ->
        valid_direction direction = true ->
        cache_cold (get_cache_key rt "get_relations"
                      [JStr entity_id; JStr direction; optional_str relation_type] [])
          w ->
        (forall r, In r (entities (db w)) -> e_id r <> entity_id) ->
        exists msg w',
          get_relations rt entity_id direction relation_type cache_ttl w
          = (Raise (EntityNotFoundError msg), w') /\ db w' = db w)
  /\ (forall entity_id limit cache_ttl,
        str_truthy entity_id = true ->
        cache_cold (get_cache_key rt "get_observations"
                      [JStr entity_id; JInt limit] []) w ->
        (forall r, In r (entities (db w)) -> e_id r <> entity_id) ->
        exists msg w',
          get_observations rt entity_id limit cache_ttl w
          = (Raise (EntityNotFoundError msg), w') /\ db w' = db w).
Proof.
  intros Hf. repeat split.
  - intros entity_id name entity_type embedding properties Hid Hno.
    destruct (update_entity_missing entity_id name entity_type embedding
                properties w Hid Hf Hno) as (w' & H & Hdb & _).
    eauto.
  - intros entity_id Hid Hc Hno.
    destruct (delete_entity_missing entity_id w Hid Hf Hc Hno) as (w' & H & Hdb & _).
    eauto.
  - intros relation_id Hid Hno.
    destruct (delete_relation_missing relation_id w Hid Hf Hno) as (w' & H & Hdb & _).
    eauto.
  - intros observation_id Hid Hno.
    destruct (delete_observation_missing observation_id w Hid Hf Hno)
      as (w' & H & Hdb & _).
    eauto.
  - intros entity_id cache_ttl Hid Hc Hno.
    destruct (get_entity_missing entity_id cache_ttl w Hid Hf Hc Hno)
      as (w' & H & Hdb & _).
    eauto.
  - intros name cache_ttl Hid Hc Hno.
    destruct (get_entity_by_name_missing name cache_ttl w Hid Hf Hc Hno)
      as (w' & H & Hdb & _).
    eauto.
  - intros entity_id direction relation_type cache_ttl Hid Hdir Hc Hno.
    destruct (get_relations_missing entity_id direction relation_type cache_ttl w
                Hid Hdir Hf Hc Hno) as (w' & H & Hdb & _).
    eauto.
  - intros entity_id limit cache_ttl Hid Hc Hno.
    destruct (get_observations_missing entity_id limit cache_ttl w Hid Hf Hc Hno)
      as (w' & H & Hdb & _).
    eauto.
Qed.


(** *** Reading a stored entity *)

(** The observations [get_entity] folds into the properties. *)
Definition observation_texts (entity_id : string) (d : Database) : list string :=
  List.map o_observation
    (Sql.newest_first o_created_at
       (List.filter (fun r => String.eqb (o_entity_id r) entity_id) (observations d))).

Definition with_observations (texts : list string) (now : datetime)
    (fields : list (string * json)) (e : Entity.t) : Entity.t :=
  {| Entity.name := Entity.name e;
     Entity.entity_type := Entity.entity_type e;
     Entity.embedding := Entity.embedding e;
     Entity.id := Entity.id e;
     Entity.created_at := Entity.created_at e;
     Entity.updated_at := Time now;
     Entity.properties :=
       JObj (dict_set "observations" (JArr (List.map JStr texts)) fields) |}.

Lemma get_entity_stored (entity_id : string) (cache_ttl : Z) (w : World)
    (row : EntityRow) (rest : list EntityRow) (e : Entity.t)
    (fields : list (string * json)) :
  str_truthy entity_id = true ->
  redis w = None ->
  faults w = [] ->
  List.filter (fun r => String.eqb (e_id r) entity_id) (entities (db w))
  = row :: rest ->
  entity_of_row rt row = Return e ->
  Entity.properties e = JObj fields ->
  exists w',
    get_entity rt entity_id cache_ttl w
    = (Return (Some (with_observations (observation_texts (Entity.id e) (db w))
                       (clock_source w (clock_read w)) fields e)), w')
    /\ db w' = db w /\ committed w' = committed w /\ redis w' = None.
Proof.
  intros Hid Hr Hf Hrow He Hp.
  unfold get_entity. rewrite Hid. cbn [negb].
  unfold bind at 1, redis_client. rewrite Hr. cbv zeta.
  unfold bind at 1, ret at 1. unfold try_except at 1, bind at 1.
  erewrite execute_ok; [|exact Hf|reflexivity].
  unfold fetchone, fetchall. rewrite Hrow. cbn [hd_error].
  unfold bind at 1, pure at 1. rewrite He.
  unfold bind at 1, _add_observations_to_entity, try_except at 1, bind at 1.
  erewrite execute_ok; [|reflexivity|reflexivity].
  rewrite Hp. cbn.
  eexists. split; [reflexivity|]. cbn. auto.
Qed.

Lemma filter_app_last {X} (f : X -> bool) (l : list X) (x : X) :
  (forall y, In y l -> f y = false) -> f x = true ->
  List.filter f (l ++ [x]) = [x].
Proof.
  intros Hl Hx. rewrite List.filter_app, (filter_nil f l Hl). cbn. now rewrite Hx.
Qed.

(** The fields of the [dict] that [properties or {}] is. *)
Definition supplied_fields (properties : option (list (string * json)))
  : list (string * json) :=
  match properties with
  | Some fields => fields
  | None => []
  end.

Lemma properties_or_empty_fields properties :
  properties_or_empty properties = JObj (supplied_fields properties).
Proof. destruct properties as [[|kv l]|]; reflexivity. Qed.

(** C5 (as amended).  On a storage that raises nothing, with no cache
    configured, for a name and a type that are not blank, that no stored
    entity has together, and an id drawn that no stored row uses:
    [create_entity] returns the id drawn, and [get_entity] of that id
    returns an entity with this id, the name and the type supplied, the
    creation time read at the creation, and the properties supplied with the
    key ["observations"] set to the empty list.  The serialised properties,
    embedding and times are taken to load back. *)
Theorem get_entity_after_create (name entity_type : string)
    (embedding_function : option (string -> option (list float)))
    (embedding : option (list float))
    (properties : option (list (string * json))) (cache_ttl : option Z)
    (ttl : Z) (w : World) :
  let id := uuid_source w (uuid_drawn w) in
  let created := clock_source w (clock_read w) in
  let updated := clock_source w (S (clock_read w)) in
  let document := json_dumps rt (JObj (supplied_fields properties)) in
  redis w = None ->
  faults w = [] ->
  str_truthy id = true ->
  str_truthy (Str.strip name) = true ->
  str_truthy (Str.strip entity_type) = true ->
  (forall r, In r (entities (db w)) ->
             ~ (e_name r = name /\ e_entity_type r = entity_type)) ->
  (forall r, In r (entities (db w)) -> e_id r <> id) ->
  (forall r, In r (observations (db w)) -> o_entity_id r <> id) ->
  str_truthy document = true ->
  json_loads rt document = Some (JObj (supplied_fields properties)) ->
  (forall s, embedding_column rt (auto_embedding embedding_function embedding name)
             = Some s -> exists v, json_loads rt s = Some v) ->
  fromisoformat rt (isoformat rt created) = Some created ->
  fromisoformat rt (isoformat rt updated) = Some updated ->
  exists w1 w2 e,
    create_entity rt name entity_type embedding_function embedding properties
      cache_ttl w = (Return id, w1)
    /\ get_entity rt id ttl w1 = (Return (Some e), w2)
    /\ Entity.id e = id
    /\ Entity.name e = name
    /\ Entity.entity_type e = entity_type
    /\ Entity.created_at e = Time created
    /\ Entity.properties e
       = JObj (dict_set "observations" (JArr []) (supplied_fields properties)).
Proof.
  intros id created updated document Hr Hf Hid Hn Ht Hnew Hfresh Hobs Hdoc Hload
    Hemb Hc Hu.
  destruct (create_entity_new name entity_type embedding_function embedding
              properties cache_ttl w Hn Ht Hf Hnew Hfresh) as (c & Hcreate & Hnone).
  rewrite (Hnone Hr) in Hcreate.
  set (row := created_row name entity_type embedding_function embedding properties w)
    in *.
  assert (Hrow : exists emb,
             entity_of_row rt row
             = Return {| Entity.name := name; Entity.entity_type := entity_type;
                         Entity.embedding := emb; Entity.id := id;
                         Entity.created_at := Time created;
                         Entity.updated_at := Time updated;
                         Entity.properties := JObj (supplied_fields properties) |}).
  { unfold entity_of_row, row, created_row. cbn [e_embedding e_properties
      e_created_at e_updated_at e_name e_entity_type e_id].
    assert (He : exists emb,
               deserialize_embedding rt
                 (embedding_column rt (auto_embedding embedding_function embedding name))
               = Return emb).
    { unfold deserialize_embedding.
      destruct (embedding_column rt _) as [s|] eqn:Es; [|eauto].
      destruct (String.eqb s ""); [eauto|].
      destruct (Hemb s eq_refl) as (v & Hv). unfold loads. rewrite Hv. eauto. }
    destruct He as (emb & ->). exists emb. cbn [obind].
    unfold deserialize_properties, serialize_properties.
    rewrite properties_or_empty_fields. fold document. rewrite Hdoc. cbn [negb].
    unfold loads. rewrite Hload. cbn [of_option obind].
    fold created updated. rewrite Hc, Hu. reflexivity. }
  destruct Hrow as (emb & Hrow).
  match type of Hcreate with
  | _ = (_, ?W) =>
      assert (Hfilter :
                List.filter (fun r => String.eqb (e_id r) id) (entities (db W))
                = [row])
  end.
  { cbn [db with_redis with_committed with_db entities with_entity].
    apply filter_app_last.
    - intros r Hin. apply String.eqb_neq. exact (Hfresh r Hin).
    - apply String.eqb_refl. }
  match type of Hcreate with
  | _ = (_, ?W) =>
      destruct (get_entity_stored id ttl W row [] _ (supplied_fields properties)
                  Hid eq_refl eq_refl Hfilter Hrow eq_refl) as (w2 & Hget & _)
  end.
  eexists. eexists. eexists. split; [exact Hcreate|]. split; [exact Hget|].
  cbn. unfold observation_texts. cbn.
  rewrite filter_nil.
  2:{ intros r Hin. apply String.eqb_neq. exact (Hobs r Hin). }
  cbn. auto.
Qed.


(** *** Reads served by the cache *)

Lemma redis_get_frame key w o w1 :
  redis_get key w = (o, w1) ->
  db w1 = db w /\ committed w1 = committed w
  /\ executes w1 = executes w /\ retry_invocations w1 = retry_invocations w
  /\ faults w1 = faults w.
Proof.
  intros H. destruct (cache_only_call
                        (fun c => (fst <$> store c !! key, c)) w) as (c & Hc & _).
  unfold redis_get in H. rewrite H in Hc. cbn [snd] in Hc. subst w1.
  cbn. auto.
Qed.

Lemma redis_get_configured key w a w1 :
  redis_get key w = (Return a, w1) -> exists c, redis w = Some c.
Proof.
  unfold redis_get, cache_call. destruct (redis w) as [c|]; [eauto|discriminate].
Qed.

(** C7.  Each read, called with a cache configured whose [get] of the
    derived key returns a value that is not empty and decodes, returns the
    decoded value and does not touch the storage: [execute_with_retry] is
    not invoked, no statement is executed, and the tables are as before. *)
Theorem cache_hit_skips_storage (w w1 : World) (s : string) :
  str_truthy s = true ->
  (forall entity_id cache_ttl e,
      str_truthy entity_id = true ->
      redis_get (get_cache_key rt "get_entity" [JStr entity_id] []) w
      = (Return (Some s), w1) ->
      decode_entity rt s = Return e ->
      get_entity rt entity_id cache_ttl w = (Return (Some e), w1))
  /\ (forall name cache_ttl e,
        str_truthy name = true ->
        redis_get (get_cache_key rt "get_entity_by_name" [JStr name] []) w
        = (Return (Some s), w1) ->
        decode_entity rt s = Return e ->
        get_entity_by_name rt name cache_ttl w = (Return (Some e), w1))
  /\ (forall entity_id direction relation_type cache_ttl v,
        str_truthy entity_id = true ->
        valid_direction direction = true ->
        redis_get (get_cache_key rt "get_relations"
                     [JStr entity_id; JStr direction; optional_str relation_type] [])
          w = (Return (Some s), w1) ->
        loads rt s = Return v ->
        get_relations rt entity_id direction relation_type cache_ttl w
        = (Return v, w1))
  /\ (forall entity_id limit cache_ttl l,
        str_truthy entity_id = true ->
        redis_get (get_cache_key rt "get_observations" [JStr entity_id; JInt limit] [])
          w = (Return (Some s), w1) ->
        decode_observations rt s = Return l ->
        get_observations rt entity_id limit cache_ttl w = (Return l, w1))
  /\ (forall query entity_type limit min_similarity embedding_function cache_ttl v,
        str_truthy query = true ->
        redis_get (get_cache_key rt "search_entities"
                     [JStr query; optional_str entity_type; JInt limit;
                      JFloat min_similarity] []) w = (Return (Some s), w1) ->
        loads rt s = Return v ->
        search_entities rt query entity_type limit min_similarity
          embedding_function cache_ttl w = (Return v, w1))
  /\ (forall key, redis_get key w = (Return (Some s), w1) ->
        retry_invocations w1 = retry_invocations w
        /\ executes w1 = executes w
        /\ db w1 = db w /\ committed w1 = committed w).
Proof.
  intros Hs. repeat split.
  - intros entity_id cache_ttl e Hid Hget Hdec.
    destruct (redis_get_configured _ _ _ _ Hget) as (c & Hc).
    unfold get_entity. rewrite Hid. cbn [negb].
    unfold bind at 1, redis_client. rewrite Hc. cbv zeta.
    unfold bind at 1, cached_entity, bind at 1, try_except at 1.
    rewrite Hget, Hs. unfold try_except, bind, pure. rewrite Hdec. reflexivity.
  - intros name cache_ttl e Hid Hget Hdec.
    destruct (redis_get_configured _ _ _ _ Hget) as (c & Hc).
    unfold get_entity_by_name. rewrite Hid. cbn [negb].
    unfold bind at 1, redis_client. rewrite Hc. cbv zeta.
    unfold bind at 1, cached_entity, bind at 1, try_except at 1.
    rewrite Hget, Hs. unfold try_except, bind, pure. rewrite Hdec. reflexivity.
  - intros entity_id direction relation_type cache_ttl v Hid Hdir Hget Hdec.
    destruct (redis_get_configured _ _ _ _ Hget) as (c & Hc).
    unfold get_relations. rewrite Hid. cbn [negb].
    unfold valid_direction in Hdir. rewrite Hdir. cbn [negb].
    unfold bind at 1, redis_client. rewrite Hc. cbv zeta.
    unfold bind at 1, cached_json, bind at 1.
    rewrite Hget, Hs. unfold try_except, bind, pure. rewrite Hdec. reflexivity.
  - intros entity_id limit cache_ttl l Hid Hget Hdec.
    destruct (redis_get_configured _ _ _ _ Hget) as (c & Hc).
    unfold get_observations. rewrite Hid. cbn [negb].
    unfold bind at 1, redis_client. rewrite Hc. cbv zeta.
    unfold bind at 1, cached_observations, bind at 1.
    rewrite Hget, Hs. unfold try_except, bind, pure. rewrite Hdec. reflexivity.
  - intros query entity_type limit min_similarity embedding_function cache_ttl v
      Hid Hget Hdec.
    destruct (redis_get_configured _ _ _ _ Hget) as (c & Hc).
    unfold search_entities. rewrite Hid. cbn [negb].
    unfold bind at 1, redis_client. rewrite Hc. cbv zeta.
    unfold bind at 1, cached_json, bind at 1.
    rewrite Hget, Hs. unfold try_except, bind, pure. rewrite Hdec. reflexivity.
  - destruct (redis_get_frame _ _ _ _ H) as (_ & _ & _ & H1 & _). exact H1.
  - destruct (redis_get_frame _ _ _ _ H) as (_ & _ & H1 & _). exact H1.
  - destruct (redis_get_frame _ _ _ _ H) as (H1 & _). exact H1.
  - destruct (redis_get_frame _ _ _ _ H) as (_ & H1 & _). exact H1.
Qed.

End Operations.

(** ** The cache key *)

Section CacheKey.

Variable rt : Runtime.

(** The order [sorted] puts the items of [kwargs] in. *)
Definition key_le (kv kv' : string * json) : Prop :=
  String.leb (fst kv) (fst kv') = true.

Lemma ascii_compare_lt_trans (a b c : ascii) :
  Ascii.compare a b = Lt -> Ascii.compare b c = Lt -> Ascii.compare a c = Lt.
Proof.
  unfold Ascii.compare. rewrite !N.compare_lt_iff. lia.
Qed.

Lemma string_leb_trans (s1 : string) : forall s2 s3,
  String.leb s1 s2 = true -> String.leb s2 s3 = true -> String.leb s1 s3 = true.
Proof.
  unfold String.leb.
  induction s1 as [|a s1 IH]; intros [|b s2] [|c s3]; cbn; try congruence.
  destruct (Ascii.compare a b) eqn:Eab; try congruence;
    destruct (Ascii.compare b c) eqn:Ebc; try congruence.
  - apply Ascii.compare_eq_iff in Eab, Ebc. subst.
    replace (Ascii.compare c c) with Eq
      by (symmetry; unfold Ascii.compare; apply N.compare_refl).
    apply IH.
  - apply Ascii.compare_eq_iff in Eab. subst. now rewrite Ebc.
  - apply Ascii.compare_eq_iff in Ebc. subst. now rewrite Eab.
  - now rewrite (ascii_compare_lt_trans a b c Eab Ebc).
Qed.

#[local] Instance key_le_transitive : Transitive key_le.
Proof. intros x y z. apply string_leb_trans. Qed.

Lemma insert_item_perm kv l : Permutation (insert_item kv l) (kv :: l).
Proof.
  induction l as [|kv' l IH]; cbn; [reflexivity|].
  destruct (String.leb (fst kv) (fst kv')); [reflexivity|].
  rewrite IH. apply perm_swap.
Qed.

Lemma sorted_items_perm kwargs : Permutation (sorted_items kwargs) kwargs.
Proof.
  induction kwargs as [|kv l IH]; cbn; [reflexivity|].
  rewrite insert_item_perm. now constructor.
Qed.

Lemma insert_item_sorted kv l :
  Sorted key_le l -> Sorted key_le (insert_item kv l).
Proof.
  induction l as [|kv' l IH]; intros Hs; cbn.
  - repeat constructor.
  - destruct (String.leb (fst kv) (fst kv')) eqn:E.
    + constructor; [exact Hs|]. constructor. exact E.
    + inversion Hs as [|? ? Hs' Hhd]; subst.
      constructor; [apply IH; exact Hs'|].
      assert (Hle : key_le kv' kv).
      { unfold key_le. destruct (String.leb_total (fst kv) (fst kv')); congruence. }
      destruct l as [|kv'' l]; cbn.
      * constructor. exact Hle.
      * destruct (String.leb (fst kv) (fst kv'')); constructor;
          [exact Hle|now inversion Hhd].
Qed.

Lemma sorted_items_sorted kwargs : Sorted key_le (sorted_items kwargs).
Proof.
  induction kwargs as [|kv l IH]; cbn; [constructor|].
  now apply insert_item_sorted.
Qed.

(** The items of a [dict] sort to one list, whatever order they were
    passed in. *)
Lemma sorted_items_canonical kwargs kwargs' :
  NoDup (List.map fst kwargs) ->
  Permutation kwargs kwargs' ->
  sorted_items kwargs = sorted_items kwargs'.
Proof.
  intros Hnd Hp.
  apply (Sorted_unique_strong key_le); try apply sorted_items_sorted.
  - intros x1 x2 H1 H2 H12 H21.
    assert (Hk : fst x1 = fst x2) by (apply String.leb_antisym; assumption).
    apply list_elem_of_In in H1, H2.
    apply (Permutation_in _ (sorted_items_perm kwargs)) in H1.
    apply (Permutation_in _ (sorted_items_perm kwargs')) in H2.
    apply (Permutation_in _ (Permutation_sym Hp)) in H2.
    clear -Hnd Hk H1 H2.
    induction kwargs as [|kv l IH]; [destruct H1|].
    cbn in Hnd. apply NoDup_cons in Hnd. destruct Hnd as [Hnot Hnd].
    destruct H1 as [-> | H1], H2 as [-> | H2]; auto.
    + exfalso. apply Hnot. rewrite Hk. apply list_elem_of_In, in_map.
      exact H2.
    + exfalso. apply Hnot. rewrite <- Hk. apply list_elem_of_In, in_map.
      exact H1.
  - rewrite (sorted_items_perm kwargs), (sorted_items_perm kwargs'). exact Hp.
Qed.

(** C6 (as amended).  The key is [kg:], the operation name, [:] and the
    MD5 digest of the canonical string: the operation name, the [str] of
    each positional argument and [k=v] for each keyword argument in the
    order of the keys, joined by [:].  Keyword arguments passed in another
    order give the same key. *)
Theorem get_cache_key_canonical (operation : string) (args : list json)
    (kwargs : list (string * json)) :
  (exists items,
      Permutation items kwargs
      /\ Sorted key_le items
      /\ get_cache_key rt operation args kwargs
         = "kg:" +:+ operation +:+ ":"
           +:+ md5_hexdigest rt
                 (Str.join ":"
                    ([operation] ++ List.map (py_str rt) args
                     ++ List.map (fun kv => fst kv +:+ "=" +:+ py_str rt (snd kv))
                          items)))
  /\ (forall kwargs',
        NoDup (List.map fst kwargs) ->
        Permutation kwargs kwargs' ->
        get_cache_key rt operation args kwargs'
        = get_cache_key rt operation args kwargs).
Proof.
  split.
  - exists (sorted_items kwargs). split; [apply sorted_items_perm|].
    split; [apply sorted_items_sorted|]. reflexivity.
  - intros kwargs' Hnd Hp. unfold get_cache_key, key_string.
    now rewrite (sorted_items_canonical kwargs kwargs' Hnd Hp).
Qed.

End CacheKey.

(** ** Searching *)

Lemma string_app_empty_r (s : string) : s +:+ "" = s.
Proof.
  induction s as [|a s IH]; [reflexivity|].
  change (String a s +:+ "") with (String a (s +:+ "")). congruence.
Qed.

Section Search.

Variable rt : Runtime.

#[local] Arguments execute_with_retry : simpl never.
#[local] Arguments get_cache_key : simpl never.
#[local] Arguments when : simpl never.
#[local] Arguments String.append : simpl never.
#[local] Arguments cached_json : simpl never.
#[local] Arguments cache_json : simpl never.

(** *** The string tests *)

Lemma startswith_spec (s p : string) :
  Str.startswith s p = true <-> exists t, s = p +:+ t.
Proof.
  revert s. induction p as [|b p IH]; intros s.
  - split; [intros _; now exists s|intros _; destruct s; reflexivity].
  - destruct s as [|a s]; cbn.
    + split; [discriminate|intros (t & H); discriminate].
    + rewrite andb_true_iff, IH. split.
      * intros (Hab & t & ->). apply Ascii.eqb_eq in Hab. subst. now exists t.
      * intros (t & H). inversion H; subst. split; [apply Ascii.eqb_refl|now exists t].
Qed.

Lemma contains_spec (sub s : string) :
  Str.contains sub s = true <-> exists pre post, s = pre +:+ sub +:+ post.
Proof.
  induction s as [|a s IH]; cbn [Str.contains].
  - rewrite orb_false_r, startswith_spec. split.
    + intros (t & H). now exists "", t.
    + intros (pre & post & H). destruct pre; [now exists post|discriminate].
  - rewrite orb_true_iff, startswith_spec, IH. split.
    + intros [(t & H) | (pre & post & ->)].
      * now exists "", t.
      * now exists (String a pre), post.
    + intros (pre & post & H). destruct pre as [|b pre].
      * left. now exists post.
      * right. cbn in H. inversion H; subst. now exists pre, post.
Qed.

(** The four tiers. *)
Definition is_tier (f : float) : Prop :=
  f = 1.0%float \/ f = 0.8%float \/ f = 0.6%float \/ f = 0.4%float.

Lemma text_similarity_tier query name : is_tier (text_similarity query name).
Proof.
  unfold text_similarity, is_tier.
  destruct (String.eqb _ _); [auto|].
  destruct (Str.startswith _ _); [auto|].
  destruct (Str.contains _ _); auto.
Qed.

(** *** Sorting by similarity *)

(** [a] may stand before [b]: the similarity of [b] is not above that of [a]. *)
Definition not_below (a b : Candidate.t * float) : Prop :=
  PrimFloat.leb (snd b) (snd a) = true.

Lemma tier_order (x y : float) :
  is_tier x -> is_tier y ->
  (PrimFloat.ltb x y = true -> PrimFloat.leb x y = true)
  /\ (PrimFloat.ltb x y = false -> PrimFloat.leb y x = true).
Proof.
  unfold is_tier.
  intros [-> | [-> | [-> | ->]]] [-> | [-> | [-> | ->]]];
    split; vm_compute; congruence.
Qed.

Lemma tier_leb_trans (x y z : float) :
  is_tier x -> is_tier y -> is_tier z ->
  PrimFloat.leb x y = true -> PrimFloat.leb y z = true -> PrimFloat.leb x z = true.
Proof.
  unfold is_tier.
  intros [-> | [-> | [-> | ->]]] [-> | [-> | [-> | ->]]] [-> | [-> | [-> | ->]]];
    vm_compute; congruence.
Qed.

Lemma insert_by_similarity_in (x : Candidate.t * float) l y :
  In y (Sql.insert_by (fun a b => PrimFloat.ltb b a) snd x l) <-> y = x \/ In y l.
Proof.
  induction l as [|z l IH]; cbn.
  - intuition.
  - destruct (PrimFloat.ltb (snd x) (snd z)); cbn; rewrite ?IH; intuition.
Qed.

Lemma sort_by_similarity_in l y : In y (sort_by_similarity l) <-> In y l.
Proof.
  unfold sort_by_similarity, Sql.sort_by.
  induction l as [|x l IH]; cbn; [reflexivity|].
  rewrite insert_by_similarity_in, IH. intuition.
Qed.

Lemma insert_by_similarity_sorted (x : Candidate.t * float) l :
  is_tier (snd x) ->
  Forall (fun y => is_tier (snd y)) l ->
  StronglySorted not_below l ->
  StronglySorted not_below (Sql.insert_by (fun a b => PrimFloat.ltb b a) snd x l).
Proof.
  intros Hx Hl Hs. induction Hs as [|z l Hs IH Hz]; cbn.
  - repeat constructor.
  - inversion Hl as [|? ? Htz Hl']; subst.
    destruct (PrimFloat.ltb (snd x) (snd z)) eqn:E.
    + constructor; [apply IH; exact Hl'|].
      apply List.Forall_forall. intros y Hy.
      apply insert_by_similarity_in in Hy. destruct Hy as [-> | Hy].
      * apply (tier_order _ _ Hx Htz). exact E.
      * rewrite List.Forall_forall in Hz. exact (Hz y Hy).
    + assert (Hzx : not_below x z) by (apply (tier_order _ _ Hx Htz); exact E).
      constructor; [constructor; assumption|].
      constructor; [exact Hzx|].
      apply List.Forall_forall. intros y Hy.
      rewrite List.Forall_forall in Hz, Hl'.
      unfold not_below in *.
      apply (tier_leb_trans _ (snd z) _ (Hl' y Hy) Htz Hx (Hz y Hy) Hzx).
Qed.

Lemma sort_by_similarity_sorted l :
  Forall (fun y => is_tier (snd y)) l ->
  StronglySorted not_below (sort_by_similarity l).
Proof.
  unfold sort_by_similarity, Sql.sort_by.
  induction l as [|x l IH]; intros Hl; cbn; [constructor|].
  inversion Hl as [|? ? Hx Hl']; subst.
  apply insert_by_similarity_sorted; [exact Hx| |apply IH; exact Hl'].
  apply List.Forall_forall. intros y Hy.
  apply (sort_by_similarity_in l y) in Hy.
  rewrite List.Forall_forall in Hl'. exact (Hl' y Hy).
Qed.

Lemma In_firstn {X} (y : X) n : forall l, In y (firstn n l) -> In y l.
Proof.
  induction n as [|n IH]; intros [|x l]; cbn; try tauto.
  intros [-> | H]; [now left|right; now apply IH].
Qed.

Lemma StronglySorted_firstn {X} (R : X -> X -> Prop) n l :
  StronglySorted R l -> StronglySorted R (firstn n l).
Proof.
  revert l. induction n as [|n IH]; intros l Hs; cbn; [constructor|].
  destruct Hs as [|x l Hs Hx]; [constructor|].
  constructor; [apply IH; exact Hs|].
  apply List.Forall_forall. intros y Hy. rewrite List.Forall_forall in Hx.
  apply Hx. exact (In_firstn _ _ _ Hy).
Qed.


(** *** The steps of the search *)

Lemma collect_ok {X Y} (f : X -> outcome Y) (l : list X) :
  (forall x, In x l -> exists y, f x = Return y) ->
  exists l', collect f l = Return l' /\ Forall2 (fun x y => f x = Return y) l l'.
Proof.
  induction l as [|x l IH]; intros H; cbn.
  - exists []. split; [reflexivity|constructor].
  - destruct (H x (or_introl eq_refl)) as (y & Hy).
    destruct IH as (l' & Hl' & HF); [intros z Hz; apply H; now right|].
    exists (y :: l'). rewrite Hy, Hl'. split; [reflexivity|].
    constructor; assumption.
Qed.

Lemma sort_by_in {R K} (before : K -> K -> bool) (key : R -> K) (l : list R) y :
  In y (Sql.sort_by before key l) <-> In y l.
Proof.
  assert (Hins : forall x l', In y (Sql.insert_by before key x l') <-> y = x \/ In y l').
  { intros x l'. induction l' as [|z l' IH]; cbn; [intuition|].
    destruct (before (key z) (key x)); cbn; rewrite ?IH; intuition. }
  unfold Sql.sort_by. induction l as [|x l IH]; cbn; [reflexivity|].
  rewrite Hins, IH. intuition.
Qed.

Lemma limit_in {R} (n : Z) (l : list R) y : In y (Sql.limit n l) -> In y l.
Proof.
  unfold Sql.limit. destruct (n <? 0)%Z; [auto|apply In_firstn].
Qed.

(** The rows of the text search are stored rows. *)
Lemma search_by_name_rows type_filter params d rows d' :
  Sql.search_by_name type_filter params d = (Return rows, d') ->
  d' = d /\ forall r, In r rows -> In r (entities d).
Proof.
  unfold Sql.search_by_name.
  destruct (negb _); [discriminate|].
  destruct (nth _ params Sql.Null); try discriminate.
  unfold Sql.ok. intros H. inversion H; subst. split; [reflexivity|].
  intros r Hr. apply limit_in in Hr. apply (proj1 (sort_by_in _ _ _ _)) in Hr.
  apply filter_In in Hr. tauto.
Qed.

(** No embedding of the query: none was asked for, the function failed,
    or it returned an empty vector. *)
Definition no_query_embedding
    (embedding_function : option (string -> option (list float)))
    (query : string) : Prop :=
  match embedding_function with
  | Some f => match f query with Some (_ :: _) => False | _ => True end
  | None => True
  end.

Definition scored (query : string) (c : Candidate.t) : Candidate.t * float :=
  (c, text_similarity query (Candidate.name c)).

Definition kept (min_similarity : float) (cs : Candidate.t * float) : bool :=
  negb (PrimFloat.ltb (snd cs) min_similarity).

Lemma score_text query qe min_similarity cands :
  match qe with Some (_ :: _) => False | _ => True end ->
  score query qe min_similarity cands
  = Return (List.filter (kept min_similarity) (List.map (scored query) cands)).
Proof.
  intros Hqe. induction cands as [|c cands IH]; cbn [score]; [reflexivity|].
  assert (Hs : similarity_of query qe c
               = Return (text_similarity query (Candidate.name c))).
  { unfold similarity_of. destruct qe as [[|q0 qs]|]; try reflexivity.
    destruct Hqe. }
  rewrite Hs, IH. cbn [obind List.map List.filter scored kept snd].
  unfold kept. cbn [snd].
  destruct (PrimFloat.ltb _ min_similarity); reflexivity.
Qed.

(** A result with its count read from the tables [d]. *)
Definition result_of (d : Database) (cs : Candidate.t * float) : SearchResult.t :=
  {| SearchResult.id := Candidate.id (fst cs);
     SearchResult.name := Candidate.name (fst cs);
     SearchResult.entity_type := Candidate.entity_type (fst cs);
     SearchResult.created_at := Candidate.created_at (fst cs);
     SearchResult.updated_at := Candidate.updated_at (fst cs);
     SearchResult.properties := Candidate.properties (fst cs);
     SearchResult.similarity := snd cs;
     SearchResult.observation_count :=
       Z.of_nat
         (length (List.filter
                    (fun r => String.eqb (o_entity_id r) (Candidate.id (fst cs)))
                    (observations d))) |}.

Lemma add_observation_counts_ok results : forall w,
  faults w = [] ->
  exists w',
    add_observation_counts results w
    = (Return (List.map (result_of (db w)) results), w')
    /\ db w' = db w /\ committed w' = committed w /\ redis w' = redis w
    /\ faults w' = [].
Proof.
  induction results as [|[entity similarity] results IH]; intros w Hf.
  - exists w. cbn. auto.
  - cbn [add_observation_counts]. unfold bind at 1.
    erewrite execute_ok; [|exact Hf|reflexivity].
    unfold fetchone, fetchall. cbn [hd_error of_option].
    unfold bind at 1, pure at 1. unfold bind at 1.
    match goal with
    | |- context [add_observation_counts results ?W] =>
        destruct (IH W eq_refl) as (w' & -> & Hdb & Hcm & Hr & Hf')
    end.
    exists w'. cbn in *. auto.
Qed.


Lemma search_storage_text (query : string) (entity_type : option string)
    (limit : Z) (min_similarity : float)
    (embedding_function : option (string -> option (list float))) (w : World) :
  faults w = [] ->
  no_query_embedding embedding_function query ->
  (forall r, In r (entities (db w)) -> exists c, candidate_of_row rt r = Return c) ->
  exists rows cands w',
    Sql.search_by_name
      (match given entity_type with Some _ => true | None => false end)
      ([Sql.Text query; Sql.Text (query +:+ "%");
        Sql.Text ("%" +:+ query +:+ "%");
        Sql.Text query; Sql.Text (query +:+ "%");
        Sql.Text ("%" +:+ query +:+ "%")]
       ++ match given entity_type with Some t => [Sql.Text t] | None => [] end
       ++ [Sql.Integer limit]) (db w) = (Return rows, db w)
    /\ (forall r, In r rows -> In r (entities (db w)))
    /\ Forall2 (fun r c => candidate_of_row rt r = Return c) rows cands
    /\ search_storage rt query entity_type limit min_similarity embedding_function w
       = (Return
            (List.map (result_of (db w))
               (slice_to limit
                  (sort_by_similarity
                     (List.filter (kept min_similarity)
                        (List.map (scored query) cands))))), w')
    /\ db w' = db w /\ committed w' = committed w /\ redis w' = redis w
    /\ faults w' = [].
Proof.
  intros Hf Hqe Hdec. unfold search_storage.
  set (qe := match embedding_function with Some f => f query | None => None end).
  assert (Hqe' : match qe with Some (_ :: _) => False | _ => True end).
  { unfold qe, no_query_embedding in *. destruct embedding_function; auto. }
  match goal with
  | |- context [execute_with_retry (Sql.search_by_name ?tf ?ps) _] =>
      assert (Hrows : exists rows,
                 Sql.search_by_name tf ps (db w) = (Return rows, db w))
  end.
  { unfold Sql.search_by_name.
    destruct (given entity_type); cbn; eexists; reflexivity. }
  destruct Hrows as (rows & Hrows).
  destruct (search_by_name_rows _ _ _ _ _ Hrows) as (_ & Hin).
  destruct (collect_ok (candidate_of_row rt) rows) as (cands & Hc & HF).
  { intros r Hr. apply Hdec, Hin, Hr. }
  exists rows, cands.
  unfold bind at 1. erewrite execute_ok; [|exact Hf|exact Hrows].
  unfold fetchall. unfold bind at 1, pure at 1. rewrite Hc.
  unfold bind at 1.
  pose proof (score_text query qe min_similarity cands Hqe') as Hscore.
  clearbody qe. destruct qe as [[|q0 qs]|]; [|destruct Hqe'|].
  all: cbv iota; unfold ret at 1, bind at 1, pure at 1; rewrite Hscore;
    match goal with
    | |- context [add_observation_counts ?rs ?W] =>
        destruct (add_observation_counts_ok rs W eq_refl)
          as (w' & Hcount & Hdb & Hcm & Hr & Hf')
    end;
    exists w'; cbn in Hcount, Hdb, Hcm, Hr; rewrite Hcount;
    repeat split; auto.
Qed.

(** The tier of a name for a query, in the words of the specification:
    1.0 for a match of the whole name, 0.8 for a prefix, 0.6 for a
    substring, 0.4 otherwise, letter case apart. *)
Definition text_tier (query name : string) (similarity : float) : Prop :=
  let n := Str.lower name in
  let q := Str.lower query in
  (n = q -> similarity = 1.0%float)
  /\ (n <> q -> (exists t, n = q +:+ t) -> similarity = 0.8%float)
  /\ (~ (exists t, n = q +:+ t) -> (exists pre post, n = pre +:+ q +:+ post) ->
      similarity = 0.6%float)
  /\ (~ (exists pre post, n = pre +:+ q +:+ post) -> similarity = 0.4%float).

Lemma text_similarity_spec query name :
  text_tier query name (text_similarity query name).
Proof.
  unfold text_tier, text_similarity. cbv zeta.
  destruct (String.eqb_spec (Str.lower name) (Str.lower query)) as [He|He].
  - assert (Hp : exists t, Str.lower name = Str.lower query +:+ t).
    { exists "". now rewrite string_app_empty_r. }
    assert (Hc : exists pre post, Str.lower name = pre +:+ Str.lower query +:+ post).
    { exists "", "". rewrite string_app_empty_r. exact He. }
    repeat split; intros; try reflexivity; exfalso; tauto.
  - destruct (Str.startswith (Str.lower name) (Str.lower query)) eqn:Ep.
    + apply startswith_spec in Ep.
      assert (Hc : exists pre post,
                 Str.lower name = pre +:+ Str.lower query +:+ post).
      { destruct Ep as (t & Ht). now exists "", t. }
      repeat split; intros; try reflexivity; exfalso; tauto.
    + assert (Hnp : ~ exists t, Str.lower name = Str.lower query +:+ t).
      { intros H. apply startswith_spec in H. congruence. }
      destruct (Str.contains (Str.lower query) (Str.lower name)) eqn:Ec.
      * apply contains_spec in Ec.
        repeat split; intros; try reflexivity; exfalso; tauto.
      * assert (Hnc : ~ exists pre post,
                   Str.lower name = pre +:+ Str.lower query +:+ post).
        { intros H. apply contains_spec in H. congruence. }
        repeat split; intros; try reflexivity; exfalso; tauto.
Qed.

Lemma slice_to_in {X} (limit : Z) (l : list X) y : In y (slice_to limit l) -> In y l.
Proof. unfold slice_to. destruct (limit <? 0)%Z; apply In_firstn. Qed.


Lemma candidate_of_row_fields r c :
  candidate_of_row rt r = Return c ->
  Candidate.id c = e_id r /\ Candidate.name c = e_name r
  /\ Candidate.entity_type c = e_entity_type r.
Proof.
  unfold candidate_of_row.
  destruct (deserialize_embedding rt (e_embedding r)); [|discriminate].
  destruct (deserialize_properties rt (e_properties r)); [|discriminate].
  cbn. intros H. inversion H; subst. cbn. auto.
Qed.

Lemma Forall2_in_r {X Y} (P : X -> Y -> Prop) l l' y :
  Forall2 P l l' -> In y l' -> exists x, In x l /\ P x y.
Proof.
  induction 1 as [|x y' l l' Hxy HF IH]; intros Hin; [destruct Hin|].
  destruct Hin as [-> | Hin].
  - exists x. split; [now left|exact Hxy].
  - destruct (IH Hin) as (x' & Hx' & Hp). exists x'. split; [now right|exact Hp].
Qed.

Lemma cache_json_step (configured : bool) key v ttl w :
  exists c,
    cache_json rt configured key v ttl w = (Return tt, with_redis c w)
    /\ (redis w = None -> c = None).
Proof.
  apply run_cache_step; unfold cache_json.
  - apply cache_only_when, cache_only_try_except;
      [apply cache_only_call|intros; apply cache_only_ret].
  - apply total_when, total_try_except. intros; apply total_ret.
Qed.

(** The order of the results: the similarity never rises. *)
Definition descending (a b : SearchResult.t) : Prop :=
  PrimFloat.leb (SearchResult.similarity b) (SearchResult.similarity a) = true.

(** *** The rows the text search selects *)

(** A query without the wildcards of [LIKE]. *)
Fixpoint wildcard_free (s : string) : bool :=
  match s with
  | EmptyString => true
  | String c s' =>
      negb (Ascii.eqb c "%") && negb (Ascii.eqb c "_") && wildcard_free s'
  end.

(** The name holds the query, letter case apart. *)
Definition name_holds (query name : string) : bool :=
  Str.contains (Str.lower query) (Str.lower name).

Lemma like_star p s :
  Sql.like (String "%" p) s
  = Sql.like p s
    || match s with
       | EmptyString => false
       | String _ s' => Sql.like (String "%" p) s'
       end.
Proof. destruct s; reflexivity. Qed.

Lemma like_char c p s :
  Ascii.eqb c "%" = false ->
  Sql.like (String c p) s
  = match s with
    | EmptyString => false
    | String a s' =>
        (Ascii.eqb c "_" || Ascii.eqb (Str.lower_ascii a) (Str.lower_ascii c))
        && Sql.like p s'
    end.
Proof.
  intros H.
  change (Sql.like (String c p) s)
    with (if Ascii.eqb c "%"
          then (fix star (s : string) : bool :=
                  Sql.like p s ||
                  match s with
                  | EmptyString => false
                  | String _ s' => star s'
                  end) s
          else match s with
               | EmptyString => false
               | String a s' =>
                   (Ascii.eqb c "_"
                    || Ascii.eqb (Str.lower_ascii a) (Str.lower_ascii c))
                   && Sql.like p s'
               end).
  now rewrite H.
Qed.

Lemma like_any s : Sql.like "%" s = true.
Proof.
  induction s as [|a s IH]; rewrite like_star; [reflexivity|].
  rewrite IH. apply orb_true_r.
Qed.

Lemma wildcard_free_cons c q :
  wildcard_free (String c q) = true ->
  Ascii.eqb c "%" = false /\ Ascii.eqb c "_" = false /\ wildcard_free q = true.
Proof.
  cbn [wildcard_free]. intros H.
  apply andb_true_iff in H. destruct H as [H Hq].
  apply andb_true_iff in H. destruct H as [Hp Hu].
  apply negb_true_iff in Hp, Hu. auto.
Qed.

(** [name LIKE 'q%'] is the test for a prefix, letter case apart. *)
Lemma like_prefix q : forall s,
  wildcard_free q = true ->
  Sql.like (q +:+ "%") s = Str.startswith (Str.lower s) (Str.lower q).
Proof.
  induction q as [|c q IH]; intros s Hq.
  - change ("" +:+ "%") with "%". rewrite like_any. now destruct s.
  - destruct (wildcard_free_cons c q Hq) as (Hp & Hu & Hq').
    change (String c q +:+ "%") with (String c (q +:+ "%")).
    rewrite (like_char c _ s Hp).
    destruct s as [|a s]; [reflexivity|].
    rewrite Hu, (IH s Hq'). reflexivity.
Qed.

(** [name LIKE '%q%'] is the test for a substring, letter case apart. *)
Lemma like_contains q s :
  wildcard_free q = true ->
  Sql.like ("%" +:+ q +:+ "%") s = name_holds q s.
Proof.
  intros Hq. unfold name_holds.
  change ("%" +:+ q +:+ "%") with (String "%" (q +:+ "%")).
  induction s as [|a s IH]; rewrite like_star, (like_prefix q _ Hq).
  - cbn [Str.lower Str.contains]. reflexivity.
  - rewrite IH. reflexivity.
Qed.

Lemma like_exact q : forall s,
  wildcard_free q = true ->
  Sql.like q s = true -> Str.startswith (Str.lower s) (Str.lower q) = true.
Proof.
  induction q as [|c q IH]; intros s Hq H.
  - now destruct s.
  - destruct (wildcard_free_cons c q Hq) as (Hp & Hu & Hq').
    rewrite (like_char c q s Hp) in H.
    destruct s as [|a s]; [discriminate|].
    rewrite Hu in H. apply andb_true_iff in H. destruct H as [Ha H].
    cbn [Str.lower Str.startswith]. cbn [orb] in Ha.
    rewrite Ha, (IH s Hq' H). reflexivity.
Qed.

Lemma startswith_contains s p :
  Str.startswith s p = true -> Str.contains p s = true.
Proof. intros H. destruct s; cbn [Str.contains]; now rewrite H. Qed.

(** The [WHERE] clause of the text search selects the names that hold the
    query. *)
Lemma search_matches q name :
  wildcard_free q = true ->
  Sql.like q name || Sql.like (q +:+ "%") name
  || Sql.like ("%" +:+ q +:+ "%") name
  = name_holds q name.
Proof.
  intros Hq. rewrite (like_contains q name Hq).
  destruct (name_holds q name) eqn:E; [apply orb_true_r|].
  rewrite orb_false_r.
  destruct (Sql.like (q +:+ "%") name) eqn:Ep.
  - rewrite (like_prefix q name Hq) in Ep.
    apply startswith_contains in Ep. unfold name_holds in E. congruence.
  - rewrite orb_false_r.
    destruct (Sql.like q name) eqn:Ee; [|reflexivity].
    apply (like_exact q name Hq), startswith_contains in Ee.
    unfold name_holds in E. congruence.
Qed.

Lemma insert_by_length {R K} (before : K -> K -> bool) (key : R -> K) x l :
  length (Sql.insert_by before key x l) = S (length l).
Proof.
  induction l as [|y l IH]; cbn; [reflexivity|].
  destruct (before (key y) (key x)); cbn; [now rewrite IH|reflexivity].
Qed.

Lemma sort_by_length {R K} (before : K -> K -> bool) (key : R -> K) l :
  length (Sql.sort_by before key l) = length l.
Proof.
  unfold Sql.sort_by. induction l as [|x l IH]; cbn; [reflexivity|].
  now rewrite insert_by_length, IH.
Qed.

(** Without a type filter and with a limit that the number of names
    holding the query does not exceed, the text search selects the stored
    rows whose name holds the query, all of them. *)
Lemma search_by_name_all query limit d rows d' :
  wildcard_free query = true ->
  (Z.of_nat (length (List.filter (fun r => name_holds query (e_name r))
                       (entities d))) <= limit)%Z ->
  Sql.search_by_name false
    [Sql.Text query; Sql.Text (query +:+ "%"); Sql.Text ("%" +:+ query +:+ "%");
     Sql.Text query; Sql.Text (query +:+ "%"); Sql.Text ("%" +:+ query +:+ "%");
     Sql.Integer limit] d = (Return rows, d') ->
  (forall r, In r rows <-> In r (entities d) /\ name_holds query (e_name r) = true)
  /\ (Z.of_nat (length rows) <= limit)%Z.
Proof.
  intros Hq Hn H. unfold Sql.search_by_name in H.
  cbn [length Nat.eqb Nat.add negb nth] in H.
  rewrite (List.filter_ext _ (fun r => name_holds query (e_name r))) in H.
  2:{ intros r. rewrite andb_true_r. unfold Sql.like_value.
      cbn [Sql.as_text]. apply search_matches, Hq. }
  unfold Sql.ok in H. inversion H; subst; clear H.
  match goal with
  | |- context [Sql.limit limit ?l] =>
      assert (Hl : Sql.limit limit l = l)
  end.
  { unfold Sql.limit.
    replace (limit <? 0)%Z with false by (symmetry; apply Z.ltb_ge; lia).
    apply firstn_all2. rewrite sort_by_length. lia. }
  rewrite Hl. split.
  - intros r. rewrite sort_by_in, filter_In. reflexivity.
  - rewrite sort_by_length. exact Hn.
Qed.

Lemma Forall2_in_l {X Y} (P : X -> Y -> Prop) l l' x :
  Forall2 P l l' -> In x l -> exists y, In y l' /\ P x y.
Proof.
  induction 1 as [|x' y l l' Hxy HF IH]; intros Hin; [destruct Hin|].
  destruct Hin as [-> | Hin].
  - exists y. split; [now left|exact Hxy].
  - destruct (IH Hin) as (y' & Hy' & Hp). exists y'. split; [now right|exact Hp].
Qed.

(** A name has one tier. *)
Lemma text_tier_unique query name s1 s2 :
  text_tier query name s1 -> text_tier query name s2 -> s1 = s2.
Proof.
  unfold text_tier. cbv zeta.
  intros (A1 & A2 & A3 & A4) (B1 & B2 & B3 & B4).
  destruct (String.eqb_spec (Str.lower name) (Str.lower query)) as [He|He].
  { now rewrite (A1 He), (B1 He). }
  destruct (Str.startswith (Str.lower name) (Str.lower query)) eqn:Ep.
  { apply startswith_spec in Ep. now rewrite (A2 He Ep), (B2 He Ep). }
  assert (Hnp : ~ exists t, Str.lower name = Str.lower query +:+ t).
  { intros H. apply startswith_spec in H. congruence. }
  destruct (Str.contains (Str.lower query) (Str.lower name)) eqn:Ec.
  { apply contains_spec in Ec. now rewrite (A3 Hnp Ec), (B3 Hnp Ec). }
  assert (Hnc : ~ exists pre post,
             Str.lower name = pre +:+ Str.lower query +:+ post).
  { intros H. apply contains_spec in H. congruence. }
  now rewrite (A4 Hnc), (B4 Hnc).
Qed.

(** C9 (as amended).  [search_entities] without an embedding of the query,
    on a storage that raises nothing and whose rows decode, with a cache
    that does not serve the search, returns a list of results such that:
    the similarity of each is the tier of its name for the query (1.0 whole
    name, 0.8 prefix, 0.6 substring, 0.4 otherwise, letter case apart);
    none has a similarity below [min_similarity]; the similarities never
    rise along the list; for a limit that is not negative the list has at
    most [limit] results; each result carries the number of observations
    stored for its id; and each is a stored entity.  The list leaves
    nothing out: when no type filter is given, the query has no wildcard
    of [LIKE] and the limit is not below the number of stored names that
    hold the query, every stored entity whose name holds the query and
    whose tier is not below [min_similarity] is among the results, with its
    id, name, type and tier. *)
Theorem search_entities_text_ranking (query : string) (entity_type : option string)
    (limit : Z) (min_similarity : float)
    (embedding_function : option (string -> option (list float)))
    (cache_ttl : Z) (w : World) :
  str_truthy query = true ->
  faults w = [] ->
  cache_cold (get_cache_key rt "search_entities"
                [JStr query; optional_str entity_type; JInt limit;
                 JFloat min_similarity] []) w ->
  no_query_embedding embedding_function query ->
  (forall r, In r (entities (db w)) -> exists c, candidate_of_row rt r = Return c) ->
  exists results w',
    search_entities rt query entity_type limit min_similarity embedding_function
      cache_ttl w = (Return (JArr (List.map result_dict results)), w')
    /\ (forall r, In r results ->
          text_tier query (SearchResult.name r) (SearchResult.similarity r))
    /\ (forall r, In r results ->
          PrimFloat.ltb (SearchResult.similarity r) min_similarity = false)
    /\ StronglySorted descending results
    /\ ((0 <= limit)%Z -> (Z.of_nat (length results) <= limit)%Z)
    /\ (forall r, In r results ->
          SearchResult.observation_count r
          = Z.of_nat
              (length (List.filter
                         (fun o => String.eqb (o_entity_id o) (SearchResult.id r))
                         (observations (db w)))))
    /\ (forall r, In r results ->
          exists row, In row (entities (db w))
                      /\ e_id row = SearchResult.id r
                      /\ e_name row = SearchResult.name r)
    /\ db w' = db w
    /\ (given entity_type = None ->
        wildcard_free query = true ->
        (Z.of_nat (length (List.filter (fun row => name_holds query (e_name row))
                             (entities (db w)))) <= limit)%Z ->
        forall row similarity,
          In row (entities (db w)) ->
          (exists pre post,
              Str.lower (e_name row) = pre +:+ Str.lower query +:+ post) ->
          text_tier query (e_name row) similarity ->
          PrimFloat.ltb similarity min_similarity = false ->
          exists r, In r results
                    /\ SearchResult.id r = e_id row
                    /\ SearchResult.name r = e_name row
                    /\ SearchResult.entity_type r = e_entity_type row
                    /\ SearchResult.similarity r = similarity).
Proof.
  intros Hq Hf Hc Hqe Hdec.
  destruct (after_cache_call_storage w) as (Hdb & Hcm & Hfs & _).
  unfold search_entities. rewrite Hq. cbn [negb]. cbv zeta.
  rewrite (lookup_cold (cached_json rt)
             (fun configured hit =>
                match hit with Some cached => ret cached | None => _ end)
             _ w (cached_json_cold rt _ w) Hc).
  unfold try_except, bind at 1.
  destruct (search_storage_text query entity_type limit min_similarity
              embedding_function (after_cache_call w))
    as (rows & cands & w1 & Hsel & Hrows & HF & Hs & Hdb1 & _ & _ & _).
  { now rewrite Hfs. }
  { exact Hqe. }
  { rewrite Hdb. exact Hdec. }
  rewrite Hs. unfold bind at 1.
  match goal with
  | |- context [cache_json rt ?b ?k ?v ?t w1] =>
      destruct (cache_json_step b k v t w1) as (c & -> & _)
  end.
  set (scoredl := List.filter (kept min_similarity) (List.map (scored query) cands)).
  set (top := slice_to limit (sort_by_similarity scoredl)).
  assert (Htop : forall cs, In cs top ->
             exists cand, In cand cands /\ cs = scored query cand
                          /\ kept min_similarity cs = true).
  { intros cs Hcs. apply slice_to_in in Hcs.
    apply (proj1 (sort_by_similarity_in _ _)) in Hcs.
    unfold scoredl in Hcs. apply filter_In in Hcs. destruct Hcs as [Hcs Hk].
    apply in_map_iff in Hcs. destruct Hcs as (cand & <- & Hcand). eauto. }
  eexists. eexists. split; [reflexivity|].
  rewrite Hdb in *.
  refine (conj _ (conj _ (conj _ (conj _ (conj _ (conj _ (conj _ _))))))).
  - intros r Hr. apply in_map_iff in Hr. destruct Hr as (cs & <- & Hcs).
    destruct (Htop cs Hcs) as (cand & _ & -> & _). cbn.
    apply text_similarity_spec.
  - intros r Hr. apply in_map_iff in Hr. destruct Hr as (cs & <- & Hcs).
    destruct (Htop cs Hcs) as (cand & _ & _ & Hk). cbn.
    unfold kept in Hk. now apply negb_true_iff in Hk.
  - assert (Hsorted : StronglySorted not_below top).
    { unfold top, slice_to. destruct (limit <? 0)%Z;
        apply StronglySorted_firstn, sort_by_similarity_sorted;
        apply List.Forall_forall; intros cs Hcs; unfold scoredl in Hcs;
        apply filter_In in Hcs; destruct Hcs as [Hcs _];
        apply in_map_iff in Hcs; destruct Hcs as (cand & <- & _);
        apply text_similarity_tier. }
    clearbody top. clear -Hsorted.
    induction Hsorted as [|cs l Hs IH Hhd]; cbn; constructor; [exact IH|].
    apply List.Forall_forall. intros r Hr.
    apply in_map_iff in Hr. destruct Hr as (cs' & <- & Hcs').
    rewrite List.Forall_forall in Hhd. exact (Hhd cs' Hcs').
  - intros Hlimit. rewrite length_map. unfold top, slice_to.
    replace (limit <? 0)%Z with false by (symmetry; apply Z.ltb_ge; lia).
    pose proof (firstn_le_length (Z.to_nat limit) (sort_by_similarity scoredl)).
    lia.
  - intros r Hr. apply in_map_iff in Hr. destruct Hr as (cs & <- & Hcs).
    reflexivity.
  - intros r Hr. apply in_map_iff in Hr. destruct Hr as (cs & <- & Hcs).
    destruct (Htop cs Hcs) as (cand & Hcand & -> & _).
    destruct (Forall2_in_r _ _ _ _ HF Hcand) as (row & Hrow & Hfields).
    apply candidate_of_row_fields in Hfields. destruct Hfields as (H1 & H2 & _).
    exists row. cbn. split; [apply Hrows; exact Hrow|]. auto.
  - cbn. exact Hdb1.
  - intros Hty Hwf Hcount row similarity Hin Hholds Htier Hmin.
    rewrite Hty in Hsel. cbn [app] in Hsel.
    destruct (search_by_name_all query limit _ rows _ Hwf Hcount Hsel)
      as (Hall & Hlen).
    assert (Hrow : In row rows).
    { apply Hall. split; [exact Hin|]. apply contains_spec. exact Hholds. }
    destruct (Forall2_in_l _ _ _ _ HF Hrow) as (cand & Hcand & Hfields).
    apply candidate_of_row_fields in Hfields.
    destruct Hfields as (H1 & H2 & H3).
    assert (Hsim : text_similarity query (Candidate.name cand) = similarity).
    { apply (text_tier_unique query (e_name row)); [|exact Htier].
      rewrite <- H2. apply text_similarity_spec. }
    assert (Hscored : In (scored query cand) scoredl).
    { unfold scoredl. apply filter_In. split; [now apply in_map|].
      unfold kept, scored. cbn [snd]. rewrite Hsim, Hmin. reflexivity. }
    assert (Hall_top : top = sort_by_similarity scoredl).
    { unfold top, slice_to.
      replace (limit <? 0)%Z with false by (symmetry; apply Z.ltb_ge; lia).
      apply firstn_all2. unfold sort_by_similarity. rewrite sort_by_length.
      unfold scoredl.
      pose proof (List.filter_length_le (kept min_similarity)
                    (List.map (scored query) cands)) as Hle.
      rewrite length_map in Hle.
      rewrite <- (List.Forall2_length HF) in Hle. lia. }
    exists (result_of (db w) (scored query cand)).
    split.
    { apply in_map. rewrite Hall_top. apply sort_by_similarity_in. exact Hscored. }
    cbn. auto.
Qed.

End Search.

(** * The theorems on a sample graph *)

(** Every row of a table given in full has the property of the goal. *)
Ltac each_row :=
  let r := fresh "r" in
  let H := fresh "H" in
  intros r H; vm_compute in H;
  repeat (destruct H as [<- | H];
          [vm_compute; try discriminate; intros [? ?]; discriminate|]);
  destruct H.

(** C2 at work: with five attempts allowed, the storage is locked four
    times and then runs the statement; the fifth attempt succeeds after
    sleeps of 0.2, 0.4, 0.8 and 1.6 seconds. *)
Lemma execute_with_retry_spec_witness :
  let busy := OperationalError "database is locked" in
  let w := Sample.world Sample.graph [Some busy; Some busy; Some busy; Some busy]
             None in
  let out := execute_with_retry (Sql.select_entity_id "e1") 5 w in
  faults w = List.map Some [busy; busy; busy; busy] ++ []
  /\ Forall (fun e => is_locked e = true) [busy; busy; busy; busy]
  /\ fst out = Return (Some ["e1"])
  /\ executes (snd out) = 5%nat
  /\ sleeps (snd out) = [0.2%float; 0.4%float; 0.8%float; 1.6%float].
Proof.
  cbv zeta. split; [reflexivity|].
  assert (Hl : Forall (fun e => is_locked e = true)
                 [OperationalError "database is locked";
                  OperationalError "database is locked";
                  OperationalError "database is locked";
                  OperationalError "database is locked"])
    by (repeat constructor).
  split; [exact Hl|].
  destruct (execute_with_retry_spec (Sql.select_entity_id "e1") 5
              (Sample.world Sample.graph
                 [Some (OperationalError "database is locked");
                  Some (OperationalError "database is locked");
                  Some (OperationalError "database is locked");
                  Some (OperationalError "database is locked")] None))
    as (_ & H & _).
  destruct (H [OperationalError "database is locked";
               OperationalError "database is locked";
               OperationalError "database is locked";
               OperationalError "database is locked"] [] eq_refl Hl)
    as (H1 & H2 & H3 & _).
  - reflexivity.
  - intros e He. vm_compute in He. discriminate He.
  - split; [exact H1|]. split; [exact H2|]. rewrite H3. reflexivity.
Defined.

(** C3 at work: both entities are stored, the confidence is 1.5. *)
Lemma create_relation_rejects_confidence_witness :
  let w := Sample.world Sample.graph [] (Some Sample.empty_cache) in
  PrimFloat.ltb 1%float 1.5%float = true
  /\ exists msg,
       create_relation (Sample.runtime []) "e1" "e2" "calls" 1.5%float None w
       = (Raise (ValueError msg), w).
Proof.
  cbv zeta. split; [reflexivity|].
  apply create_relation_rejects_confidence. right. reflexivity.
Defined.

(** C1 at work: [Foo] is stored as a function; creating it again returns
    a stored id, creating it as a module returns the id drawn. *)
Lemma create_entity_dedup_witness :
  let rt := Sample.runtime [] in
  let w := Sample.world Sample.graph [] (Some Sample.empty_cache) in
  In (Sample.entity_row "e1" "Foo" "function") (entities (db w))
  /\ (exists r0 w',
         create_entity rt "Foo" "function" None None None None w
         = (Return (e_id r0), w')
         /\ In r0 (entities (db w))
         /\ e_name r0 = "Foo" /\ e_entity_type r0 = "function")
  /\ (exists w' row,
         create_entity rt "Foo" "module" None None None None w
         = (Return (e_id row), w')
         /\ entities (db w') = entities (db w) ++ [row]
         /\ e_id row <> "e1").
Proof.
  cbv zeta.
  assert (Hin : In (Sample.entity_row "e1" "Foo" "function")
                  (entities (db (Sample.world Sample.graph []
                                   (Some Sample.empty_cache)))))
    by (left; reflexivity).
  split; [exact Hin|].
  destruct (create_entity_dedup (Sample.runtime []) "Foo" "function" "module"
              None None None None
              (Sample.world Sample.graph [] (Some Sample.empty_cache))
              (Sample.entity_row "e1" "Foo" "function")
              eq_refl eq_refl eq_refl eq_refl Hin eq_refl eq_refl)
    as (Hsame & Hother).
  split; [exact Hsame|].
  destruct Hother as (Hnew & _); [each_row|].
  destruct Hnew as (w' & row & H1 & H2 & _ & _ & H3); [each_row|].
  exists w', row. auto.
Defined.

(** C10 at work: the duplicate call gives an embedding and properties of
    its own, and the tables and the cache stay as they were. *)
Lemma create_entity_duplicate_writes_nothing_witness :
  let rt := Sample.runtime [] in
  let w := Sample.world Sample.graph [] (Some Sample.empty_cache) in
  In (Sample.entity_row "e1" "Foo" "function") (entities (db w))
  /\ exists id w',
       create_entity rt "Foo" "function" None (Some [0.5%float])
         (Some [("lang", JStr "py")]) None w = (Return id, w')
       /\ db w' = db w /\ committed w' = committed w /\ redis w' = redis w.
Proof.
  cbv zeta.
  assert (Hin : In (Sample.entity_row "e1" "Foo" "function")
                  (entities (db (Sample.world Sample.graph []
                                   (Some Sample.empty_cache)))))
    by (left; reflexivity).
  split; [exact Hin|].
  exact (proj1 (create_entity_duplicate_writes_nothing (Sample.runtime [])
                  "Foo" "function" None (Some [0.5%float])
                  (Some [("lang", JStr "py")]) None
                  (Sample.world Sample.graph [] (Some Sample.empty_cache))
                  (Sample.entity_row "e1" "Foo" "function")
                  eq_refl eq_refl Hin eq_refl eq_refl) eq_refl).
Defined.

(** C4 at work: no record has the id [nope]. *)
Lemma missing_id_behaviour_witness :
  let rt := Sample.runtime [] in
  let w := Sample.world Sample.graph [] (Some Sample.empty_cache) in
  faults w = []
  /\ (exists w', update_entity rt "nope" (Some "Baz") None None None w
                 = (Return false, w') /\ db w' = db w)
  /\ (exists w', delete_entity rt "nope" w = (Return false, w') /\ db w' = db w)
  /\ (exists w', delete_relation rt "nope" w = (Return false, w') /\ db w' = db w)
  /\ (exists w', delete_observation rt "nope" w = (Return false, w')
                 /\ db w' = db w)
  /\ (exists w', get_entity rt "nope" 3600 w = (Return None, w') /\ db w' = db w)
  /\ (exists w', get_entity_by_name rt "nope" 3600 w = (Return None, w')
                 /\ db w' = db w)
  /\ (exists msg w', get_relations rt "nope" "both" None 3600 w
                     = (Raise (EntityNotFoundError msg), w') /\ db w' = db w)
  /\ (exists msg w', get_observations rt "nope" 100 3600 w
                     = (Raise (EntityNotFoundError msg), w') /\ db w' = db w).
Proof.
  cbv zeta. split; [reflexivity|].
  destruct (missing_id_behaviour (Sample.runtime [])
              (Sample.world Sample.graph [] (Some Sample.empty_cache)) eq_refl)
    as (H1 & H2 & H3 & H4 & H5 & H6 & H7 & H8).
  refine (conj _ (conj _ (conj _ (conj _ (conj _ (conj _ (conj _ _))))))).
  - apply H1; [reflexivity|each_row].
  - apply H2; [reflexivity|split; reflexivity|each_row].
  - apply H3; [reflexivity|each_row].
  - apply H4; [reflexivity|each_row].
  - apply H5; [reflexivity|split; reflexivity|each_row].
  - apply H6; [reflexivity|split; reflexivity|each_row].
  - apply H7; [reflexivity|reflexivity|split; reflexivity|each_row].
  - apply H8; [reflexivity|split; reflexivity|each_row].
Defined.

(** C4 as stated fails: for an id no entity has, [get_relations] and
    [get_observations] raise [EntityNotFoundError]; they return no empty
    list. *)
Lemma get_relations_missing_id_raises :
  let rt := Sample.runtime [] in
  let w := Sample.world Sample.graph [] None in
  fst (get_relations rt "nope" "both" None 3600 w)
  = Raise (EntityNotFoundError "Entity with ID 'nope' not found")
  /\ fst (get_observations rt "nope" 100 3600 w)
     = Raise (EntityNotFoundError "Entity with ID 'nope' not found")
  /\ fst (get_relations rt "nope" "both" None 3600 w) <> Return (JArr [])
  /\ fst (get_observations rt "nope" 100 3600 w) <> Return [].
Proof.
  cbv zeta. vm_compute.
  split; [reflexivity|]. split; [reflexivity|]. split; discriminate.
Qed.

(** C5 at work: an entity with one property is created in the sample graph
    and read back. *)
Lemma get_entity_after_create_witness :
  let fields := [("lang", JStr "py")] in
  let rt := Sample.runtime [JObj fields] in
  let w := Sample.world Sample.graph [] None in
  redis w = None
  /\ json_loads rt (json_dumps rt (JObj fields)) = Some (JObj fields)
  /\ exists w1 w2 e,
       create_entity rt "Baz" "function" None None (Some fields) None w
       = (Return "id-0", w1)
       /\ get_entity rt "id-0" 3600 w1 = (Return (Some e), w2)
       /\ Entity.id e = "id-0"
       /\ Entity.name e = "Baz"
       /\ Entity.entity_type e = "function"
       /\ Entity.created_at e = Time 1000%Z
       /\ Entity.properties e
          = JObj [("lang", JStr "py"); ("observations", JArr [])].
Proof.
  cbv zeta. split; [reflexivity|]. split; [reflexivity|].
  apply (get_entity_after_create (Sample.runtime [JObj [("lang", JStr "py")]])
           "Baz" "function" None None (Some [("lang", JStr "py")]) None 3600
           (Sample.world Sample.graph [] None)).
  - reflexivity.
  - reflexivity.
  - reflexivity.
  - reflexivity.
  - reflexivity.
  - each_row.
  - each_row.
  - each_row.
  - reflexivity.
  - reflexivity.
  - intros s Hs. discriminate Hs.
  - reflexivity.
  - reflexivity.
Defined.

(** C5 as stated fails: with no cache configured, the properties read
    back are not the properties supplied; they hold the key
    ["observations"] besides. *)
Lemma get_entity_after_create_adds_observations :
  let fields := [("lang", JStr "py")] in
  let rt := Sample.runtime [JObj fields] in
  let w := Sample.world empty_database [] None in
  exists w1 w2 e,
    create_entity rt "Baz" "function" None None (Some fields) None w
    = (Return "id-0", w1)
    /\ get_entity rt "id-0" 3600 w1 = (Return (Some e), w2)
    /\ Entity.properties e
       = JObj [("lang", JStr "py"); ("observations", JArr [])]
    /\ Entity.properties e <> JObj fields.
Proof.
  cbv zeta. eexists. eexists. eexists.
  split; [vm_compute; reflexivity|].
  split; [vm_compute; reflexivity|].
  split; [reflexivity|]. cbn. discriminate.
Qed.

(** C6 as stated fails: the key begins with [kg:], not with [graph:]. *)
Lemma get_cache_key_prefix_is_kg :
  let key := get_cache_key (Sample.runtime []) "get_entity" [JStr "e1"] [] in
  Str.startswith key "graph:" = false
  /\ Str.startswith key "kg:get_entity:" = true.
Proof. cbv zeta. split; reflexivity. Qed.

(** C7 at work: the cache holds the document of [e1]; every statement
    sent to the storage would raise, and [get_entity] returns the entity of
    the document. *)
Lemma cache_hit_skips_storage_witness :
  let rt := Sample.runtime [Sample.foo_document] in
  let w := Sample.world Sample.graph [Some (OtherError "disk I/O error")]
             (Some Sample.warm_cache) in
  str_truthy (Sample.print Sample.foo_document) = true
  /\ redis_get (get_cache_key rt "get_entity" [JStr "e1"] []) w
     = (Return (Some (Sample.print Sample.foo_document)), w)
  /\ exists e,
       get_entity rt "e1" 3600 w = (Return (Some e), w)
       /\ Entity.name e = "Foo"
       /\ decode_entity rt (Sample.print Sample.foo_document) = Return e.
Proof.
  cbv zeta. split; [reflexivity|].
  assert (Hget : redis_get
                   (get_cache_key (Sample.runtime [Sample.foo_document])
                      "get_entity" [JStr "e1"] [])
                   (Sample.world Sample.graph [Some (OtherError "disk I/O error")]
                      (Some Sample.warm_cache))
                 = (Return (Some (Sample.print Sample.foo_document)),
                    Sample.world Sample.graph [Some (OtherError "disk I/O error")]
                      (Some Sample.warm_cache)))
    by (vm_compute; reflexivity).
  split; [exact Hget|].
  destruct (cache_hit_skips_storage (Sample.runtime [Sample.foo_document])
              (Sample.world Sample.graph [Some (OtherError "disk I/O error")]
                 (Some Sample.warm_cache))
              (Sample.world Sample.graph [Some (OtherError "disk I/O error")]
                 (Some Sample.warm_cache))
              (Sample.print Sample.foo_document) eq_refl) as (H & _).
  eexists. split; [apply H; [reflexivity|exact Hget|vm_compute; reflexivity]|].
  split; reflexivity.
Defined.

(** C8 fails in the code: [delete_entity] does not invalidate the keys of
    [get_observations].  An entity is created, an observation is added and
    read, and the entity is deleted: [delete_entity] returns [True], the
    tables hold no entity and no observation, [get_entity] of the id
    returns [None], and [get_observations] of the id still returns the
    observation, out of the cache and without a statement executed. *)
Theorem delete_entity_leaves_cached_observations :
  let rt := Sample.runtime [JObj []; Sample.note_document] in
  let w0 := Sample.world empty_database [] (Some Sample.empty_cache) in
  let created := create_entity rt "Foo" "function" None None None None w0 in
  let added := add_observation rt "id-0" "note" None None None (snd created) in
  let read := get_observations rt "id-0" 100 3600 (snd added) in
  let deleted := delete_entity rt "id-0" (snd read) in
  let entity := get_entity rt "id-0" 3600 (snd deleted) in
  let stale := get_observations rt "id-0" 100 3600 (snd entity) in
  fst created = Return "id-0"
  /\ fst added = Return "id-1"
  /\ fst deleted = Return true
  /\ db (snd deleted) = empty_database
  /\ committed (snd deleted) = empty_database
  /\ fst entity = Return None
  /\ List.map Observation.observation
       match fst stale with Return l => l | Raise _ => [] end = ["note"]
  /\ fst stale = fst read
  /\ executes (snd stale) = executes (snd entity).
Proof.
  cbv zeta. vm_compute. repeat split.
Qed.

(** C9 at work: three names of the graph hold [foo].  At a threshold of
    0.7 the whole name and the prefix are returned, in this order, with
    the tiers 1.0 and 0.8 and the counts of their observations; the name
    that holds [foo] further in has the tier 0.6 and is dropped. *)
Lemma search_entities_text_ranking_witness :
  let rt := Sample.runtime [JObj []] in
  let w := Sample.world Sample.graph [] (Some Sample.empty_cache) in
  (Z.of_nat (length (List.filter (fun row => name_holds "foo" (e_name row))
                       (entities (db w)))) <= 10)%Z
  /\ exists results w',
       search_entities rt "foo" None 10 0.7%float None 3600 w
       = (Return (JArr (List.map result_dict results)), w')
       /\ List.map (fun r => (SearchResult.id r, SearchResult.name r,
                              SearchResult.similarity r,
                              SearchResult.observation_count r)) results
          = [("e1", "Foo", 1.0%float, 1%Z); ("e2", "FooBar", 0.8%float, 0%Z)]
       /\ (exists r, In r results /\ SearchResult.id r = "e1"
                     /\ SearchResult.similarity r = 1.0%float)
       /\ (exists r, In r results /\ SearchResult.id r = "e2"
                     /\ SearchResult.similarity r = 0.8%float)
       /\ (forall r, In r results ->
             PrimFloat.ltb (SearchResult.similarity r) 0.7%float = false)
       /\ StronglySorted descending results
       /\ (Z.of_nat (length results) <= 10)%Z
       /\ db w' = db w.
Proof.
  cbv zeta.
  assert (Hcount : (Z.of_nat
                      (length (List.filter
                                 (fun row => name_holds "foo" (e_name row))
                                 (entities
                                    (db (Sample.world Sample.graph []
                                           (Some Sample.empty_cache))))))
                    <= 10)%Z)
    by (vm_compute; discriminate).
  split; [exact Hcount|].
  destruct (search_entities_text_ranking (Sample.runtime [JObj []]) "foo" None 10
              0.7%float None 3600
              (Sample.world Sample.graph [] (Some Sample.empty_cache)))
    as (results & w' & H1 & H2 & H3 & H4 & H5 & H6 & _ & H8 & H9).
  - reflexivity.
  - reflexivity.
  - split; reflexivity.
  - exact I.
  - intros r H. vm_compute in H.
    repeat (destruct H as [<- | H]; [eexists; vm_compute; reflexivity|]).
    destruct H.
  - specialize (H9 eq_refl eq_refl Hcount).
    exists results, w'. split; [exact H1|].
    split.
    { vm_compute in H1. injection H1 as Hres _.
      destruct results as [|[] [|[] [|]]]; try discriminate Hres.
      cbn in Hres. inversion Hres; subst. reflexivity. }
    split.
    { destruct (H9 (Sample.entity_row "e1" "Foo" "function") 1.0%float)
        as (r & Hr & Hid & _ & _ & Hsim).
      - left. reflexivity.
      - exists "", "". reflexivity.
      - apply (text_similarity_spec "foo" "Foo").
      - reflexivity.
      - exists r. auto. }
    split.
    { destruct (H9 (Sample.entity_row "e2" "FooBar" "class") 0.8%float)
        as (r & Hr & Hid & _ & _ & Hsim).
      - right. left. reflexivity.
      - exists "", "bar". reflexivity.
      - apply (text_similarity_spec "foo" "FooBar").
      - reflexivity.
      - exists r. auto. }
    split; [exact H3|]. split; [exact H4|]. split; [apply H5; lia|exact H8].
Defined.

(** C9 as stated fails for a negative limit: [LIMIT -1] does not bound the
    rows, and the slice [results[:-1]] drops the last result only.  Of the
    three names that hold [foo], two are returned, more than the limit. *)
Lemma search_entities_negative_limit :
  let rt := Sample.runtime [JObj []] in
  let w := Sample.world Sample.graph [] None in
  exists results w',
    search_entities rt "foo" None (-1) 0.5%float None 3600 w
    = (Return (JArr (List.map result_dict results)), w')
    /\ List.map SearchResult.name results = ["Foo"; "FooBar"]
    /\ ~ (Z.of_nat (length results) <= -1)%Z.
Proof.
  cbv zeta.
  exists [ {| SearchResult.id := "e1"; SearchResult.name := "Foo";
              SearchResult.entity_type := "function";
              SearchResult.created_at := "1"; SearchResult.updated_at := "1";
              SearchResult.properties := JObj [];
              SearchResult.similarity := 1.0%float;
              SearchResult.observation_count := 1 |};
           {| SearchResult.id := "e2"; SearchResult.name := "FooBar";
              SearchResult.entity_type := "class";
              SearchResult.created_at := "1"; SearchResult.updated_at := "1";
              SearchResult.properties := JObj [];
              SearchResult.similarity := 0.8%float;
              SearchResult.observation_count := 0 |} ].
  eexists. split; [vm_compute; reflexivity|].
  split; [reflexivity|]. cbn. lia.
Qed.
